(** * Predictive-Dashboard: plan normalisation, KPI melting, execution stage
      and price suggestion

    A shallow embedding of [ml/routes/dashboard_api.py] and
    [ml/routes/pricing_api.py] (the latter is duplicated verbatim in
    [ml/pricing_api.py]).

    Python values are the ones [json.loads] can produce.  A [str] is a
    sequence of code points; here a code point is an 8-bit character, read as
    Latin-1, so [str.lower], [str.strip] and [repr] are the CPython functions
    restricted to code points below 256.  A [dict] keeps insertion order and is
    an association list; [plan[k] = v] overwrites in place or appends.
    Exceptions are values of [exn] carried in a sum. *)

From Stdlib Require Import String Ascii List ZArith NArith Bool Lia.
From Stdlib Require Import Numbers.DecimalString.
Import ListNotations.
Local Open Scope string_scope.
Local Open Scope bool_scope.

(* ===================================================================== *)
(** * Python values and builtins *)
(* ===================================================================== *)

Module Py.

#[local] Set Warnings "-register-all".

(** What [json.loads] returns.  A float is carried by its [repr], which
    CPython guarantees to determine the float (["0.5"], ["1e+16"], ["nan"],
    ["inf"]); only such strings are meaningful under [VFloat]. *)
Inductive value : Type :=
| VNone
| VBool (b : bool)
| VInt (z : Z)
| VFloat (repr : string)
| VStr (s : string)
| VList (items : list value)
| VDict (items : list (string * value)).

Definition dict : Type := list (string * value).

(** The exceptions the modelled code can raise. *)
Inductive exn : Type :=
| AttributeError
| TypeError
| IndexError
| JSONDecodeError
| APIError.

Definition result (A : Type) : Type := (exn + A)%type.

Definition Ok {A : Type} (a : A) : result A := inr a.
Definition Raise {A : Type} (e : exn) : result A := inl e.

Definition bind {A B : Type} (m : result A) (k : A -> result B) : result B :=
  match m with
  | inl e => inl e
  | inr a => k a
  end.

Notation "x <- m ;; k" := (bind m (fun x => k))
  (at level 61, m at next level, right associativity).

(** [try: body / except Exception: handler]. *)
Definition try_except {A : Type} (body : result A) (handler : exn -> result A)
  : result A :=
  match body with
  | inl e => handler e
  | inr a => inr a
  end.

(** ** Strings *)

Definition code (c : ascii) : N := N_of_ascii c.

(** [str.isspace] on one code point below 256: TAB..CR, FS..US, SPACE,
    NEL and NBSP. *)
Definition isspace (c : ascii) : bool :=
  let n := code c in
  ((9 <=? n) && (n <=? 13) || (28 <=? n) && (n <=? 32)
   || (n =? 133) || (n =? 160))%N.

Fixpoint lstrip (s : string) : string :=
  match s with
  | EmptyString => EmptyString
  | String c s' => if isspace c then lstrip s' else s
  end.

Fixpoint rstrip (s : string) : string :=
  match s with
  | EmptyString => EmptyString
  | String c s' =>
      match rstrip s' with
      | EmptyString => if isspace c then EmptyString else String c EmptyString
      | r => String c r
      end
  end.

(** [s.strip()] *)
Definition strip (s : string) : string := rstrip (lstrip s).

(** [str.lower] on one code point below 256: A..Z and the Latin-1 capitals
    U+00C0..U+00DE (U+00D7, the multiplication sign, excepted). *)
Definition lower_char (c : ascii) : ascii :=
  let n := code c in
  if ((65 <=? n) && (n <=? 90)
      || (192 <=? n) && (n <=? 222) && negb (n =? 215))%N
  then ascii_of_N (n + 32)
  else c.

(** [s.lower()] *)
Fixpoint lower (s : string) : string :=
  match s with
  | EmptyString => EmptyString
  | String c s' => String (lower_char c) (lower s')
  end.

(** [needle in hay] for two strings. *)
Fixpoint contains (needle hay : string) : bool :=
  String.prefix needle hay
  || match hay with
     | EmptyString => false
     | String _ hay' => contains needle hay'
     end.

(** [s in {...}] / [s in (...)] for a string and a collection of strings. *)
Definition in_strs (s : string) (l : list string) : bool :=
  existsb (String.eqb s) l.

Fixpoint join (sep : string) (l : list string) : string :=
  match l with
  | [] => EmptyString
  | [x] => x
  | x :: l' => x ++ sep ++ join sep l'
  end.

Definition squote : ascii := ascii_of_N 39.
Definition dquote : ascii := ascii_of_N 34.
Definition backslash : ascii := ascii_of_N 92.

Fixpoint has_char (c : ascii) (s : string) : bool :=
  match s with
  | EmptyString => false
  | String c' s' => Ascii.eqb c c' || has_char c s'
  end.

Definition hex_digit (n : N) : ascii :=
  if (n <? 10)%N then ascii_of_N (48 + n) else ascii_of_N (87 + n).

(** [str.isprintable] on one code point below 256. *)
Definition isprintable (c : ascii) : bool :=
  let n := code c in
  ((32 <=? n) && (n <? 127) || (161 <=? n) && negb (n =? 173))%N.

Definition repr_char (quote c : ascii) : string :=
  let n := code c in
  if Ascii.eqb c quote || Ascii.eqb c backslash
  then String backslash (String c EmptyString)
  else if (n =? 9)%N then String backslash "t"
  else if (n =? 10)%N then String backslash "n"
  else if (n =? 13)%N then String backslash "r"
  else if isprintable c then String c EmptyString
  else String backslash
         (String "x" (String (hex_digit (n / 16)) (String (hex_digit (n mod 16)) EmptyString))).

Fixpoint repr_chars (quote : ascii) (s : string) : string :=
  match s with
  | EmptyString => EmptyString
  | String c s' => repr_char quote c ++ repr_chars quote s'
  end.

(** [repr(s)] for a string: single quotes unless the string holds a single
    quote and no double quote. *)
Definition repr_str (s : string) : string :=
  let quote := if has_char squote s && negb (has_char dquote s)
               then dquote else squote in
  String quote (repr_chars quote s ++ String quote EmptyString).

Definition repr_int (z : Z) : string := NilZero.string_of_int (Z.to_int z).

(** [repr(v)] *)
Fixpoint py_repr (v : value) : string :=
  match v with
  | VNone => "None"
  | VBool true => "True"
  | VBool false => "False"
  | VInt z => repr_int z
  | VFloat r => r
  | VStr s => repr_str s
  | VList l => "[" ++ join ", " (map py_repr l) ++ "]"
  | VDict kvs =>
      "{" ++ join ", " (map (fun kv => match kv with
                                       | (k, x) => repr_str k ++ ": " ++ py_repr x
                                       end) kvs) ++ "}"
  end.

(** [str(v)] *)
Definition py_str (v : value) : string :=
  match v with
  | VStr s => s
  | _ => py_repr v
  end.

(** [bool(v)] *)
Definition truthy (v : value) : bool :=
  match v with
  | VNone => false
  | VBool b => b
  | VInt z => negb (z =? 0)%Z
  | VFloat r => negb (in_strs r ["0.0"; "-0.0"])
  | VStr s => negb (String.eqb s EmptyString)
  | VList l => match l with [] => false | _ => true end
  | VDict kvs => match kvs with [] => false | _ => true end
  end.

(** [a or b] *)
Definition py_or (a b : value) : value := if truthy a then a else b.

(** [v is None] *)
Definition is_None (v : value) : bool :=
  match v with
  | VNone => true
  | _ => false
  end.

(** [v == s] for a string constant [s]. *)
Definition eq_str (v : value) (s : string) : bool :=
  match v with
  | VStr s' => String.eqb s' s
  | _ => false
  end.

(** [v in (s1, s2, ...)] for string constants. *)
Definition in_str_tuple (v : value) (l : list string) : bool :=
  existsb (eq_str v) l.

(** Structural equality of JSON values (the numeric tower of [==], where
    [1 == 1.0 == True], is not modelled). *)
Fixpoint value_eqb (a b : value) : bool :=
  match a, b with
  | VNone, VNone => true
  | VBool x, VBool y => Bool.eqb x y
  | VInt x, VInt y => (x =? y)%Z
  | VFloat x, VFloat y => String.eqb x y
  | VStr x, VStr y => String.eqb x y
  | VList xs, VList ys =>
      (fix go (xs ys : list value) : bool :=
         match xs, ys with
         | [], [] => true
         | x :: xs', y :: ys' => value_eqb x y && go xs' ys'
         | _, _ => false
         end) xs ys
  | VDict xs, VDict ys =>
      (fix go (xs ys : list (string * value)) : bool :=
         match xs, ys with
         | [], [] => true
         | (k, x) :: xs', (k', y) :: ys' =>
             String.eqb k k' && value_eqb x y && go xs' ys'
         | _, _ => false
         end) xs ys
  | _, _ => false
  end.

(** ** Dictionaries *)

(** [d.get(k)] as an option: [None] when the key is absent. *)
Fixpoint dict_lookup (d : dict) (k : string) : option value :=
  match d with
  | [] => None
  | (k', v) :: d' => if String.eqb k k' then Some v else dict_lookup d' k
  end.

(** [d.get(k, default)] *)
Definition dict_get_or (d : dict) (k : string) (default : value) : value :=
  match dict_lookup d k with
  | Some v => v
  | None => default
  end.

(** [d.get(k)] *)
Definition dict_get (d : dict) (k : string) : value := dict_get_or d k VNone.

(** [d[k] = v]: the entry is overwritten where it stands, or appended. *)
Fixpoint dict_setitem (d : dict) (k : string) (v : value) : dict :=
  match d with
  | [] => [(k, v)]
  | (k', v') :: d' =>
      if String.eqb k k' then (k', v) :: d'
      else (k', v') :: dict_setitem d' k v
  end.

(** [m.get(k, default)] for a table of strings such as [ch_map]. *)
Fixpoint table_get (m : list (string * string)) (k default : string) : string :=
  match m with
  | [] => default
  | (k', v) :: m' => if String.eqb k k' then v else table_get m' k default
  end.

End Py.

(* ===================================================================== *)
(** * The plan normaliser ([dashboard_api.py], [_normalize_plan]) *)
(* ===================================================================== *)

Module Planner.
Import Py.

Definition valid_ds : list string :=
  ["kpi_totals"; "kpi_expensesByCategory"; "kpi_monthly"; "kpi_daily";
   "products"; "transactions"].

Definition ch_map : list (string * string) :=
  [("bar", "bar"); ("bar chart", "bar");
   ("line", "line"); ("line chart", "line");
   ("scatter", "scatter"); ("scatter plot", "scatter");
   ("pie", "pie"); ("pie chart", "pie");
   ("histogram", "histogram");
   ("box", "box"); ("box plot", "box")].

(** The chart types [llm_plan] asks for and [build_chart] dispatches on. *)
Definition canonical_charts : list string :=
  ["bar"; "line"; "scatter"; "pie"; "histogram"; "box"].

(** Lines 252-265: the local [ds] after the allow-list test.  Both arms of
    the inner [if] assign ["kpi_totals"]. *)
Definition repair_dataset (plan : dict) : string :=
  let ds := strip (py_str (py_or (dict_get plan "dataset") (VStr EmptyString))) in
  if negb (in_strs ds valid_ds) then
    if in_strs (lower ds) ["kpis"; "kpi"; "totals"] then "kpi_totals"
    else "kpi_totals"
  else ds.

(** Lines 269-278: the value stored under [chart_type]. *)
Definition repair_chart_type (plan : dict) : string :=
  let ch := lower (strip (py_str (py_or (dict_get plan "chart_type") (VStr EmptyString)))) in
  table_get ch_map ch "bar".

(** [plan["x"] = plan.get("x") or dx; plan["y"] = plan.get("y") or dy] *)
Definition default_axes (plan : dict) (dx dy : value) : dict :=
  let plan := dict_setitem plan "x" (py_or (dict_get plan "x") dx) in
  dict_setitem plan "y" (py_or (dict_get plan "y") dy).

(** Lines 281-306: the [if]/[elif] chain on the local [ds]; a [ds] matching
    no arm leaves the plan as it is. *)
Definition axis_defaults (ds : string) (plan : dict) : dict :=
  if String.eqb ds "kpi_totals" then
    default_axes plan (VStr "metric") (VStr "value")
  else if String.eqb ds "kpi_expensesByCategory" then
    default_axes plan (VStr "category") (VStr "value")
  else if String.eqb ds "kpi_monthly" then
    default_axes plan (VStr "month") (VStr "revenue")
  else if String.eqb ds "kpi_daily" then
    default_axes plan (VStr "date") (VStr "revenue")
  else if String.eqb ds "products" then
    if in_str_tuple (dict_get plan "chart_type") ["scatter"; "line"] then
      default_axes plan (VStr "price") (VStr "expense")
    else
      default_axes plan (VStr "createdAt") (VStr "price")
  else if String.eqb ds "transactions" then
    if in_str_tuple (dict_get plan "chart_type") ["box"; "histogram"] then
      default_axes plan (VStr "amount") VNone
    else
      default_axes plan (VStr "buyer") (VStr "amount")
  else plan.

(** The pair of defaults [(dx, dy)] each arm of that chain hands to the two
    assignments, given the [chart_type] the plan holds; it serves to state
    what [axis_defaults] does. *)
Definition axis_pair (ds : string) (chart : value) : option (value * value) :=
  if String.eqb ds "kpi_totals" then Some (VStr "metric", VStr "value")
  else if String.eqb ds "kpi_expensesByCategory" then Some (VStr "category", VStr "value")
  else if String.eqb ds "kpi_monthly" then Some (VStr "month", VStr "revenue")
  else if String.eqb ds "kpi_daily" then Some (VStr "date", VStr "revenue")
  else if String.eqb ds "products" then
    if in_str_tuple chart ["scatter"; "line"]
    then Some (VStr "price", VStr "expense")
    else Some (VStr "createdAt", VStr "price")
  else if String.eqb ds "transactions" then
    if in_str_tuple chart ["box"; "histogram"]
    then Some (VStr "amount", VNone)
    else Some (VStr "buyer", VStr "amount")
  else None.

(** Lines 309-310. *)
Definition optional_fields (plan : dict) : dict :=
  let plan := dict_setitem plan "filter" (py_or (dict_get plan "filter") VNone) in
  dict_setitem plan "calculation" (py_or (dict_get plan "calculation") VNone).

(** Lines 319-331: the list [metrics] built from the lower-cased [reason]. *)
Definition reason_text (plan : dict) : string :=
  lower (py_str (dict_get_or plan "reason" (VStr EmptyString))).

Definition inferred_metrics (plan : dict) : list value :=
  let prompt_text := reason_text plan in
  let has_rev := contains "revenue" prompt_text in
  let has_exp := contains "expense" prompt_text in
  let has_prof := contains "profit" prompt_text in
  (if has_rev then [VStr "totalRevenue"] else [])
  ++ (if has_exp then [VStr "totalExpenses"] else [])
  ++ (if has_prof then [VStr "totalProfit"] else []).

(** Lines 318-334. *)
Definition infer_filter (ds : string) (plan : dict) : dict :=
  if String.eqb ds "kpi_totals" && is_None (dict_get plan "filter") then
    let metrics := inferred_metrics plan in
    if truthy (VList metrics)
    then dict_setitem plan "filter" (VDict [("metric", VList metrics)])
    else plan
  else plan.

(** Lines 309 and 318-334 read together: the filter the plan ends with is the
    supplied one when it is truthy, else [None], unless the dataset is
    [kpi_totals] and the reason names a metric.  It serves to state what
    [normalize_dict] stores under [filter]. *)
Definition final_filter (plan : dict) : value :=
  let f0 := py_or (dict_get plan "filter") VNone in
  if String.eqb (repair_dataset plan) "kpi_totals" && is_None f0
     && truthy (VList (inferred_metrics plan))
  then VDict [("metric", VList (inferred_metrics plan))]
  else f0.

(** [_normalize_plan] on a [dict]: the five stages in the order of the
    source, each working on the plan the previous one left. *)
Definition normalize_dict (plan : dict) : dict :=
  let ds := repair_dataset plan in
  let plan := dict_setitem plan "dataset" (VStr ds) in
  let plan := dict_setitem plan "chart_type" (VStr (repair_chart_type plan)) in
  let plan := axis_defaults ds plan in
  let plan := optional_fields plan in
  infer_filter ds plan.

(** The literal of lines 394-402. *)
Definition fallback_plan : dict :=
  [("dataset", VStr "kpi_totals");
   ("chart_type", VStr "bar");
   ("x", VStr "metric");
   ("y", VStr "value");
   ("filter", VNone);
   ("calculation", VNone);
   ("reason", VStr "Fallback plan")].

(** A candidate plan as the oracle may send it: no axes, no filter, a chart
    type that needs the synonym table. *)
Definition scenario_plan : dict :=
  [("dataset", VStr "kpi_totals");
   ("chart_type", VStr "bar chart");
   ("reason", VStr "comparing revenue and expenses")].

(** A candidate plan with a filter of its own and a reason that names another
    metric. *)
Definition filtered_plan : dict :=
  [("dataset", VStr "kpi_totals");
   ("filter", VDict [("metric", VList [VStr "totalProfit"])]);
   ("reason", VStr "profit only, not revenue")].

(** What [_normalize_plan] leaves behind: the six fields are present, the
    dataset and the chart type are canonical, [x] is truthy, [y], [filter]
    and [calculation] are truthy or [None] ([y] being [None] only where the
    dataset's default is), and a [kpi_totals] plan without filter has a
    reason that names no metric. *)
Definition finalized (q : dict) : Prop :=
  exists ds ch x y f c,
    dict_lookup q "dataset" = Some (VStr ds) /\ In ds valid_ds
    /\ dict_lookup q "chart_type" = Some (VStr ch) /\ In ch canonical_charts
    /\ dict_lookup q "x" = Some x /\ truthy x = true
    /\ dict_lookup q "y" = Some y
    /\ (truthy y = true
        \/ y = VNone /\ exists dx, axis_pair ds (VStr ch) = Some (dx, VNone))
    /\ dict_lookup q "filter" = Some f /\ (truthy f = true \/ f = VNone)
    /\ dict_lookup q "calculation" = Some c /\ (truthy c = true \/ c = VNone)
    /\ (ds = "kpi_totals" -> f = VNone -> inferred_metrics q = []).

(** [_normalize_plan(plan)] for whatever [json.loads] produced: anything
    but a [dict] has no [get] and raises at line 252. *)
Definition _normalize_plan (plan : value) : result value :=
  match plan with
  | VDict d => Ok (VDict (normalize_dict d))
  | _ => Raise AttributeError
  end.

End Planner.


(* ===================================================================== *)
(** * The oracle adapter ([_clean_json], [llm_plan]) *)
(* ===================================================================== *)

Module Oracle.
Import Py Planner.

Definition is_ascii_letter (c : ascii) : bool :=
  let n := code c in
  ((65 <=? n) && (n <=? 90) || (97 <=? n) && (n <=? 122))%N.

Fixpoint drop_letters (s : string) : string :=
  match s with
  | EmptyString => EmptyString
  | String c s' => if is_ascii_letter c then drop_letters s' else s
  end.

Definition fence : string := "```".
Definition newline : string := String (ascii_of_N 10) EmptyString.

(** [re.sub] of the pattern [^```[a-zA-Z]*] by nothing: the pattern can only match at
    position 0, and the letter run is greedy. *)
Definition sub_open_fence (raw : string) : string :=
  if String.prefix fence raw
  then drop_letters (String.substring 3 (String.length raw - 3) raw)
  else raw.

(** [re.sub] of the pattern [```$] by nothing: without MULTILINE, [$] holds at the end of
    the string and just before a final newline. *)
Fixpoint sub_close_fence (raw : string) : string :=
  if String.eqb raw fence then EmptyString
  else if String.eqb raw (fence ++ newline) then newline
  else match raw with
       | EmptyString => EmptyString
       | String c raw' => String c (sub_close_fence raw')
       end.

Fixpoint last_char (s : string) : option ascii :=
  match s with
  | EmptyString => None
  | String c EmptyString => Some c
  | String _ s' => last_char s'
  end.

Fixpoint from_first (c : ascii) (s : string) : option string :=
  match s with
  | EmptyString => None
  | String c' s' => if Ascii.eqb c c' then Some s else from_first c s'
  end.

(** [re.search(r"\{.*\}\s*$", raw, flags=re.DOTALL)], as [m.group(0)]: a
    match needs the last non-space character to be a closing brace and an
    opening brace somewhere before it; the leftmost opening brace starts the
    match, which runs to the end of the string. *)
Definition search_object (raw : string) : option string :=
  match last_char (rstrip raw) with
  | Some c => if Ascii.eqb c "}" then from_first "{" raw else None
  | None => None
  end.

Definition _clean_json (raw : string) : string :=
  let raw := strip raw in
  let raw :=
    if String.prefix fence raw
    then strip (sub_close_fence (strip (sub_open_fence raw)))
    else raw in
  match search_object raw with
  | Some m => m
  | None => raw
  end.

(** What [openai_client.chat.completions.create] did: it raised, or it
    returned a response whose [choices] carry a [message.content] each
    ([None] where the API sent [null]). *)
Inductive completion : Type :=
| CreateRaised
| Completion (choices : list (option string)).

(** The libraries behind [llm_plan]: the chat client, seen as a function of
    the user's prompt, and [json.loads], which raises on text that is not
    JSON. *)
Class Services : Type := {
  chat_completions_create : string -> completion;
  json_loads : string -> result value
}.

(** [resp.choices[0].message.content.strip()] *)
Definition first_content (resp : completion) : result string :=
  match resp with
  | CreateRaised => Raise APIError
  | Completion [] => Raise IndexError
  | Completion (None :: _) => Raise AttributeError
  | Completion (Some content :: _) => Ok (strip content)
  end.

(** The body of the [try] of lines 381-391. *)
Definition llm_plan_try `{Services} (prompt : string) : result value :=
  raw <- first_content (chat_completions_create prompt) ;;
  plan <- json_loads (_clean_json raw) ;;
  _normalize_plan plan.

Definition llm_plan `{Services} (prompt : string) : result value :=
  try_except (llm_plan_try prompt)
             (fun _ => _normalize_plan (VDict fallback_plan)).

(** An oracle that cannot be reached, with a parser that accepts nothing. *)
Definition unreachable_services : Services :=
  {| chat_completions_create := fun _ => CreateRaised;
     json_loads := fun _ => Raise JSONDecodeError |}.

(** An oracle that answers in prose, with the same parser. *)
Definition chatty_services : Services :=
  {| chat_completions_create :=
       fun _ => Completion [Some "Sure! Here is a bar chart of your KPIs."];
     json_loads := fun _ => Raise JSONDecodeError |}.

End Oracle.

(* ===================================================================== *)
(** * Tables ([pandas.DataFrame]) *)
(* ===================================================================== *)

Module Pandas.
Import Py.

(** A frame is its column labels and its rows, each row holding one cell per
    column. *)
Record DataFrame : Type := mkDataFrame {
  columns : list string;
  rows : list (list value)
}.

Definition NaN : value := VFloat "nan".

(** [df.empty]: an axis of length 0. *)
Definition empty (df : DataFrame) : bool :=
  match columns df, rows df with
  | [], _ => true
  | _, [] => true
  | _, _ => false
  end.

(** [pd.DataFrame(columns=[...])] *)
Definition DataFrame_columns (cols : list string) : DataFrame :=
  mkDataFrame cols [].

Definition add_keys (cols : list string) (rec : dict) : list string :=
  fold_left (fun cols kv => if in_strs (fst kv) cols then cols else (cols ++ [fst kv])%list)
            rec cols.

(** [pd.DataFrame(records)] for a list of dicts: the columns are the keys in
    the order they first appear, a key a record lacks gives NaN.  The empty
    list gives a frame with no column and no row.  The cells are the
    records' values as they are written: the dtype pandas then gives each
    column (integers beside floats or beside gaps become floats, [None]
    among numbers becomes NaN) is not modelled, so cell values are stated
    below only where that conversion does not matter: in columns it leaves
    alone, or as what is handed on to the library's own functions. *)
Definition DataFrame_records (records : list dict) : DataFrame :=
  let cols := fold_left add_keys records [] in
  mkDataFrame cols
    (map (fun rec => map (fun c => dict_get_or rec c NaN) cols) records).

Fixpoint as_records (l : list value) : option (list dict) :=
  match l with
  | [] => Some []
  | VDict d :: l' =>
      match as_records l' with
      | Some ds => Some (d :: ds)
      | None => None
      end
  | _ :: _ => None
  end.

Fixpoint index_of (c : string) (cols : list string) : option nat :=
  match cols with
  | [] => None
  | c' :: cols' =>
      if String.eqb c c' then Some O
      else match index_of c cols' with
           | Some i => Some (S i)
           | None => None
           end
  end.

(** The cell of [row] under column [c] (NaN where the row is short). *)
Definition cell (df : DataFrame) (row : list value) (c : string) : value :=
  match index_of c (columns df) with
  | Some i => nth i row NaN
  | None => NaN
  end.

(** [df[c]] as the list of its cells. *)
Definition column (df : DataFrame) (c : string) : list value :=
  map (fun row => cell df row c) (rows df).

Fixpoint replace_nth (i : nat) (x : value) (row : list value) : list value :=
  match i, row with
  | _, [] => []
  | O, _ :: row' => x :: row'
  | S i', y :: row' => y :: replace_nth i' x row'
  end.

(** [df[c] = cells] for an existing column [c]. *)
Definition set_column (df : DataFrame) (c : string) (cells : list value) : DataFrame :=
  match index_of c (columns df) with
  | Some i =>
      mkDataFrame (columns df)
        (map (fun rc => replace_nth i (snd rc) (fst rc)) (combine (rows df) cells))
  | None => df
  end.

(** [df[mask]] with the mask given row by row. *)
Definition select_rows (df : DataFrame) (keep : list value -> bool) : DataFrame :=
  mkDataFrame (columns df) (filter keep (rows df)).

(** How pandas compares a cell with a value listed in [series.isin(vals)]:
    numbers match across int, float and bool (the cell 100 matches the
    listed 100.0), NaN matches NaN, strings match when they are the same
    string.  The comparison is the library's and is left to it.  Cells and
    listed values that pandas cannot hash (lists, mappings), on which
    [isin] raises, are outside the model. *)
Class Comparison : Type := {
  same_value : value -> value -> bool
}.

(** One element of [series.isin(vals)]: the cell matches some element of
    [vals]. *)
Definition isin `{Comparison} (x : value) (vals : list value) : bool :=
  existsb (same_value x) vals.

(** The parts of pandas the code calls and this development does not open. *)
Class Library : Type := {
  (** [pd.DataFrame(data)] for data that is not a list of dicts *)
  DataFrame_other : value -> result DataFrame;
  (** [series.astype(str)] *)
  astype_str : list value -> list value;
  (** [pd.to_datetime(series)] *)
  to_datetime : list value -> result (list value);
  (** [pd.to_numeric(series, errors="coerce").fillna(0)] *)
  to_numeric_fillna0 : list value -> list value;
  (** what [pd.eval] returns *)
  evaluated : Type;
  (** [pd.eval(expr, engine="python", local_dict={c: df[c] ...})] *)
  pd_eval : string -> DataFrame -> result evaluated;
  (** the frame after the statement [df[name] = v], whether it raised or not *)
  setitem : DataFrame -> string -> evaluated -> DataFrame
}.

(** [pd.DataFrame(data)] *)
Definition pd_DataFrame `{Library} (data : value) : result DataFrame :=
  match data with
  | VList l =>
      match as_records l with
      | Some records => Ok (DataFrame_records records)
      | None => DataFrame_other data
      end
  | _ => DataFrame_other data
  end.

End Pandas.

(* ===================================================================== *)
(** * KPI melting and the execution stage *)
(* ===================================================================== *)

Module Dashboard.
Import Py Pandas.

(** The four frames, keyed by dataset name, in the order of the returned
    dict literal. *)
Definition frames : Type := list (string * DataFrame).

Fixpoint frames_get (fs : frames) (name : string) : option DataFrame :=
  match fs with
  | [] => None
  | (n, df) :: fs' => if String.eqb name n then Some df else frames_get fs' name
  end.

(** [d.items()]: only a dict has it. *)
Definition dict_items (v : value) : result dict :=
  match v with
  | VDict kvs => Ok kvs
  | _ => Raise AttributeError
  end.

(** Lines 132-134. *)
Definition normalize_monthly `{Library} (monthly_df : DataFrame) : DataFrame :=
  if negb (empty monthly_df) && in_strs "month" (columns monthly_df)
  then set_column monthly_df "month" (astype_str (column monthly_df "month"))
  else monthly_df.

(** Lines 136-145. *)
Definition normalize_daily `{Library} (daily_df : DataFrame) : DataFrame :=
  if negb (empty daily_df) && in_strs "date" (columns daily_df) then
    let daily_df :=
      match to_datetime (column daily_df "date") with
      | inr dates => set_column daily_df "date" dates
      | inl _ => daily_df
      end in
    fold_left
      (fun df c =>
         if in_strs c (columns df)
         then set_column df c (to_numeric_fillna0 (column df c))
         else df)
      ["revenue"; "expenses"] daily_df
  else daily_df.

Definition melt_kpi_document `{Library} (doc : dict) : result frames :=
  let totals_df := DataFrame_records
    [ [("metric", VStr "totalRevenue"); ("value", dict_get_or doc "totalRevenue" (VInt 0))];
      [("metric", VStr "totalExpenses"); ("value", dict_get_or doc "totalExpenses" (VInt 0))];
      [("metric", VStr "totalProfit"); ("value", dict_get_or doc "totalProfit" (VInt 0))] ] in
  exp_cat_dict <-
    dict_items (py_or (dict_get_or doc "expensesByCategory" (VDict [])) (VDict [])) ;;
  exp_df <-
    pd_DataFrame
      (VList (map (fun kv => VDict [("category", VStr (fst kv)); ("value", snd kv)])
                  exp_cat_dict)) ;;
  monthly_df <- pd_DataFrame (py_or (dict_get_or doc "monthlyData" (VList [])) (VList [])) ;;
  daily_df <- pd_DataFrame (py_or (dict_get_or doc "dailyData" (VList [])) (VList [])) ;;
  Ok [("kpi_totals", totals_df);
      ("kpi_expensesByCategory", exp_df);
      ("kpi_monthly", normalize_monthly monthly_df);
      ("kpi_daily", normalize_daily daily_df)].

(** The frames of lines 168-173, returned when no KPI document is found. *)
Definition empty_frames : frames :=
  [("kpi_totals", DataFrame_columns ["metric"; "value"]);
   ("kpi_expensesByCategory", DataFrame_columns ["category"; "value"]);
   ("kpi_monthly",
    DataFrame_columns
      ["month"; "revenue"; "expenses"; "operationalExpenses"; "nonOperationalExpenses"]);
   ("kpi_daily", DataFrame_columns ["date"; "revenue"; "expenses"])].

(** The document store behind [fetch_kpi_frames]: [find_one] with and without
    the sort; each may raise, or find nothing. *)
Class Store : Type := {
  find_one_sorted : result (option dict);
  find_one : result (option dict)
}.

Definition fetch_kpi_frames `{Library} `{Store} : result frames :=
  doc <- try_except find_one_sorted (fun _ => find_one) ;;
  match doc with
  | Some ((_ :: _) as d) => melt_kpi_document d
  | _ => Ok empty_frames
  end.

(** [isinstance(vals, list)] and the list itself. *)
Definition as_list (v : value) : option (list value) :=
  match v with
  | VList l => Some l
  | _ => None
  end.

(** One turn of the loop of lines 427-429. *)
Definition filter_step `{Comparison} (df : DataFrame) (item : string * value)
  : DataFrame :=
  let (col, vals) := item in
  match as_list vals with
  | Some l =>
      if in_strs col (columns df)
      then select_rows df (fun row => isin (cell df row col) l)
      else df
  | None => df
  end.

(** The test one filter entry puts on a row of [df]: an entry whose field is
    no column, or whose value is no list, lets every row through. *)
Definition row_passes `{Comparison} (df : DataFrame) (row : list value)
  (item : string * value) : bool :=
  match as_list (snd item) with
  | Some l => if in_strs (fst item) (columns df) then isin (cell df row (fst item)) l else true
  | None => true
  end.

Definition apply_filter `{Comparison} (df : DataFrame) (plan : dict)
  : result DataFrame :=
  let filt := dict_get plan "filter" in
  if negb (truthy filt) || empty df then Ok df
  else
    items <- dict_items filt ;;
    Ok (fold_left filter_step items df).

(** ["=" in calc]: substring test on a string, element test on a list, key
    test on a dict; other values are not iterable. *)
Definition has_equals (calc : value) : result bool :=
  match calc with
  | VStr s => Ok (contains "=" s)
  | VList l => Ok (existsb (value_eqb (VStr "=")) l)
  | VDict kvs =>
      Ok (match dict_lookup kvs "=" with Some _ => true | None => false end)
  | _ => Raise TypeError
  end.

(** [calc.split("=", 1)] for a string that holds an ["="]: the text before
    the first one and the text after it. *)
Fixpoint split_equals (s : string) : string * string :=
  match s with
  | EmptyString => (EmptyString, EmptyString)
  | String c s' =>
      if Ascii.eqb c "=" then (EmptyString, s')
      else let (l, r) := split_equals s' in (String c l, r)
  end.

Definition apply_calculation `{Library} (df : DataFrame) (plan : dict)
  : result DataFrame :=
  let calc := dict_get plan "calculation" in
  if negb (truthy calc) then Ok df
  else
    eq <- has_equals calc ;;
    if negb eq || empty df then Ok df
    else
      match calc with
      | VStr s =>
          let (l, r) := split_equals s in
          let lhs := strip l in
          let rhs := strip r in
          try_except
            (v <- pd_eval rhs df ;; Ok (setitem df lhs v))
            (fun _ => Ok df)
      | _ => Raise AttributeError
      end.

(** [df[name] = cells]: a new column goes last, an existing one is replaced. *)
Definition add_column (df : DataFrame) (name : string) (cells : list value) : DataFrame :=
  if in_strs name (columns df) then set_column df name cells
  else mkDataFrame (columns df ++ [name])%list
         (map (fun rc => (fst rc ++ [snd rc])%list) (combine (rows df) cells)).

(** A comparison that matches two values exactly when they are written the
    same way; it is pandas' on strings and on integers among themselves,
    and serves to run the filter on such columns. *)
Definition written_the_same : Comparison :=
  {| same_value := value_eqb |}.

(** A pandas cut down to what a run needs: [pd.eval] only knows an
    expression that is the bare name of a column, and raises on anything
    else; the conversions leave the cells alone. *)
Definition column_only_pandas : Library :=
  {| DataFrame_other := fun _ => Raise TypeError;
     astype_str := fun cells => cells;
     to_datetime := fun cells => Ok cells;
     to_numeric_fillna0 := fun cells => cells;
     evaluated := list value;
     pd_eval := fun expr df =>
                  if in_strs expr (columns df) then Ok (column df expr)
                  else Raise TypeError;
     setitem := add_column |}.

(** The table [kpi_totals] of a document with revenue 100, expenses 40 and
    profit 60. *)
Definition totals_table : DataFrame :=
  mkDataFrame ["metric"; "value"]
    [[VStr "totalRevenue"; VInt 100];
     [VStr "totalExpenses"; VInt 40];
     [VStr "totalProfit"; VInt 60]].

(** That document, with nothing in its breakdowns. *)
Definition totals_only_doc : dict :=
  [("totalRevenue", VInt 100);
   ("totalExpenses", VInt 40);
   ("totalProfit", VInt 60);
   ("expensesByCategory", VDict []);
   ("monthlyData", VList []);
   ("dailyData", VList [])].

End Dashboard.

(* ===================================================================== *)
(** * Price suggestion ([pricing_api.py], [suggest_price]) *)
(* ===================================================================== *)

Module Pricing.

(** Python floats and the numerical libraries are kept abstract: [float] is
    the type of binary64 numbers, [best_by_regression] is lines 41-52 (fit,
    [linspace], [predict], [argmax], rounding) on the two columns. *)
Class Numerics : Type := {
  float : Type;
  float_add : float -> Z -> float;
  float_sub : float -> Z -> float;
  float_mul : float -> Z -> float;
  suggestion : Type := (float * Z * float)%type;
  best_by_regression : list float -> list Z -> suggestion
}.

Record Product `{Numerics} : Type := mkProduct {
  price : float;
  expense : float;
  sales_volume : Z
}.

(** [series.nunique()] on a column of Python ints. *)
Definition nunique (l : list Z) : nat := length (nodup Z.eq_dec l).

Definition price_column `{Numerics} (product : Product) : list float :=
  [float_sub (price product) 5; price product; float_add (price product) 5].

Definition sales_volume_column `{Numerics} (product : Product) : list Z :=
  [sales_volume product + 5; sales_volume product; sales_volume product - 5]%Z.

(** The body of the loop, with the branch it took. *)
Inductive path : Type := Constant | Regression.

Definition suggest_one `{Numerics} (product : Product) : path * suggestion :=
  if Nat.ltb (nunique (sales_volume_column product)) 2 then
    (Constant,
     (price product, sales_volume product,
      float_mul (price product) (sales_volume product)))
  else
    (Regression,
     best_by_regression (price_column product) (sales_volume_column product)).

Definition suggest_price `{Numerics} (products : list Product) : list suggestion :=
  map (fun product => snd (suggest_one product)) products.

End Pricing.

From Stdlib Require Import Permutation.

(* ===================================================================== *)
(** * The shape of a plan *)
(* ===================================================================== *)

Module Shape.
Import Py.

(** [list(d)]: the keys in insertion order. *)
Definition keys (d : dict) : list string := map fst d.

(** The keys after [d[k] = v]: a new key goes last. *)
Definition add_key (ks : list string) (k : string) : list string :=
  if in_strs k ks then ks else (ks ++ [k])%list.

(** The fields [_normalize_plan] assigns, in the order of its first
    assignment to each. *)
Definition assigned_fields : list string :=
  ["dataset"; "chart_type"; "x"; "y"; "filter"; "calculation"].

End Shape.

(* ===================================================================== *)
(** * Document fetchers ([_df_from_docs], [fetch_products_df],
      [fetch_transactions_df], [get_dataframe_for_dataset]) *)
(* ===================================================================== *)

Module Fetchers.
Import Py Pandas Dashboard.

Fixpoint remove_nth {A : Type} (i : nat) (l : list A) : list A :=
  match i, l with
  | _, [] => []
  | O, _ :: l' => l'
  | S i', x :: l' => x :: remove_nth i' l'
  end.

(** [df.drop(columns=[c])] for a column [c] the frame has (the source only
    drops after the test [c in df.columns]). *)
Definition drop_column (df : DataFrame) (c : string) : DataFrame :=
  match index_of c (columns df) with
  | Some i => mkDataFrame (remove_nth i (columns df)) (map (remove_nth i) (rows df))
  | None => df
  end.

(** The test of line 98 on a column label. *)
Definition is_time_column (col : string) : bool :=
  contains "date" (lower col)
  || contains "created" (lower col)
  || contains "updated" (lower col).

(** Lines 99-102: the conversion and the assignment sit in one [try]; a
    conversion that raises, or a converted column of another length (on
    which the assignment raises), leaves the frame as it was. *)
Definition try_to_datetime `{Library} (df : DataFrame) (col : string) : DataFrame :=
  match to_datetime (column df col) with
  | inr cells =>
      if Nat.eqb (length cells) (length (rows df))
      then set_column df col cells
      else df
  | inl _ => df
  end.

Definition _df_from_docs `{Library} (docs : list dict) : DataFrame :=
  let df := DataFrame_records docs in
  let df := if in_strs "_id" (columns df) then drop_column df "_id" else df in
  fold_left
    (fun df col => if is_time_column col then try_to_datetime df col else df)
    (columns df) df.

(** The two collections read with [find({}).to_list(None)]: the documents,
    or the exception of a store that cannot be reached. *)
Class Collections : Type := {
  products_find : result (list dict);
  transactions_find : result (list dict)
}.

(** The subtraction of two numeric series, element by element. *)
Class SeriesArith : Type := {
  series_sub : list value -> list value -> list value
}.

Definition fetch_products_df `{Library} `{Collections} `{SeriesArith}
  : result DataFrame :=
  docs <- products_find ;;
  let df := _df_from_docs docs in
  Ok (if negb (empty df)
         && in_strs "price" (columns df) && in_strs "expense" (columns df)
      then add_column df "margin"
             (series_sub (to_numeric_fillna0 (column df "price"))
                         (to_numeric_fillna0 (column df "expense")))
      else df).

(** [lambda x: len(x) if isinstance(x, list) else 0] *)
Definition product_count (x : value) : value :=
  match x with
  | VList l => VInt (Z.of_nat (length l))
  | _ => VInt 0
  end.

Definition fetch_transactions_df `{Library} `{Collections} : result DataFrame :=
  docs <- transactions_find ;;
  let df := _df_from_docs docs in
  Ok (if negb (empty df) && in_strs "productIds" (columns df)
      then add_column df "productCount" (map product_count (column df "productIds"))
      else df).

(** [pd.DataFrame()] *)
Definition no_frame : DataFrame := mkDataFrame [] [].

Definition get_dataframe_for_dataset
  `{Library} `{Store} `{Collections} `{SeriesArith} (dataset : string)
  : result DataFrame :=
  if String.prefix "kpi_" dataset then
    frames <- fetch_kpi_frames ;;
    Ok (match frames_get frames dataset with
        | Some df => df
        | None => no_frame
        end)
  else if String.eqb dataset "products" then fetch_products_df
  else if String.eqb dataset "transactions" then fetch_transactions_df
  else Ok no_frame.

(** Every row holds one cell per column. *)
Definition well_formed (df : DataFrame) : Prop :=
  Forall (fun row => length row = length (columns df)) (rows df).

(** A store whose three collections hold what a small shop would. *)
Definition shop_collections : Collections :=
  {| products_find :=
       Ok [[("_id", VStr "p1"); ("price", VInt 30); ("expense", VInt 12);
            ("createdAt", VStr "2024-01-05")];
           [("_id", VStr "p2"); ("price", VInt 8); ("expense", VInt 5)]];
     transactions_find :=
       Ok [[("_id", VStr "t1"); ("buyer", VStr "Ada"); ("amount", VInt 38);
            ("productIds", VList [VStr "p1"; VStr "p2"])];
           [("_id", VStr "t2"); ("buyer", VStr "Bob"); ("amount", VInt 8);
            ("productIds", VStr "p2")];
           [("_id", VStr "t3"); ("buyer", VStr "Cy"); ("amount", VInt 0)]] |}.

Definition shop_store : Store :=
  {| find_one_sorted := Raise APIError;
     find_one := Ok (Some totals_only_doc) |}.

(** Integer subtraction, NaN where a cell is no integer. *)
Definition int_series : SeriesArith :=
  {| series_sub := fun a b =>
       map (fun xy => match xy with
                      | (VInt x, VInt y) => VInt (x - y)
                      | _ => NaN
                      end) (combine a b) |}.

End Fetchers.

(* ===================================================================== *)
(** * Chart rendering ([_to_base64_fig], [build_chart]) *)
(* ===================================================================== *)

Module Charts.
Import Py Pandas.

(** The six calls of Plotly Express [build_chart] can make on the table,
    with the arguments it passes. *)
Inductive chart_request : Type :=
| Bar (x y : value) (title : string)
| Line (x y : value) (title : string)
| Scatter (x y : value) (title : string)
| Pie (names values : value) (title : string)
| Histogram (x : value) (title : string)
| Box (x y : value) (title : string).

(** What [build_chart] asks of Plotly Express: a chart of the table, or the
    placeholder [px.imshow(matrix, text_auto=True, title=title)]. *)
Inductive figure_call : Type :=
| PxChart (request : chart_request)
| PxImshow (matrix : list (list Z)) (title : string).

(** Plotly and its renderer: building a figure may raise, and so may
    [fig.to_image] (when kaleido is missing); [b64encode] is
    [base64.b64encode(...).decode("utf-8")]. *)
Class Plotly : Type := {
  figure : Type;
  px_chart : DataFrame -> chart_request -> result figure;
  px_imshow : list (list Z) -> string -> result figure;
  to_image : figure -> result string;
  b64encode : string -> string;
  (** [pd.api.types.is_numeric_dtype(series)] *)
  is_numeric_dtype : list value -> bool
}.

(** The Plotly Express function behind a request. *)
Definition request_kind (request : chart_request) : string :=
  match request with
  | Bar _ _ _ => "bar"
  | Line _ _ _ => "line"
  | Scatter _ _ _ => "scatter"
  | Pie _ _ _ => "pie"
  | Histogram _ _ => "histogram"
  | Box _ _ _ => "box"
  end.

Definition px `{Plotly} (df : DataFrame) (c : figure_call) : result figure :=
  match c with
  | PxChart request => px_chart df request
  | PxImshow matrix title => px_imshow matrix title
  end.

Definition kaleido_fallback : figure_call :=
  PxImshow [[0%Z]] "Chart render fallback (install `kaleido`)".

Definition _to_base64_fig `{Plotly} (fig : figure) : result string :=
  img_bytes <-
    try_except (to_image fig)
      (fun _ => fig <- px_imshow [[0%Z]] "Chart render fallback (install `kaleido`)" ;;
                to_image fig) ;;
  Ok (b64encode img_bytes).

(** Lines 469-470: the first column other than [x] whose dtype is numeric. *)
Definition first_numeric `{Plotly} (df : DataFrame) (x : value) : value :=
  match filter (fun c => negb (eq_str x c) && is_numeric_dtype (column df c))
               (columns df) with
  | c :: _ => VStr c
  | [] => VNone
  end.

(** Lines 459-482: the call the [if]/[elif] chain on [chart] decides on. *)
Definition chart_call `{Plotly} (df : DataFrame) (chart x y : value) : figure_call :=
  if eq_str chart "bar" then
    PxChart (Bar x y (if truthy y then py_str y ++ " by " ++ py_str x else py_str x))
  else if eq_str chart "line" then
    PxChart (Line x y (py_str y ++ " over " ++ py_str x))
  else if eq_str chart "scatter" then
    PxChart (Scatter x y (py_str y ++ " vs " ++ py_str x))
  else if eq_str chart "pie" then
    let y_eff := if is_None y then first_numeric df x else y in
    if is_None y_eff then PxImshow [[0%Z]] "Pie needs numeric 'y' values"
    else PxChart (Pie x y_eff (py_str y_eff ++ " distribution by " ++ py_str x))
  else if eq_str chart "histogram" then
    PxChart (Histogram x ("Distribution of " ++ py_str x))
  else if eq_str chart "box" then
    PxChart (Box x y (if truthy y then py_str y ++ " by " ++ py_str x
                      else "Box: " ++ py_str x))
  else PxImshow [[0%Z]] "Fallback chart".

Definition no_data : figure_call :=
  PxImshow [[1; 2]; [3; 4]]%Z "No data / invalid plan".

Definition chart_error : figure_call := PxImshow [[0%Z]] "Chart error".

Definition build_chart `{Plotly} (df : DataFrame) (plan : dict) : result string :=
  let chart := dict_get_or plan "chart_type" (VStr "bar") in
  let x := dict_get plan "x" in
  let y := dict_get plan "y" in
  if empty df || negb (truthy x) then
    fig <- px df no_data ;;
    _to_base64_fig fig
  else
    try_except
      (fig <- px df (chart_call df chart x y) ;;
       _to_base64_fig fig)
      (fun _ =>
         fig <- px df chart_error ;;
         _to_base64_fig fig).

(** A renderer that draws nothing: a figure is the call that made it, the
    image is a description of it; charts of more than [limit] rows cannot
    be built. *)
Definition describe (c : figure_call) : string :=
  match c with
  | PxChart (Bar _ _ t) => "bar: " ++ t
  | PxChart (Line _ _ t) => "line: " ++ t
  | PxChart (Scatter _ _ t) => "scatter: " ++ t
  | PxChart (Pie _ _ t) => "pie: " ++ t
  | PxChart (Histogram _ t) => "histogram: " ++ t
  | PxChart (Box _ _ t) => "box: " ++ t
  | PxImshow _ t => "imshow: " ++ t
  end.

Definition sketch_plotly (limit : nat) : Plotly :=
  {| figure := figure_call;
     px_chart := fun df request =>
                   if Nat.leb (length (rows df)) limit then Ok (PxChart request)
                   else Raise TypeError;
     px_imshow := fun matrix title => Ok (PxImshow matrix title);
     to_image := fun fig => Ok (describe fig);
     b64encode := fun bytes => bytes;
     is_numeric_dtype :=
       fun cells => forallb (fun v => match v with VInt _ => true | _ => false end) cells |}.

End Charts.

(* ===================================================================== *)
(** * The route ([generate]) *)
(* ===================================================================== *)

Module Route.
Import Py Planner Oracle Pandas Dashboard Fetchers Charts.

(** What the route answers: the JSON body, or the exception FastAPI turns
    into a 500. *)
Inductive response : Type :=
| JSONResponse (graph assistantText : string)
| HTTPException (status_code : Z).

(** [plan["dataset"]], handed to [get_dataframe_for_dataset]: a plan that is
    no dict, has no such key or holds no string there raises (the kind of
    exception is not observable behind the 500). *)
Definition plan_dataset (plan : value) : result (dict * string) :=
  match plan with
  | VDict d =>
      match dict_lookup d "dataset" with
      | Some (VStr ds) => Ok (d, ds)
      | Some _ => Raise AttributeError
      | None => Raise IndexError
      end
  | _ => Raise TypeError
  end.

(** The body of the [try] of lines 496-513. *)
Definition generate_try
  `{Services} `{Library} `{Comparison} `{Store} `{Collections} `{SeriesArith} `{Plotly}
  (prompt : string) : result (string * string) :=
  plan <- llm_plan prompt ;;
  pd <- plan_dataset plan ;;
  df <- get_dataframe_for_dataset (snd pd) ;;
  df <- apply_filter df (fst pd) ;;
  df <- apply_calculation df (fst pd) ;;
  img64 <- build_chart df (fst pd) ;;
  Ok (img64,
      "Plan: " ++ py_str plan ++ ". Rows: "
      ++ repr_int (Z.of_nat (length (rows df)))).

Definition generate
  `{Services} `{Library} `{Comparison} `{Store} `{Collections} `{SeriesArith} `{Plotly}
  (prompt : string) : response :=
  match generate_try prompt with
  | inr (img64, text) => JSONResponse img64 text
  | inl _ => HTTPException 500
  end.

(** An oracle that answers with a JSON list, and a parser that reads it. *)
Definition list_services : Services :=
  {| chat_completions_create := fun _ => Completion [Some "[1, 2]"];
     json_loads := fun _ => Ok (VList [VInt 1; VInt 2]) |}.

(** A store that cannot be reached at all. *)
Definition down_store : Store :=
  {| find_one_sorted := Raise APIError;
     find_one := Raise APIError |}.

(** A KPI document with two expense categories. *)
Definition categories_doc : dict :=
  [("totalRevenue", VInt 100);
   ("expensesByCategory", VDict [("salaries", VInt 30); ("supplies", VInt 10)])].

End Route.

(* ===================================================================== *)
(** * Facts about dictionaries and strings *)
(* ===================================================================== *)

Import Py Planner.

Section DictFacts.

Lemma in_strs_In (s : string) (l : list string) :
  in_strs s l = true <-> In s l.
Proof.
  unfold in_strs. rewrite existsb_exists. split.
  - intros [x [Hin Heq]]. apply String.eqb_eq in Heq. now subst.
  - intros Hin. exists s. split; [assumption | apply String.eqb_refl].
Qed.

Lemma in_strs_not_In (s : string) (l : list string) :
  in_strs s l = false <-> ~ In s l.
Proof.
  rewrite <- in_strs_In. destruct (in_strs s l); split; congruence.
Qed.

Lemma dict_lookup_setitem (d : dict) (k k' : string) (v : value) :
  dict_lookup (dict_setitem d k v) k' =
  if String.eqb k' k then Some v else dict_lookup d k'.
Proof.
  induction d as [| [k0 v0] d IH]; simpl.
  - reflexivity.
  - destruct (String.eqb_spec k k0) as [-> | Hk]; simpl.
    + destruct (String.eqb k' k0); reflexivity.
    + destruct (String.eqb_spec k' k0) as [-> | Hk'].
      * destruct (String.eqb_spec k0 k); [congruence | reflexivity].
      * exact IH.
Qed.

Lemma dict_get_or_setitem (d : dict) (k k' : string) (v dflt : value) :
  dict_get_or (dict_setitem d k v) k' dflt =
  if String.eqb k' k then v else dict_get_or d k' dflt.
Proof.
  unfold dict_get_or. rewrite dict_lookup_setitem.
  destruct (String.eqb k' k); reflexivity.
Qed.

Lemma dict_get_setitem (d : dict) (k k' : string) (v : value) :
  dict_get (dict_setitem d k v) k' =
  if String.eqb k' k then v else dict_get d k'.
Proof. apply dict_get_or_setitem. Qed.

(** Storing under a key the value it already holds changes nothing. *)
Lemma dict_setitem_same (d : dict) (k : string) (v : value) :
  dict_lookup d k = Some v -> dict_setitem d k v = d.
Proof.
  induction d as [| [k0 v0] d IH]; simpl; [discriminate |].
  destruct (String.eqb k k0).
  - intros [= ->]. reflexivity.
  - intros H. now rewrite IH.
Qed.

Lemma dict_get_of_lookup (d : dict) (k : string) (v : value) :
  dict_lookup d k = Some v -> dict_get d k = v.
Proof. unfold dict_get, dict_get_or. now intros ->. Qed.

Lemma py_or_truthy (a b : value) : truthy a = true -> py_or a b = a.
Proof. unfold py_or. now intros ->. Qed.

Lemma py_or_falsy (a b : value) : truthy a = false -> py_or a b = b.
Proof. unfold py_or. now intros ->. Qed.

End DictFacts.

Create Rewrite HintDb dict.
#[local] Hint Rewrite dict_lookup_setitem dict_get_setitem dict_get_or_setitem : dict.

(** Rewrites every read of a written plan, then decides the key tests. *)
Ltac dict_simpl := autorewrite with dict; cbn [String.eqb Ascii.eqb Bool.eqb].

(* ===================================================================== *)
(** * The normaliser, stage by stage *)
(* ===================================================================== *)

Section NormalizerStages.

Lemma repair_dataset_valid (plan : dict) : In (repair_dataset plan) valid_ds.
Proof.
  apply in_strs_In. unfold repair_dataset.
  generalize (strip (py_str (py_or (dict_get plan "dataset") (VStr EmptyString)))).
  intros ds. cbv zeta.
  destruct (in_strs ds valid_ds) eqn:E; cbn [negb].
  - exact E.
  - destruct (in_strs (lower ds) _); reflexivity.
Qed.

Lemma table_get_ch_map (k : string) : In (table_get ch_map k "bar") canonical_charts.
Proof.
  unfold ch_map, table_get, canonical_charts.
  repeat match goal with
         | |- context [if String.eqb k ?c then _ else _] =>
             destruct (String.eqb k c)
         end; simpl; tauto.
Qed.

Lemma repair_chart_type_canonical (plan : dict) :
  In (repair_chart_type plan) canonical_charts.
Proof. apply table_get_ch_map. Qed.

Lemma repair_chart_type_setitem (plan : dict) (v : value) :
  repair_chart_type (dict_setitem plan "dataset" v) = repair_chart_type plan.
Proof. unfold repair_chart_type. now dict_simpl. Qed.

Lemma axis_defaults_pair (ds : string) (plan : dict) :
  axis_defaults ds plan =
  match axis_pair ds (dict_get plan "chart_type") with
  | Some (dx, dy) => default_axes plan dx dy
  | None => plan
  end.
Proof.
  unfold axis_defaults, axis_pair.
  repeat match goal with
         | |- context [if ?b then _ else _] => destruct b
         end; reflexivity.
Qed.

(** A valid dataset always has a pair, whose [x] is a non-empty string and
    whose [y] is a non-empty string or [None]. *)
Lemma axis_pair_valid (ds : string) (chart : value) :
  In ds valid_ds ->
  exists dx dy, axis_pair ds chart = Some (VStr dx, dy)
                /\ dx <> EmptyString
                /\ (truthy dy = true \/ dy = VNone).
Proof.
  intros H. unfold axis_pair.
  destruct H as [E|[E|[E|[E|[E|[E|[]]]]]]]; rewrite <- E;
    cbn [String.eqb Ascii.eqb Bool.eqb];
    repeat match goal with
           | |- context [if ?b then _ else _] => destruct b
           end;
    do 2 eexists; (split; [reflexivity | split; [discriminate | auto]]).
Qed.

Lemma normalize_dict_fields (plan : dict) :
  let q := normalize_dict plan in
  exists dx dy,
    axis_pair (repair_dataset plan) (VStr (repair_chart_type plan)) = Some (dx, dy)
    /\ dict_lookup q "dataset" = Some (VStr (repair_dataset plan))
    /\ dict_lookup q "chart_type" = Some (VStr (repair_chart_type plan))
    /\ dict_lookup q "x" = Some (py_or (dict_get plan "x") dx)
    /\ dict_lookup q "y" = Some (py_or (dict_get plan "y") dy)
    /\ dict_lookup q "filter" = Some (final_filter plan)
    /\ dict_lookup q "calculation" = Some (py_or (dict_get plan "calculation") VNone)
    /\ (forall dflt, dict_get_or q "reason" dflt = dict_get_or plan "reason" dflt).
Proof.
  cbv zeta.
  destruct (axis_pair_valid (repair_dataset plan) (VStr (repair_chart_type plan))
              (repair_dataset_valid plan)) as (dx & dy & Hp & _ & _).
  exists (VStr dx), dy. split; [exact Hp |].
  unfold normalize_dict, final_filter. cbv zeta.
  rewrite repair_chart_type_setitem, axis_defaults_pair.
  dict_simpl. rewrite Hp.
  unfold infer_filter, optional_fields, default_axes, inferred_metrics, reason_text.
  dict_simpl.
  destruct (String.eqb (repair_dataset plan) "kpi_totals");
    destruct (is_None (py_or (dict_get plan "filter") VNone));
    cbn [andb]; dict_simpl;
    try (destruct (truthy (VList _)));
    dict_simpl; repeat split; intros; dict_simpl; reflexivity.
Qed.

End NormalizerStages.

(* ===================================================================== *)
(** * Dataset and chart-type repair, axis defaults *)
(* ===================================================================== *)

Section Repair.

(** Whatever the stored value, a dict normalises, and [normalize_dict] is
    what comes back. *)
Lemma _normalize_plan_dict (plan : dict) :
  _normalize_plan (VDict plan) = Ok (VDict (normalize_dict plan)).
Proof. reflexivity. Qed.

Lemma normalize_dict_dataset (plan : dict) :
  dict_get (normalize_dict plan) "dataset" = VStr (repair_dataset plan).
Proof.
  destruct (normalize_dict_fields plan) as (dx & dy & _ & H & _).
  now apply dict_get_of_lookup.
Qed.

Lemma normalize_dict_chart_type (plan : dict) :
  dict_get (normalize_dict plan) "chart_type" = VStr (repair_chart_type plan).
Proof.
  destruct (normalize_dict_fields plan) as (dx & dy & _ & _ & H & _).
  now apply dict_get_of_lookup.
Qed.

Lemma normalize_dict_filter (plan : dict) :
  dict_get (normalize_dict plan) "filter" = final_filter plan.
Proof.
  destruct (normalize_dict_fields plan) as (dx & dy & _ & _ & _ & _ & _ & H & _).
  now apply dict_get_of_lookup.
Qed.

(** C1, as stated, fails: the dataset value [" products"] (leading blank)
    is none of the six valid names, yet line 252 strips it and the plan
    keeps [dataset = products]. *)
Lemma C1_dataset_not_valid_counterexample :
  ~ (forall plan : dict,
        ~ In (dict_get plan "dataset") (map VStr valid_ds) ->
        exists q, _normalize_plan (VDict plan) = Ok (VDict q)
                  /\ dict_get q "dataset" = VStr "kpi_totals").
Proof.
  intros H.
  destruct (H [("dataset", VStr " products")]) as (q & Hq & Hd).
  - cbn. intuition discriminate.
  - vm_compute in Hq. injection Hq as <-. vm_compute in Hd. discriminate.
Qed.

(** C1, amended: for every candidate plan whose dataset value, once turned
    into text (an absent, null or otherwise falsy value counting as the
    empty text) and stripped of surrounding whitespace, is not one of the
    six valid names (compared case-sensitively, so aliases such as "kpi",
    "kpis" and "totals" are not valid either), normalization returns a plan
    with [dataset = kpi_totals]. *)
Theorem C1_dataset_repair (plan : dict) :
  ~ In (strip (py_str (py_or (dict_get plan "dataset") (VStr EmptyString)))) valid_ds ->
  exists q, _normalize_plan (VDict plan) = Ok (VDict q)
            /\ dict_get q "dataset" = VStr "kpi_totals".
Proof.
  intros Hds. exists (normalize_dict plan). split; [reflexivity |].
  rewrite normalize_dict_dataset. f_equal.
  unfold repair_dataset. cbv zeta.
  apply in_strs_not_In in Hds. rewrite Hds. cbn [negb].
  destruct (in_strs (lower _) _); reflexivity.
Qed.

Lemma C1_dataset_repair_witness :
  ~ In (strip (py_str (py_or (dict_get [("dataset", VStr "Products")] "dataset")
                             (VStr EmptyString)))) valid_ds
  /\ exists q, _normalize_plan (VDict [("dataset", VStr "Products")]) = Ok (VDict q)
                /\ dict_get q "dataset" = VStr "kpi_totals".
Proof.
  assert (Hds : ~ In (strip (py_str (py_or (dict_get [("dataset", VStr "Products")] "dataset")
                                           (VStr EmptyString)))) valid_ds).
  { vm_compute. intuition discriminate. }
  split; [exact Hds | exact (C1_dataset_repair [("dataset", VStr "Products")] Hds)].
Defined.

(** The aliases, a null and an absent dataset all end as [kpi_totals]. *)
Example dataset_aliases :
  map (fun v => dict_get (normalize_dict [("dataset", v)]) "dataset")
      [VStr "kpi"; VStr "kpis"; VStr "totals"; VStr "KPI_TOTALS"; VNone; VInt 0]
  = map VStr ["kpi_totals"; "kpi_totals"; "kpi_totals"; "kpi_totals"; "kpi_totals"; "kpi_totals"]
  /\ dict_get (normalize_dict []) "dataset" = VStr "kpi_totals".
Proof. split; reflexivity. Qed.

(** C2, as stated, fails: the chart type ["pie "] (trailing blank),
    lower-cased, is no key of the synonym table, yet line 269 strips it
    first and the plan gets [chart_type = pie], not [bar]. *)
Lemma C2_chart_unmatched_counterexample :
  ~ (forall plan : dict,
        ~ In (lower (py_str (py_or (dict_get plan "chart_type") (VStr EmptyString))))
             (map fst ch_map) ->
        exists q, _normalize_plan (VDict plan) = Ok (VDict q)
                  /\ dict_get q "chart_type" = VStr "bar").
Proof.
  intros H.
  destruct (H [("chart_type", VStr "pie ")]) as (q & Hq & Hc).
  - cbn. intuition discriminate.
  - vm_compute in Hq. injection Hq as <-. vm_compute in Hc. discriminate.
Qed.

Lemma table_get_missing (m : list (string * string)) (k dflt : string) :
  ~ In k (map fst m) -> table_get m k dflt = dflt.
Proof.
  induction m as [| [k' v] m IH]; cbn; [reflexivity |].
  intros H. destruct (String.eqb_spec k k') as [-> | _].
  - exfalso. apply H. now left.
  - apply IH. intros Hin. apply H. now right.
Qed.

(** C2, amended: for every candidate plan, normalization turns the
    chart_type value into text (absent, null or falsy counting as empty),
    strips surrounding whitespace, lower-cases it and maps it through the
    fixed synonym table ("bar chart" to bar, "line chart" to line,
    "scatter plot" to scatter, "pie chart" to pie, "box plot" to box, the
    six canonical names to themselves); a text the table does not hold
    yields [bar]; so the normalized chart_type is always one of bar, line,
    scatter, pie, histogram, box. *)
Theorem C2_chart_type_repair (plan : dict) :
  let ch := lower (strip (py_str (py_or (dict_get plan "chart_type") (VStr EmptyString)))) in
  exists q c,
    _normalize_plan (VDict plan) = Ok (VDict q)
    /\ dict_get q "chart_type" = VStr c
    /\ c = table_get ch_map ch "bar"
    /\ (~ In ch (map fst ch_map) -> c = "bar")
    /\ In c canonical_charts
    /\ incl [("bar chart", "bar"); ("pie chart", "pie");
              ("scatter plot", "scatter"); ("box plot", "box")] ch_map.
Proof.
  intros ch. exists (normalize_dict plan), (repair_chart_type plan).
  split; [reflexivity |].
  split; [apply normalize_dict_chart_type |].
  split; [reflexivity |].
  split; [intros Hk; now apply table_get_missing |].
  split; [apply repair_chart_type_canonical |].
  unfold incl. intros e He. cbn in He |- *. intuition.
Qed.

Example chart_type_synonyms :
  map (fun v => dict_get (normalize_dict [("chart_type", v)]) "chart_type")
      [VStr "Bar Chart"; VStr "PIE CHART"; VStr " scatter plot"; VStr "box plot";
       VStr "donut"; VNone; VList [VStr "pie"]]
  = map VStr ["bar"; "pie"; "scatter"; "box"; "bar"; "bar"; "bar"]
  /\ dict_get (normalize_dict []) "chart_type" = VStr "bar".
Proof. split; reflexivity. Qed.

Lemma in_str_tuple_VStr (s : string) (l : list string) :
  in_str_tuple (VStr s) l = in_strs s l.
Proof. reflexivity. Qed.

(** C7, as stated, fails: a candidate plan whose [x] is the number 7 keeps
    it (line 282 only replaces a falsy [x]), so the normalized [x] is not a
    string. *)
Lemma C7_x_string_counterexample :
  ~ (forall plan : dict,
        exists q s, _normalize_plan (VDict plan) = Ok (VDict q)
                    /\ dict_get q "x" = VStr s).
Proof.
  intros H. destruct (H [("x", VInt 7)]) as (q & s & Hq & Hx).
  vm_compute in Hq. injection Hq as <-. vm_compute in Hx. discriminate.
Qed.

(** C7, amended: for every candidate plan, the normalized plan's [x] is
    non-null and truthy.  When the supplied [x] is absent, null or
    otherwise falsy (the empty string, 0), [x] is the default of the
    repaired dataset: kpi_totals gives metric, kpi_expensesByCategory
    category, kpi_monthly month, kpi_daily date, products price for a
    scatter or line chart and createdAt otherwise, transactions amount for
    a box or histogram chart and buyer otherwise.  Otherwise the supplied
    value is kept as it is, whatever its type; in particular a supplied
    string gives a non-empty string. *)
Theorem C7_x_default (plan : dict) :
  exists q ds ch,
    _normalize_plan (VDict plan) = Ok (VDict q)
    /\ dict_get q "dataset" = VStr ds
    /\ dict_get q "chart_type" = VStr ch
    /\ truthy (dict_get q "x") = true
    /\ dict_get q "x" <> VNone
    /\ (truthy (dict_get plan "x") = true -> dict_get q "x" = dict_get plan "x")
    /\ (forall s, dict_get plan "x" = VStr s ->
                  exists s', dict_get q "x" = VStr s' /\ s' <> EmptyString)
    /\ (truthy (dict_get plan "x") = false ->
        (ds = "kpi_totals" -> dict_get q "x" = VStr "metric")
        /\ (ds = "kpi_expensesByCategory" -> dict_get q "x" = VStr "category")
        /\ (ds = "kpi_monthly" -> dict_get q "x" = VStr "month")
        /\ (ds = "kpi_daily" -> dict_get q "x" = VStr "date")
        /\ (ds = "products" -> In ch ["scatter"; "line"] -> dict_get q "x" = VStr "price")
        /\ (ds = "products" -> ~ In ch ["scatter"; "line"] -> dict_get q "x" = VStr "createdAt")
        /\ (ds = "transactions" -> In ch ["box"; "histogram"] -> dict_get q "x" = VStr "amount")
        /\ (ds = "transactions" -> ~ In ch ["box"; "histogram"] -> dict_get q "x" = VStr "buyer")).
Proof.
  exists (normalize_dict plan), (repair_dataset plan), (repair_chart_type plan).
  split; [reflexivity |].
  split; [apply normalize_dict_dataset |].
  split; [apply normalize_dict_chart_type |].
  destruct (normalize_dict_fields plan) as (dx & dy & Hp & _ & _ & Hx & _).
  apply dict_get_of_lookup in Hx. rewrite Hx. clear Hx.
  destruct (axis_pair_valid (repair_dataset plan) (VStr (repair_chart_type plan))
              (repair_dataset_valid plan)) as (sx & dy' & Hp' & Hsx & _).
  rewrite Hp in Hp'. injection Hp' as -> ->.
  assert (Hdx : truthy (VStr sx) = true).
  { cbn. destruct (String.eqb_spec sx EmptyString); [contradiction | reflexivity]. }
  assert (Ht : truthy (py_or (dict_get plan "x") (VStr sx)) = true).
  { unfold py_or. destruct (truthy (dict_get plan "x")) eqn:E; assumption. }
  split; [exact Ht |].
  split; [intros E; rewrite E in Ht; discriminate |].
  split; [intros E; now apply py_or_truthy |].
  split.
  { intros s Hs. rewrite Hs. unfold py_or.
    destruct (truthy (VStr s)) eqn:E.
    - exists s. split; [reflexivity |]. intros ->. discriminate.
    - exists sx. now split. }
  intros E. rewrite (py_or_falsy _ _ E).
  unfold axis_pair in Hp. rewrite in_str_tuple_VStr in Hp.
  rewrite in_str_tuple_VStr in Hp.
  repeat split; intros Hds; rewrite Hds in Hp; cbn [String.eqb Ascii.eqb Bool.eqb] in Hp;
    try (injection Hp as <- _; reflexivity);
    intros Hch.
  - apply in_strs_In in Hch. rewrite Hch in Hp. now injection Hp as <- _.
  - apply in_strs_not_In in Hch. rewrite Hch in Hp. now injection Hp as <- _.
  - apply in_strs_In in Hch. rewrite Hch in Hp. now injection Hp as <- _.
  - apply in_strs_not_In in Hch. rewrite Hch in Hp. now injection Hp as <- _.
Qed.

Example x_defaults :
  map (fun d => dict_get (normalize_dict d) "x")
      [ [("dataset", VStr "kpi_monthly")];
        [("dataset", VStr "products"); ("chart_type", VStr "Line")];
        [("dataset", VStr "products"); ("chart_type", VStr "pie")];
        [("dataset", VStr "transactions"); ("chart_type", VStr "box plot"); ("x", VStr EmptyString)];
        [("dataset", VStr "transactions"); ("x", VNone)];
        [("dataset", VStr "kpi_daily"); ("x", VStr "revenue")] ]
  = map VStr ["month"; "price"; "createdAt"; "amount"; "buyer"; "revenue"].
Proof. reflexivity. Qed.

End Repair.

(* ===================================================================== *)
(** * Filter inference *)
(* ===================================================================== *)

Section FilterInference.

Lemma prefix_append (n h : string) :
  String.prefix n h = true <-> exists b, h = n ++ b.
Proof.
  revert h. induction n as [| a n IH]; intros h.
  - destruct h; cbn; split; eauto.
  - destruct h as [| c h]; cbn.
    + split; [discriminate | intros [b Hb]; discriminate].
    + destruct (Ascii.ascii_dec a c) as [-> | Hne].
      * rewrite IH. split; intros [b Hb]; exists b; congruence.
      * split; [discriminate | intros [b Hb]; congruence].
Qed.

(** [contains] is the substring test: the needle sits somewhere in the
    haystack. *)
Lemma contains_spec (n h : string) :
  contains n h = true <-> exists a b, h = a ++ n ++ b.
Proof.
  induction h as [| c h IH].
  - cbn [contains]. rewrite orb_false_r, prefix_append. split.
    + intros [b Hb]. exists EmptyString, b. exact Hb.
    + intros (a & b & H). destruct a; cbn in H; [eauto | discriminate].
  - cbn [contains]. rewrite orb_true_iff, prefix_append, IH. split.
    + intros [[b Hb] | (a & b & H)].
      * exists EmptyString, b. exact Hb.
      * exists (String c a), b. cbn. now rewrite H.
    + intros (a & b & H). destruct a as [| c' a]; cbn in H.
      * left. eauto.
      * right. exists a, b. congruence.
Qed.

Lemma truthy_not_None (v : value) : truthy v = true -> is_None v = false.
Proof. destruct v; cbn; congruence. Qed.

(** C3: for every candidate plan whose dataset normalizes to kpi_totals
    and that carries no explicit filter (absent, null, or falsy), if the
    lower-cased reason text contains "revenue" and "expense" but not
    "profit", normalization produces
    [filter = {metric: [totalRevenue, totalExpenses]}] exactly; and if it
    contains none of the three keywords, the plan is left with
    [filter = null]. *)
Theorem C3_filter_inference (plan : dict) :
  let text := lower (py_str (dict_get_or plan "reason" (VStr EmptyString))) in
  dict_get (normalize_dict plan) "dataset" = VStr "kpi_totals" ->
  truthy (dict_get plan "filter") = false ->
  exists q,
    _normalize_plan (VDict plan) = Ok (VDict q)
    /\ (contains "revenue" text = true ->
        contains "expense" text = true ->
        contains "profit" text = false ->
        dict_get q "filter"
        = VDict [("metric", VList [VStr "totalRevenue"; VStr "totalExpenses"])])
    /\ (contains "revenue" text = false ->
        contains "expense" text = false ->
        contains "profit" text = false ->
        dict_get q "filter" = VNone).
Proof.
  intros text Hds Hf. exists (normalize_dict plan). split; [reflexivity |].
  rewrite normalize_dict_dataset in Hds. injection Hds as Hds.
  rewrite normalize_dict_filter. unfold final_filter. cbv zeta.
  rewrite Hds, (py_or_falsy _ _ Hf).
  unfold inferred_metrics, reason_text. fold text. cbv zeta.
  split; intros Hr He Hp; rewrite Hr, He, Hp; reflexivity.
Qed.

Lemma C3_filter_inference_witness :
  dict_get (normalize_dict scenario_plan) "dataset" = VStr "kpi_totals"
  /\ truthy (dict_get scenario_plan "filter") = false
  /\ exists q,
      _normalize_plan (VDict scenario_plan) = Ok (VDict q)
      /\ dict_get q "filter"
         = VDict [("metric", VList [VStr "totalRevenue"; VStr "totalExpenses"])].
Proof.
  assert (Hds : dict_get (normalize_dict scenario_plan) "dataset" = VStr "kpi_totals")
    by reflexivity.
  assert (Hf : truthy (dict_get scenario_plan "filter") = false) by reflexivity.
  split; [exact Hds |]. split; [exact Hf |].
  destruct (C3_filter_inference scenario_plan Hds Hf) as (q & Hq & Hyes & _).
  exists q. split; [exact Hq |].
  apply Hyes; reflexivity.
Defined.

(** The end-to-end scenario of the specification. *)
Example revenue_vs_expenses :
  normalize_dict scenario_plan
  = [("dataset", VStr "kpi_totals"); ("chart_type", VStr "bar");
     ("reason", VStr "comparing revenue and expenses");
     ("x", VStr "metric"); ("y", VStr "value");
     ("filter", VDict [("metric", VList [VStr "totalRevenue"; VStr "totalExpenses"])]);
     ("calculation", VNone)].
Proof. reflexivity. Qed.

End FilterInference.

(* ===================================================================== *)
(** * Idempotence *)
(* ===================================================================== *)

Section Idempotence.

Lemma py_or_cases (a b : value) :
  truthy b = true \/ b = VNone ->
  truthy (py_or a b) = true \/ py_or a b = VNone /\ b = VNone.
Proof.
  unfold py_or. destruct (truthy a) eqn:E; [now left |].
  intros [H | H]; [now left | now right].
Qed.

Lemma py_or_fixed (v d : value) :
  truthy v = true \/ v = VNone /\ d = VNone -> py_or v d = v.
Proof.
  intros [H | [-> ->]]; [now apply py_or_truthy | reflexivity].
Qed.

Lemma repair_chart_type_canonical_fixed (q : dict) (ch : string) :
  dict_lookup q "chart_type" = Some (VStr ch) ->
  In ch canonical_charts ->
  repair_chart_type q = ch.
Proof.
  intros Hl H. unfold repair_chart_type.
  rewrite (dict_get_of_lookup _ _ _ Hl).
  destruct H as [E|[E|[E|[E|[E|[E|[]]]]]]]; rewrite <- E; reflexivity.
Qed.

Lemma repair_dataset_valid_fixed (q : dict) (ds : string) :
  dict_lookup q "dataset" = Some (VStr ds) ->
  In ds valid_ds ->
  repair_dataset q = ds.
Proof.
  intros Hl H. unfold repair_dataset.
  rewrite (dict_get_of_lookup _ _ _ Hl).
  destruct H as [E|[E|[E|[E|[E|[E|[]]]]]]]; rewrite <- E; reflexivity.
Qed.

(** What normalization returns is finalized. *)
Lemma normalize_dict_finalized (plan : dict) : finalized (normalize_dict plan).
Proof.
  destruct (normalize_dict_fields plan)
    as (dx & dy & Hp & Hds & Hch & Hx & Hy & Hf & Hc & Hr).
  destruct (axis_pair_valid (repair_dataset plan) (VStr (repair_chart_type plan))
              (repair_dataset_valid plan)) as (sx & dy' & Hp' & Hsx & Hdy).
  rewrite Hp in Hp'. injection Hp' as -> ->.
  exists (repair_dataset plan), (repair_chart_type plan),
    (py_or (dict_get plan "x") (VStr sx)), (py_or (dict_get plan "y") dy'),
    (final_filter plan), (py_or (dict_get plan "calculation") VNone).
  split; [exact Hds |]. split; [apply repair_dataset_valid |].
  split; [exact Hch |]. split; [apply repair_chart_type_canonical |].
  split; [exact Hx |].
  split.
  { unfold py_or. destruct (truthy (dict_get plan "x")) eqn:E; [exact E |].
    cbn. destruct (String.eqb_spec sx EmptyString); [contradiction | reflexivity]. }
  split; [exact Hy |].
  split.
  { destruct (py_or_cases (dict_get plan "y") dy' Hdy) as [H | [H Hd]];
      [now left | right].
    split; [exact H |]. exists (VStr sx). now rewrite Hp, Hd. }
  split; [exact Hf |].
  assert (Hf0 : truthy (py_or (dict_get plan "filter") VNone) = true
                \/ py_or (dict_get plan "filter") VNone = VNone).
  { destruct (py_or_cases (dict_get plan "filter") VNone) as [H | [H _]]; auto. }
  split.
  { unfold final_filter. cbv zeta.
    destruct (_ && _ && _); [now left | exact Hf0]. }
  split; [exact Hc |].
  split.
  { destruct (py_or_cases (dict_get plan "calculation") VNone) as [H | [H _]]; auto. }
  intros Hk Hnone.
  unfold inferred_metrics, reason_text. rewrite Hr.
  fold (reason_text plan). fold (inferred_metrics plan).
  unfold final_filter in Hnone. cbv zeta in Hnone.
  rewrite Hk in Hnone. cbn [String.eqb Ascii.eqb Bool.eqb andb] in Hnone.
  destruct (is_None (py_or (dict_get plan "filter") VNone)) eqn:E;
    cbn [andb] in Hnone.
  - destruct (inferred_metrics plan); [reflexivity | discriminate].
  - rewrite Hnone in E. discriminate.
Qed.

(** Normalizing a finalized plan changes nothing: every stage stores the
    value the plan already holds. *)
Lemma normalize_dict_fixed (q : dict) : finalized q -> normalize_dict q = q.
Proof.
  intros (ds & ch & x & y & f & c & Hds & Vds & Hch & Vch & Hx & Tx & Hy & Ty
          & Hf & Tf & Hc & Tc & Hinf).
  unfold normalize_dict. cbv zeta.
  rewrite (repair_dataset_valid_fixed q ds Hds Vds).
  rewrite (dict_setitem_same q "dataset" _ Hds).
  rewrite (repair_chart_type_canonical_fixed q ch Hch Vch).
  rewrite (dict_setitem_same q "chart_type" _ Hch).
  assert (Hax : axis_defaults ds q = q).
  { rewrite axis_defaults_pair, (dict_get_of_lookup _ _ _ Hch).
    destruct (axis_pair_valid ds (VStr ch) Vds) as (sx & dy & Hp & _ & _).
    rewrite Hp. unfold default_axes.
    rewrite (dict_get_of_lookup _ _ _ Hx), (py_or_truthy _ _ Tx).
    rewrite (dict_setitem_same q "x" _ Hx).
    rewrite (dict_get_of_lookup _ _ _ Hy).
    rewrite py_or_fixed; [now apply dict_setitem_same |].
    destruct Ty as [Ty | [Ty [dx' Hp']]]; [now left | right].
    split; [exact Ty |]. rewrite Hp in Hp'. now injection Hp' as _ ->. }
  rewrite Hax.
  assert (Hopt : optional_fields q = q).
  { unfold optional_fields.
    rewrite (dict_get_of_lookup _ _ _ Hf).
    rewrite (py_or_fixed f VNone) by (destruct Tf; auto).
    rewrite (dict_setitem_same q "filter" _ Hf).
    rewrite (dict_get_of_lookup _ _ _ Hc).
    rewrite (py_or_fixed c VNone) by (destruct Tc; auto).
    now apply dict_setitem_same. }
  rewrite Hopt.
  unfold infer_filter. rewrite (dict_get_of_lookup _ _ _ Hf).
  destruct (String.eqb_spec ds "kpi_totals") as [Hk | Hk]; [| reflexivity].
  destruct f; cbn [is_None andb]; try reflexivity.
  now rewrite (Hinf Hk eq_refl).
Qed.

(** C4, as stated, fails in its second half: a candidate plan carrying the
    explicit, empty filter [{}] does not keep it.  Line 309 turns every
    falsy filter into [None], after which the inference of lines 318-334
    fires. *)
Lemma C4_explicit_filter_counterexample :
  ~ (forall (plan : dict) (f : value),
        dict_lookup plan "filter" = Some f -> f <> VNone ->
        exists q, _normalize_plan (VDict plan) = Ok (VDict q)
                  /\ dict_get q "filter" = f).
Proof.
  intros H.
  destruct (H [("dataset", VStr "kpi_totals"); ("filter", VDict []);
               ("reason", VStr "monthly revenue")] (VDict []))
    as (q & Hq & Hf).
  - reflexivity.
  - discriminate.
  - vm_compute in Hq. injection Hq as <-. vm_compute in Hf. discriminate.
Qed.

(** C4, amended: normalization is idempotent: for every plan that is the
    output of normalization, running normalization on it again returns the
    same plan; and for every candidate plan that carries a truthy
    (non-null, non-empty) filter, the filter-inference step does not fire
    and the supplied filter is passed through unchanged. *)
Theorem C4_idempotent :
  (forall p q : value, _normalize_plan p = Ok q -> _normalize_plan q = Ok q)
  /\ (forall plan : dict,
        truthy (dict_get plan "filter") = true ->
        exists q, _normalize_plan (VDict plan) = Ok (VDict q)
                  /\ dict_get q "filter" = dict_get plan "filter").
Proof.
  split.
  - intros p q H. destruct p; try discriminate.
    injection H as <-. cbn [_normalize_plan]. unfold Ok. do 2 f_equal.
    apply normalize_dict_fixed, normalize_dict_finalized.
  - intros plan Ht. exists (normalize_dict plan). split; [reflexivity |].
    rewrite normalize_dict_filter. unfold final_filter. cbv zeta.
    rewrite (py_or_truthy _ _ Ht), (truthy_not_None _ Ht).
    now rewrite andb_false_r.
Qed.

Lemma C4_idempotent_witness :
  _normalize_plan (VDict scenario_plan) = Ok (VDict (normalize_dict scenario_plan))
  /\ _normalize_plan (VDict (normalize_dict scenario_plan))
     = Ok (VDict (normalize_dict scenario_plan))
  /\ truthy (dict_get filtered_plan "filter") = true
  /\ exists q, _normalize_plan (VDict filtered_plan) = Ok (VDict q)
                /\ dict_get q "filter" = dict_get filtered_plan "filter".
Proof.
  assert (H : _normalize_plan (VDict scenario_plan)
              = Ok (VDict (normalize_dict scenario_plan))) by reflexivity.
  assert (Ht : truthy (dict_get filtered_plan "filter") = true) by reflexivity.
  split; [exact H |].
  split; [exact (proj1 C4_idempotent _ _ H) |].
  split; [exact Ht | exact (proj2 C4_idempotent filtered_plan Ht)].
Defined.

End Idempotence.

(* ===================================================================== *)
(** * The oracle adapter never fails *)
(* ===================================================================== *)

Import Oracle.

Section OracleFailure.

Context `{Services}.

(** C5: whenever the body of the [try] fails, whether the client raised
    (transport failure, oracle error), the response carried no usable
    content, the cleaned text did not parse as JSON, or the parsed value
    could not be normalized, [llm_plan] returns the normalized hardcoded
    fallback plan, whose fields are dataset kpi_totals, chart_type bar,
    x metric, y value, filter null, calculation null (and the reason
    "Fallback plan"); so [llm_plan] returns a plan in every case. *)
Theorem C5_oracle_failure_fallback (prompt : string) :
  let fallback :=
    VDict [("dataset", VStr "kpi_totals"); ("chart_type", VStr "bar");
           ("x", VStr "metric"); ("y", VStr "value");
           ("filter", VNone); ("calculation", VNone);
           ("reason", VStr "Fallback plan")] in
  (forall e, llm_plan_try prompt = Raise e -> llm_plan prompt = Ok fallback)
  /\ (chat_completions_create prompt = CreateRaised -> llm_plan prompt = Ok fallback)
  /\ (forall content choices e,
        chat_completions_create prompt = Completion (Some content :: choices) ->
        json_loads (_clean_json (strip content)) = Raise e ->
        llm_plan prompt = Ok fallback)
  /\ (exists plan, llm_plan prompt = Ok plan).
Proof.
  intros fallback.
  assert (Hraise : forall e, llm_plan_try prompt = Raise e ->
                             llm_plan prompt = Ok fallback).
  { intros e He. unfold llm_plan. rewrite He. reflexivity. }
  split; [exact Hraise |].
  split.
  { intros Hc. apply (Hraise APIError). unfold llm_plan_try. now rewrite Hc. }
  split.
  { intros content choices e Hc Hj. apply (Hraise e).
    unfold llm_plan_try. rewrite Hc. cbn. now rewrite Hj. }
  unfold llm_plan.
  destruct (llm_plan_try prompt) as [e | plan] eqn:E.
  - exists fallback. reflexivity.
  - exists plan. reflexivity.
Qed.

End OracleFailure.

Lemma C5_oracle_failure_fallback_witness :
  @llm_plan_try unreachable_services "show revenue vs expenses" = Raise APIError
  /\ @llm_plan unreachable_services "show revenue vs expenses"
     = Ok (VDict [("dataset", VStr "kpi_totals"); ("chart_type", VStr "bar");
                  ("x", VStr "metric"); ("y", VStr "value");
                  ("filter", VNone); ("calculation", VNone);
                  ("reason", VStr "Fallback plan")])
  /\ @llm_plan chatty_services "show revenue vs expenses"
     = Ok (VDict [("dataset", VStr "kpi_totals"); ("chart_type", VStr "bar");
                  ("x", VStr "metric"); ("y", VStr "value");
                  ("filter", VNone); ("calculation", VNone);
                  ("reason", VStr "Fallback plan")]).
Proof.
  assert (He : @llm_plan_try unreachable_services "show revenue vs expenses"
               = Raise APIError) by reflexivity.
  split; [exact He |].
  split.
  - exact (proj1 (@C5_oracle_failure_fallback unreachable_services
                    "show revenue vs expenses") APIError He).
  - refine (proj1 (proj2 (proj2 (@C5_oracle_failure_fallback chatty_services
                                   "show revenue vs expenses")))
                  "Sure! Here is a bar chart of your KPIs." [] JSONDecodeError _ _);
      reflexivity.
Defined.

(** A fenced answer is unwrapped before it is parsed. *)
Example clean_json_fenced :
  _clean_json ("```json" ++ newline ++ "{'a': {'b': 1}}" ++ newline ++ "```")
  = "{'a': {'b': 1}}"
  /\ _clean_json "Here you go: {'a': 1}  " = "{'a': 1}"
  /\ _clean_json "no object here" = "no object here".
Proof. repeat split; reflexivity. Qed.


(* ===================================================================== *)
(** * KPI melting *)
(* ===================================================================== *)

Import Pandas Dashboard.

Section Melting.

Context `{Library}.

(** Whatever the document, a melt that returns gives the totals table its
    two columns and three rows, a missing total counting as 0. *)
Lemma melt_kpi_document_totals (doc : dict) (fs : frames) :
  melt_kpi_document doc = Ok fs ->
  frames_get fs "kpi_totals"
  = Some (mkDataFrame ["metric"; "value"]
            [[VStr "totalRevenue"; dict_get_or doc "totalRevenue" (VInt 0)];
             [VStr "totalExpenses"; dict_get_or doc "totalExpenses" (VInt 0)];
             [VStr "totalProfit"; dict_get_or doc "totalProfit" (VInt 0)]]).
Proof.
  unfold melt_kpi_document. cbv zeta.
  destruct (dict_items _) as [e | items]; cbn [bind]; [discriminate |].
  destruct (pd_DataFrame _) as [e | exp_df]; cbn [bind]; [discriminate |].
  destruct (pd_DataFrame _) as [e | monthly_df]; cbn [bind]; [discriminate |].
  destruct (pd_DataFrame _) as [e | daily_df]; cbn [bind]; [discriminate |].
  intros [= <-]. reflexivity.
Qed.

(** C6: on the document with totalRevenue 100, totalExpenses 40,
    totalProfit 60 and empty category mapping, monthly list and daily list,
    [melt_kpi_document] yields the kpi_totals table of exactly three rows
    (100, 40, 60), and yields kpi_expensesByCategory, kpi_monthly and
    kpi_daily with no row and no column: [pd.DataFrame([])] has no
    header, so the column headers the claim asks for are not there. *)
Theorem C6_melt_empty_breakdowns :
  melt_kpi_document totals_only_doc
  = Ok [("kpi_totals",
         mkDataFrame ["metric"; "value"]
           [[VStr "totalRevenue"; VInt 100];
            [VStr "totalExpenses"; VInt 40];
            [VStr "totalProfit"; VInt 60]]);
        ("kpi_expensesByCategory", mkDataFrame [] []);
        ("kpi_monthly", mkDataFrame [] []);
        ("kpi_daily", mkDataFrame [] [])].
Proof. reflexivity. Qed.

(** The sibling path, taken when the store holds no KPI document, does give
    the four empty tables their headers. *)
Lemma fetch_kpi_frames_no_document `{Store} :
  find_one_sorted = Ok None ->
  fetch_kpi_frames
  = Ok [("kpi_totals", mkDataFrame ["metric"; "value"] []);
        ("kpi_expensesByCategory", mkDataFrame ["category"; "value"] []);
        ("kpi_monthly",
         mkDataFrame ["month"; "revenue"; "expenses"; "operationalExpenses";
                      "nonOperationalExpenses"] []);
        ("kpi_daily", mkDataFrame ["date"; "revenue"; "expenses"] [])].
Proof. intros Hf. unfold fetch_kpi_frames. rewrite Hf. reflexivity. Qed.

(** With data in the breakdowns the headers are the keys of the records. *)
Example melt_with_breakdowns :
  melt_kpi_document
    [("totalRevenue", VInt 100);
     ("expensesByCategory", VDict [("salaries", VInt 30); ("supplies", VInt 10)])]
  = Ok [("kpi_totals",
         mkDataFrame ["metric"; "value"]
           [[VStr "totalRevenue"; VInt 100];
            [VStr "totalExpenses"; VInt 0];
            [VStr "totalProfit"; VInt 0]]);
        ("kpi_expensesByCategory",
         mkDataFrame ["category"; "value"]
           [[VStr "salaries"; VInt 30]; [VStr "supplies"; VInt 10]]);
        ("kpi_monthly", mkDataFrame [] []);
        ("kpi_daily", mkDataFrame [] [])].
Proof. reflexivity. Qed.

End Melting.

(* ===================================================================== *)
(** * Price suggestion *)
(* ===================================================================== *)

Import Pricing.

Section PriceSuggestion.

Context `{Numerics}.

Lemma sales_volume_column_NoDup (product : Product) :
  NoDup (sales_volume_column product).
Proof.
  unfold sales_volume_column.
  repeat constructor; cbn; lia.
Qed.

(** C10: for every product the three synthetic sales volumes
    [sales_volume + 5], [sales_volume], [sales_volume - 5] are pairwise
    distinct, so [nunique] is 3, the guard [nunique < 2] is never taken, and
    every suggestion [suggest_price] returns is the one of the regression
    path. *)
Theorem C10_constant_branch_unreachable (product : Product) :
  NoDup (sales_volume_column product)
  /\ nunique (sales_volume_column product) = 3
  /\ fst (suggest_one product) = Regression
  /\ forall products : list Product,
       suggest_price products
       = map (fun p => best_by_regression (price_column p) (sales_volume_column p))
             products.
Proof.
  assert (Hn : forall p : Product, nunique (sales_volume_column p) = 3).
  { intros p. unfold nunique.
    now rewrite (nodup_fixed_point Z.eq_dec (sales_volume_column_NoDup p)). }
  assert (Hp : forall p : Product,
             suggest_one p
             = (Regression, best_by_regression (price_column p) (sales_volume_column p))).
  { intros p. unfold suggest_one. now rewrite Hn. }
  split; [apply sales_volume_column_NoDup |].
  split; [apply Hn |].
  split; [now rewrite Hp |].
  intros products. unfold suggest_price.
  apply map_ext. intros p. now rewrite Hp.
Qed.

End PriceSuggestion.

(* ===================================================================== *)
(** * Execution stage: filter *)
(* ===================================================================== *)

Section ValueEquality.

(** Induction on values that reaches the elements of lists and dicts. *)
Definition value_nested_ind (P : value -> Prop)
  (HNone : P VNone) (HBool : forall b, P (VBool b)) (HInt : forall z, P (VInt z))
  (HFloat : forall r, P (VFloat r)) (HStr : forall s, P (VStr s))
  (HList : forall l, Forall P l -> P (VList l))
  (HDict : forall kvs, Forall (fun kv => P (snd kv)) kvs -> P (VDict kvs))
  : forall v, P v :=
  fix go (v : value) : P v :=
    match v with
    | VNone => HNone
    | VBool b => HBool b
    | VInt z => HInt z
    | VFloat r => HFloat r
    | VStr s => HStr s
    | VList l =>
        HList l ((fix all (l : list value) : Forall P l :=
                    match l with
                    | [] => Forall_nil P
                    | x :: l' => Forall_cons x (go x) (all l')
                    end) l)
    | VDict kvs =>
        HDict kvs ((fix all (kvs : list (string * value))
                      : Forall (fun kv => P (snd kv)) kvs :=
                      match kvs with
                      | [] => Forall_nil _
                      | kv :: kvs' => Forall_cons kv (go (snd kv)) (all kvs')
                      end) kvs)
    end.

Lemma value_eqb_eq (a c : value) : value_eqb a c = true <-> a = c.
Proof.
  revert c. induction a using value_nested_ind; intros c.
  - destruct c; cbn; split; congruence.
  - destruct c; cbn; try (split; congruence).
    rewrite Bool.eqb_true_iff. split; congruence.
  - destruct c; cbn; try (split; congruence).
    rewrite Z.eqb_eq. split; congruence.
  - destruct c; cbn; try (split; congruence).
    rewrite String.eqb_eq. split; congruence.
  - destruct c; cbn; try (split; congruence).
    rewrite String.eqb_eq. split; congruence.
  - destruct c as [| | | | | l' |]; cbn; try (split; congruence).
    revert l'. induction H as [| x l Hx Hl IH]; intros [| y l'];
      try (split; congruence).
    rewrite andb_true_iff, Hx, IH. split.
    + intros [-> [= ->]]. reflexivity.
    + intros [= -> ->]. auto.
  - destruct c as [| | | | | | kvs']; cbn; try (split; congruence).
    revert kvs'. induction H as [| [k x] kvs Hx Hl IH]; intros [| [k' y] kvs'];
      try (split; congruence).
    cbn [snd] in Hx.
    rewrite !andb_true_iff, String.eqb_eq, Hx, IH. split.
    + intros [[-> ->] [= ->]]. reflexivity.
    + intros [= -> -> ->]. auto.
Qed.

(** [x in vals] on a Python list is membership in the list. *)
Lemma existsb_value_eqb_In (x : value) (vals : list value) :
  existsb (value_eqb x) vals = true <-> In x vals.
Proof.
  rewrite existsb_exists. split.
  - intros [y [Hy E]]. apply value_eqb_eq in E. now subst.
  - intros Hx. exists x. split; [exact Hx | now apply value_eqb_eq].
Qed.

(** Values written the same way match two strings exactly when they are the
    same string, as pandas does. *)
Lemma written_the_same_strings (s s' : string) :
  @same_value written_the_same (VStr s) (VStr s') = String.eqb s s'.
Proof. reflexivity. Qed.

End ValueEquality.

Section FilterStage.

Context `{cmp : Comparison}.

(** A cell is in the listed values when it matches one of them. *)
Lemma isin_matches (x : value) (vals : list value) :
  isin x vals = true <-> exists v, In v vals /\ same_value x v = true.
Proof. unfold isin. apply existsb_exists. Qed.

Lemma filter_filter {A : Type} (f g : A -> bool) (l : list A) :
  filter f (filter g l) = filter (fun x => g x && f x) l.
Proof.
  induction l as [| x l IH]; cbn; [reflexivity |].
  destruct (g x); cbn; [destruct (f x) |]; now rewrite IH.
Qed.

Lemma filter_all {A : Type} (f : A -> bool) (l : list A) :
  (forall x, In x l -> f x = true) -> filter f l = l.
Proof.
  induction l as [| x l IH]; cbn; [reflexivity |].
  intros Hall. rewrite (Hall x) by now left.
  f_equal. apply IH. intros y Hy. apply Hall. now right.
Qed.

(** One turn of the loop keeps the columns and the rows that pass. *)
Lemma filter_step_spec (df : DataFrame) (item : string * value) :
  filter_step df item
  = mkDataFrame (columns df) (filter (fun row => row_passes df row item) (rows df)).
Proof.
  destruct item as [col vals]. unfold filter_step, row_passes. cbn [fst snd].
  destruct (as_list vals) as [l |].
  - destruct (in_strs col (columns df)); [reflexivity |].
    rewrite filter_all by reflexivity. now destruct df.
  - rewrite filter_all by reflexivity. now destruct df.
Qed.

(** The whole loop keeps the rows that pass every entry. *)
Lemma fold_filter_step (items : dict) (df : DataFrame) :
  fold_left filter_step items df
  = mkDataFrame (columns df)
      (filter (fun row => forallb (row_passes df row) items) (rows df)).
Proof.
  revert df. induction items as [| item items IH]; intros df; cbn [fold_left forallb].
  - rewrite filter_all by reflexivity. now destruct df.
  - rewrite IH, filter_step_spec. cbn [columns rows].
    now rewrite filter_filter.
Qed.

Lemma empty_rows_pass (df : DataFrame) (items : dict) :
  empty df = true ->
  filter (fun row => forallb (row_passes df row) items) (rows df) = rows df.
Proof.
  intros He. apply filter_all. intros row Hrow.
  apply forallb_forall. intros [col vals] _.
  unfold empty in He. unfold row_passes. cbn [fst snd].
  destruct (columns df) as [| c cs].
  - destruct (as_list vals); reflexivity.
  - destruct (rows df); [contradiction | discriminate].
Qed.

(** C8: for every table and every plan whose filter is a mapping, the
    filtered table has the columns of the table and exactly those of its
    rows (in their order) that pass every entry of the filter; a row passes
    an entry whose field is a column and whose value is a list when its cell
    in that column is a member of the list, that is when pandas' [isin]
    matches the cell with one of the listed values (OR within a field, AND
    across fields); an entry whose field is no column is passed by every
    row.  An absent, null or empty filter leaves the table unchanged, and so
    does any filter applied to an empty table.  This holds whatever the
    comparison [isin] makes between a cell and a listed value. *)
Theorem C8_apply_filter (df : DataFrame) (plan : dict) :
  (truthy (dict_get plan "filter") = false -> apply_filter df plan = Ok df)
  /\ (empty df = true -> apply_filter df plan = Ok df)
  /\ (forall items : dict,
        dict_get plan "filter" = VDict items ->
        exists out,
          apply_filter df plan = Ok out
          /\ columns out = columns df
          /\ rows out = filter (fun row => forallb (row_passes df row) items) (rows df)
          /\ (forall row,
                In row (rows out) <->
                In row (rows df)
                /\ forall col vals, In (col, VList vals) items ->
                                    In col (columns df) ->
                                    exists v, In v vals
                                              /\ same_value (cell df row col) v = true)
          /\ (forall col vals, ~ In col (columns df) ->
                               forall row, row_passes df row (col, vals) = true)).
Proof.
  split; [| split].
  - intros Hf. unfold apply_filter. cbv zeta. now rewrite Hf.
  - intros He. unfold apply_filter. cbv zeta. rewrite He.
    now rewrite orb_true_r.
  - intros items Hitems.
    exists (mkDataFrame (columns df)
              (filter (fun row => forallb (row_passes df row) items) (rows df))).
    split.
    { unfold apply_filter. cbv zeta. rewrite Hitems.
      destruct (negb (truthy (VDict items)) || empty df) eqn:E.
      - apply orb_true_iff in E. destruct E as [E | E].
        + destruct items; [| discriminate]. cbn [forallb].
          rewrite filter_all by reflexivity. now destruct df.
        + rewrite (empty_rows_pass df items E). now destruct df.
      - cbn [dict_items bind Ok]. now rewrite fold_filter_step. }
    split; [reflexivity |].
    split; [reflexivity |].
    split.
    { intros row. cbn [rows]. rewrite filter_In, forallb_forall. split.
      - intros [Hrow Hall]. split; [exact Hrow |].
        intros col vals Hin Hcol.
        specialize (Hall _ Hin). unfold row_passes in Hall. cbn in Hall.
        apply in_strs_In in Hcol. rewrite Hcol in Hall.
        now apply isin_matches.
      - intros [Hrow Hall]. split; [exact Hrow |].
        intros [col vals] Hin. unfold row_passes. cbn [fst snd].
        destruct vals; cbn [as_list]; try reflexivity.
        destruct (in_strs col (columns df)) eqn:Hcol; [| reflexivity].
        apply isin_matches. apply Hall; [exact Hin | now apply in_strs_In]. }
    intros col vals Hcol row. unfold row_passes. cbn [fst snd].
    apply in_strs_not_In in Hcol. rewrite Hcol.
    destruct (as_list vals); reflexivity.
Qed.

End FilterStage.

Lemma C8_apply_filter_witness :
  dict_get (normalize_dict scenario_plan) "filter"
  = VDict [("metric", VList [VStr "totalRevenue"; VStr "totalExpenses"])]
  /\ @apply_filter written_the_same totals_table (normalize_dict scenario_plan)
     = Ok (mkDataFrame ["metric"; "value"]
             [[VStr "totalRevenue"; VInt 100]; [VStr "totalExpenses"; VInt 40]])
  /\ @apply_filter written_the_same totals_table [("filter", VDict [])] = Ok totals_table
  /\ @apply_filter written_the_same (mkDataFrame ["metric"; "value"] [])
                  (normalize_dict scenario_plan)
     = Ok (mkDataFrame ["metric"; "value"] []).
Proof.
  split; [reflexivity |].
  split.
  - destruct (proj2 (proj2 (@C8_apply_filter written_the_same totals_table (normalize_dict scenario_plan)))
                [("metric", VList [VStr "totalRevenue"; VStr "totalExpenses"])]
                eq_refl) as (out & Hout & Hcols & Hrows & _).
    rewrite Hout. destruct out as [cols rws]. cbn in Hcols, Hrows.
    now rewrite Hcols, Hrows.
  - split.
    + apply (proj1 (@C8_apply_filter written_the_same totals_table [("filter", VDict [])])).
      reflexivity.
    + apply (proj1 (proj2 (@C8_apply_filter written_the_same (mkDataFrame ["metric"; "value"] [])
                             (normalize_dict scenario_plan)))).
      reflexivity.
Defined.

(** A filter that is truthy and no mapping has no [items] and raises. *)
Example apply_filter_not_a_mapping :
  @apply_filter written_the_same totals_table
    [("filter", VStr "metric == totalRevenue")]
  = Raise AttributeError.
Proof. reflexivity. Qed.


(* ===================================================================== *)
(** * Execution stage: calculation *)
(* ===================================================================== *)

Section CalculationStage.

Context `{Library}.

(** C9: for every table and every plan whose calculation is a string, a
    string that lacks an ['='] leaves the table unchanged; a string whose
    right-hand expression fails to evaluate ([pd.eval] raises, as it does
    on a column that does not exist) leaves the table unchanged, with no new
    column; any calculation string applied to an empty table leaves it
    unchanged; and in every case a table is returned, no exception leaves
    the stage.  An absent or null calculation leaves the table unchanged
    too. *)
Theorem C9_calculation_safety (df : DataFrame) (plan : dict) :
  (truthy (dict_get plan "calculation") = false -> apply_calculation df plan = Ok df)
  /\ (forall s : string,
        dict_get plan "calculation" = VStr s ->
        (contains "=" s = false -> apply_calculation df plan = Ok df)
        /\ (forall e, pd_eval (strip (snd (split_equals s))) df = Raise e ->
                      apply_calculation df plan = Ok df)
        /\ (empty df = true -> apply_calculation df plan = Ok df)
        /\ (exists out, apply_calculation df plan = Ok out)).
Proof.
  split.
  - intros Hc. unfold apply_calculation. cbv zeta. now rewrite Hc.
  - intros s Hs.
    assert (Hshape :
              apply_calculation df plan
              = if negb (truthy (VStr s)) then Ok df
                else if negb (contains "=" s) || empty df then Ok df
                     else try_except
                            (v <- pd_eval (strip (snd (split_equals s))) df ;;
                             Ok (setitem df (strip (fst (split_equals s))) v))
                            (fun _ => Ok df)).
    { unfold apply_calculation. cbv zeta. rewrite Hs.
      destruct (negb (truthy (VStr s))); [reflexivity |].
      cbn [has_equals bind Ok].
      destruct (negb (contains "=" s) || empty df); [reflexivity |].
      now destruct (split_equals s). }
    rewrite Hshape.
    split; [| split; [| split]].
    + intros Hno. rewrite Hno. cbn [negb orb].
      now destruct (negb (truthy (VStr s))).
    + intros e He. rewrite He. cbn [bind try_except Raise].
      destruct (negb (truthy (VStr s))); [reflexivity |].
      now destruct (negb (contains "=" s) || empty df).
    + intros He. rewrite He, orb_true_r.
      now destruct (negb (truthy (VStr s))).
    + destruct (negb (truthy (VStr s))); [now exists df |].
      destruct (negb (contains "=" s) || empty df); [now exists df |].
      destruct (pd_eval _ df) as [e | v]; cbn [bind try_except Ok].
      * now exists df.
      * now eexists.
Qed.

End CalculationStage.

Lemma C9_calculation_safety_witness :
  @apply_calculation column_only_pandas totals_table
     [("calculation", VStr "double value")] = Ok totals_table
  /\ @apply_calculation column_only_pandas totals_table
       [("calculation", VStr "margin = price - expense")] = Ok totals_table
  /\ @apply_calculation column_only_pandas (mkDataFrame ["metric"; "value"] [])
       [("calculation", VStr "copy = value")] = Ok (mkDataFrame ["metric"; "value"] [])
  /\ @apply_calculation column_only_pandas totals_table [("calculation", VNone)]
     = Ok totals_table.
Proof.
  split.
  - refine (proj1 (proj2 (@C9_calculation_safety column_only_pandas totals_table
                            [("calculation", VStr "double value")])
                     "double value" eq_refl) _).
    reflexivity.
  - split.
    + refine (proj1 (proj2 (proj2 (@C9_calculation_safety column_only_pandas totals_table
                                     [("calculation", VStr "margin = price - expense")])
                              "margin = price - expense" eq_refl))
                TypeError _).
      reflexivity.
    + split.
      * refine (proj1 (proj2 (proj2 (proj2 (@C9_calculation_safety column_only_pandas
                                               (mkDataFrame ["metric"; "value"] [])
                                               [("calculation", VStr "copy = value")])
                                       "copy = value" eq_refl))) _).
        reflexivity.
      * apply (proj1 (@C9_calculation_safety column_only_pandas totals_table
                        [("calculation", VNone)])).
        reflexivity.
Defined.

(** When the expression evaluates, the new column is there. *)
Example apply_calculation_copy :
  @apply_calculation column_only_pandas totals_table [("calculation", VStr "copy = value")]
  = Ok (mkDataFrame ["metric"; "value"; "copy"]
          [[VStr "totalRevenue"; VInt 100; VInt 100];
           [VStr "totalExpenses"; VInt 40; VInt 40];
           [VStr "totalProfit"; VInt 60; VInt 60]]).
Proof. reflexivity. Qed.

(** A calculation that is a number is truthy and not iterable: the test
    [["=" not in calc]] raises before the table is looked at. *)
Example apply_calculation_not_a_string :
  @apply_calculation column_only_pandas (mkDataFrame ["metric"; "value"] [])
     [("calculation", VInt 5)] = Raise TypeError.
Proof. reflexivity. Qed.

(* ===================================================================== *)
(** * More on the normaliser *)
(* ===================================================================== *)

Import Shape.

Section NormalizerShape.

(** The dataset of a normalized plan is the stripped text of the supplied
    value when that text is one of the six valid names, and [kpi_totals]
    otherwise; it is always a valid name. *)
Theorem normalize_dataset_characterised (plan : dict) :
  let text := strip (py_str (py_or (dict_get plan "dataset") (VStr EmptyString))) in
  exists q ds,
    _normalize_plan (VDict plan) = Ok (VDict q)
    /\ dict_get q "dataset" = VStr ds
    /\ ds = (if in_strs text valid_ds then text else "kpi_totals")
    /\ In ds valid_ds.
Proof.
  intros text. exists (normalize_dict plan), (repair_dataset plan).
  split; [reflexivity |].
  split; [apply normalize_dict_dataset |].
  split; [| apply repair_dataset_valid].
  unfold repair_dataset. fold text. cbv zeta.
  destruct (in_strs text valid_ds); cbn [negb]; [reflexivity |].
  destruct (in_strs (lower text) _); reflexivity.
Qed.

Lemma keys_setitem (d : dict) (k : string) (v : value) :
  keys (dict_setitem d k v) = add_key (keys d) k.
Proof.
  unfold keys, add_key, in_strs.
  induction d as [| [k' v'] d IH]; cbn; [reflexivity |].
  destruct (String.eqb k k'); cbn; [reflexivity |].
  rewrite IH. now destruct (existsb (String.eqb k) (map fst d)).
Qed.

Lemma add_key_present (ks : list string) (k : string) :
  In k ks -> add_key ks k = ks.
Proof. intros H. unfold add_key. now rewrite (proj2 (in_strs_In k ks) H). Qed.

Lemma In_add_key (ks : list string) (k k' : string) :
  In k' (add_key ks k) <-> In k' ks \/ k' = k.
Proof.
  unfold add_key. destruct (in_strs k ks) eqn:E.
  - apply in_strs_In in E. split; [auto | intros [H | ->]; assumption].
  - rewrite in_app_iff. cbn. intuition.
Qed.

Lemma NoDup_add_key (ks : list string) (k : string) :
  NoDup ks -> NoDup (add_key ks k).
Proof.
  intros H. unfold add_key. destruct (in_strs k ks) eqn:E; [exact H |].
  apply in_strs_not_In in E.
  apply NoDup_app; [exact H | repeat constructor; intros [] | ].
  intros x Hx [<- | []]. contradiction.
Qed.

Lemma keys_normalize_dict (plan : dict) :
  keys (normalize_dict plan) = fold_left add_key assigned_fields (keys plan).
Proof.
  destruct (axis_pair_valid (repair_dataset plan) (VStr (repair_chart_type plan))
              (repair_dataset_valid plan)) as (sx & dy & Hp & _ & _).
  unfold normalize_dict. cbv zeta.
  rewrite repair_chart_type_setitem, axis_defaults_pair.
  dict_simpl. rewrite Hp.
  unfold infer_filter, optional_fields, default_axes.
  set (p6 := dict_setitem (dict_setitem _ "filter" _) "calculation" _).
  assert (H6 : keys p6 = fold_left add_key assigned_fields (keys plan)).
  { unfold p6. now rewrite !keys_setitem. }
  destruct (_ && _); [| exact H6].
  destruct (truthy _); [| exact H6].
  rewrite keys_setitem, H6. apply add_key_present.
  cbn [fold_left assigned_fields].
  apply In_add_key. left. apply In_add_key. now right.
Qed.

(** A normalized plan lists the fields of the candidate in their order,
    followed by those of dataset, chart_type, x, y, filter, calculation the
    candidate lacked, in that order; it holds each of the six, and a
    candidate without repeated field has a plan without repeated field. *)
Theorem normalize_plan_keys (plan : dict) :
  exists q,
    _normalize_plan (VDict plan) = Ok (VDict q)
    /\ keys q = fold_left add_key assigned_fields (keys plan)
    /\ (exists rest, keys q = (keys plan ++ rest)%list /\ incl rest assigned_fields)
    /\ incl assigned_fields (keys q)
    /\ (NoDup (keys plan) -> NoDup (keys q)).
Proof.
  exists (normalize_dict plan). split; [reflexivity |].
  rewrite keys_normalize_dict. split; [reflexivity |].
  split.
  { generalize (keys plan) as ks. generalize assigned_fields as fs.
    induction fs as [| f fs IH]; intros ks; cbn [fold_left].
    - exists []. split; [now rewrite app_nil_r | intros x []].
    - destruct (IH (add_key ks f)) as (rest & Hr & Hi).
      unfold add_key in Hr |- *. destruct (in_strs f ks).
      + exists rest. split; [exact Hr |]. intros x Hx. right. now apply Hi.
      + exists (f :: rest). split; [now rewrite Hr, <- app_assoc |].
        intros x [<- | Hx]; [now left | right; now apply Hi]. }
  split.
  { assert (Hmono : forall fs ks x, In x ks -> In x (fold_left add_key fs ks)).
    { induction fs as [| f fs IH]; intros ks x Hx; cbn [fold_left]; [exact Hx |].
      apply IH, In_add_key. now left. }
    assert (Hall : forall fs ks x, In x fs -> In x (fold_left add_key fs ks)).
    { induction fs as [| f fs IH]; intros ks x Hx; cbn [fold_left]; [destruct Hx |].
      destruct Hx as [<- | Hx]; [| now apply IH].
      apply Hmono, In_add_key. now right. }
    intros x Hx. now apply Hall. }
  intros Hnd. generalize dependent (keys plan). generalize assigned_fields as fs.
  induction fs as [| f fs IH]; intros ks Hnd; cbn [fold_left]; [exact Hnd |].
  apply IH, NoDup_add_key, Hnd.
Qed.

Lemma normalize_plan_keys_witness :
  NoDup (keys scenario_plan)
  /\ exists q,
      _normalize_plan (VDict scenario_plan) = Ok (VDict q)
      /\ keys q = ["dataset"; "chart_type"; "reason"; "x"; "y"; "filter"; "calculation"]
      /\ NoDup (keys q).
Proof.
  assert (Hnd : NoDup (keys scenario_plan)).
  { repeat constructor; cbn; intuition discriminate. }
  split; [exact Hnd |].
  destruct (normalize_plan_keys scenario_plan) as (q & Hq & Hk & _ & _ & Hn).
  exists q. split; [exact Hq |]. split; [exact Hk | exact (Hn Hnd)].
Defined.

(** Normalization leaves every field other than the six it assigns as the
    candidate had it: the reason and any extra field are neither changed
    nor dropped, and no other field appears. *)
Theorem normalize_other_fields_kept (plan : dict) (k : string) :
  ~ In k assigned_fields ->
  exists q, _normalize_plan (VDict plan) = Ok (VDict q)
            /\ dict_lookup q k = dict_lookup plan k.
Proof.
  intros Hk. exists (normalize_dict plan). split; [reflexivity |].
  destruct (axis_pair_valid (repair_dataset plan) (VStr (repair_chart_type plan))
              (repair_dataset_valid plan)) as (sx & dy & Hp & _ & _).
  unfold normalize_dict. cbv zeta.
  rewrite repair_chart_type_setitem, axis_defaults_pair.
  dict_simpl. rewrite Hp.
  unfold infer_filter, optional_fields, default_axes.
  destruct (_ && _); [destruct (truthy _) |];
    rewrite !dict_lookup_setitem;
    repeat match goal with
           | |- context [String.eqb k ?c] =>
               destruct (String.eqb_spec k c);
               [exfalso; apply Hk; subst k; cbn; tauto |]
           end; reflexivity.
Qed.

Lemma normalize_other_fields_kept_witness :
  ~ In "reason" assigned_fields
  /\ exists q, _normalize_plan (VDict scenario_plan) = Ok (VDict q)
               /\ dict_lookup q "reason" = Some (VStr "comparing revenue and expenses").
Proof.
  assert (Hk : ~ In "reason" assigned_fields) by (cbn; intuition discriminate).
  split; [exact Hk |].
  exact (normalize_other_fields_kept scenario_plan "reason" Hk).
Defined.

End NormalizerShape.

Section NormalizerFields.

(** The y of a normalized plan is the supplied y when that is truthy, else
    the default of the repaired dataset: value for kpi_totals and
    kpi_expensesByCategory, revenue for kpi_monthly and kpi_daily, expense
    (scatter, line) or price for products, amount for transactions, except
    that a box or histogram chart of transactions has no default: there, and
    only there, y ends as [None]. *)
Theorem normalize_y_default (plan : dict) :
  exists q ds ch,
    _normalize_plan (VDict plan) = Ok (VDict q)
    /\ dict_get q "dataset" = VStr ds
    /\ dict_get q "chart_type" = VStr ch
    /\ (truthy (dict_get plan "y") = true -> dict_get q "y" = dict_get plan "y")
    /\ (truthy (dict_get plan "y") = false ->
        dict_get q "y"
        = if in_strs ds ["kpi_totals"; "kpi_expensesByCategory"] then VStr "value"
          else if in_strs ds ["kpi_monthly"; "kpi_daily"] then VStr "revenue"
          else if String.eqb ds "products"
               then (if in_strs ch ["scatter"; "line"] then VStr "expense" else VStr "price")
               else (if in_strs ch ["box"; "histogram"] then VNone else VStr "amount"))
    /\ (dict_get q "y" = VNone <->
        ds = "transactions" /\ In ch ["box"; "histogram"]
        /\ truthy (dict_get plan "y") = false).
Proof.
  exists (normalize_dict plan), (repair_dataset plan), (repair_chart_type plan).
  split; [reflexivity |].
  split; [apply normalize_dict_dataset |].
  split; [apply normalize_dict_chart_type |].
  destruct (normalize_dict_fields plan) as (dx & dy & Hp & _ & _ & _ & Hy & _).
  apply dict_get_of_lookup in Hy. rewrite Hy. clear Hy.
  assert (Hdy : dy = if in_strs (repair_dataset plan) ["kpi_totals"; "kpi_expensesByCategory"]
                     then VStr "value"
                     else if in_strs (repair_dataset plan) ["kpi_monthly"; "kpi_daily"]
                          then VStr "revenue"
                          else if String.eqb (repair_dataset plan) "products"
                               then (if in_strs (repair_chart_type plan) ["scatter"; "line"]
                                     then VStr "expense" else VStr "price")
                               else (if in_strs (repair_chart_type plan) ["box"; "histogram"]
                                     then VNone else VStr "amount")).
  { unfold axis_pair in Hp. rewrite !in_str_tuple_VStr in Hp.
    destruct (repair_dataset_valid plan) as [E|[E|[E|[E|[E|[E|[]]]]]]];
      rewrite <- E in Hp |- *;
      cbn [String.eqb Ascii.eqb Bool.eqb in_strs existsb orb] in Hp |- *;
      revert Hp;
      repeat match goal with
             | |- context [if ?b then _ else _] => destruct b
             end;
      intros Hp; now injection Hp as _ <-. }
  split; [intros E; now apply py_or_truthy |].
  split; [intros E; now rewrite (py_or_falsy _ _ E) |].
  unfold py_or. destruct (truthy (dict_get plan "y")) eqn:Ty.
  - split.
    + intros E. rewrite E in Ty. discriminate.
    + intros (_ & _ & E). discriminate.
  - rewrite Hdy.
    destruct (repair_dataset_valid plan) as [E|[E|[E|[E|[E|[E|[]]]]]]];
      rewrite <- E;
      try (cbn; split; [discriminate | intros (Hd & _); discriminate]).
    + replace (in_strs "products" ["kpi_totals"; "kpi_expensesByCategory"])
        with false by reflexivity.
      replace (in_strs "products" ["kpi_monthly"; "kpi_daily"]) with false by reflexivity.
      replace (String.eqb "products" "products") with true by reflexivity.
      destruct (in_strs (repair_chart_type plan) ["scatter"; "line"]);
        (split; [discriminate | intros (Hd & _); discriminate]).
    + replace (in_strs "transactions" ["kpi_totals"; "kpi_expensesByCategory"])
        with false by reflexivity.
      replace (in_strs "transactions" ["kpi_monthly"; "kpi_daily"]) with false by reflexivity.
      replace (String.eqb "transactions" "products") with false by reflexivity.
      destruct (in_strs (repair_chart_type plan) ["box"; "histogram"]) eqn:Hc.
      * apply in_strs_In in Hc. split; [auto | reflexivity].
      * apply in_strs_not_In in Hc.
        split; [discriminate | intros (_ & Hin & _); contradiction].
Qed.

(** Filter inference in full: on a candidate without (truthy) filter, a
    dataset other than kpi_totals always ends with [filter = None], whatever
    the reason says; kpi_totals ends with [None] when the lower-cased reason
    holds none of "revenue", "expense", "profit", and otherwise with
    [{metric: [...]}] listing totalRevenue, totalExpenses, totalProfit, each
    exactly when its keyword occurs, always in that order. *)
Theorem normalize_filter_inferred (plan : dict) :
  let text := lower (py_str (dict_get_or plan "reason" (VStr EmptyString))) in
  let metrics :=
    ((if contains "revenue" text then [VStr "totalRevenue"] else [])
     ++ (if contains "expense" text then [VStr "totalExpenses"] else [])
     ++ (if contains "profit" text then [VStr "totalProfit"] else []))%list in
  truthy (dict_get plan "filter") = false ->
  exists q ds,
    _normalize_plan (VDict plan) = Ok (VDict q)
    /\ dict_get q "dataset" = VStr ds
    /\ (ds <> "kpi_totals" -> dict_get q "filter" = VNone)
    /\ (ds = "kpi_totals" ->
        dict_get q "filter"
        = match metrics with
          | [] => VNone
          | _ :: _ => VDict [("metric", VList metrics)]
          end).
Proof.
  intros text metrics Hf.
  exists (normalize_dict plan), (repair_dataset plan).
  split; [reflexivity |].
  split; [apply normalize_dict_dataset |].
  rewrite normalize_dict_filter. unfold final_filter. cbv zeta.
  rewrite (py_or_falsy _ _ Hf).
  change (inferred_metrics plan) with metrics.
  split.
  - intros Hds. apply String.eqb_neq in Hds. now rewrite Hds.
  - intros ->. cbn [String.eqb Ascii.eqb Bool.eqb is_None andb].
    now destruct metrics.
Qed.

Lemma normalize_filter_inferred_witness :
  truthy (dict_get [("dataset", VStr "kpi_totals");
                    ("reason", VStr "Profit against REVENUE")] "filter") = false
  /\ exists q,
      _normalize_plan (VDict [("dataset", VStr "kpi_totals");
                              ("reason", VStr "Profit against REVENUE")])
      = Ok (VDict q)
      /\ dict_get q "filter"
         = VDict [("metric", VList [VStr "totalRevenue"; VStr "totalProfit"])].
Proof.
  split; [reflexivity |].
  destruct (normalize_filter_inferred
              [("dataset", VStr "kpi_totals"); ("reason", VStr "Profit against REVENUE")]
              eq_refl) as (q & ds & Hq & Hds & _ & Hk).
  exists q. split; [exact Hq |].
  assert (E : ds = "kpi_totals").
  { vm_compute in Hq. injection Hq as <-. vm_compute in Hds. now injection Hds. }
  exact (Hk E).
Defined.

End NormalizerFields.

Section OracleAlwaysFinalized.

Context `{Services}.

(** Whatever the oracle does, [llm_plan] returns a dict that is finalized:
    it holds dataset, chart_type, x, y, filter and calculation, with a valid
    dataset, a canonical chart type, a truthy x, and y, filter and
    calculation truthy or [None].  In particular an answer that parses to
    something other than a JSON object (a list, a string, a number, null)
    is replaced by the normalized fallback plan. *)
Theorem llm_plan_finalized (prompt : string) :
  (exists q, llm_plan prompt = Ok (VDict q) /\ finalized q)
  /\ (forall content choices v,
        chat_completions_create prompt = Completion (Some content :: choices) ->
        json_loads (_clean_json (strip content)) = Ok v ->
        (forall d, v <> VDict d) ->
        llm_plan prompt = Ok (VDict (normalize_dict fallback_plan))).
Proof.
  split.
  - unfold llm_plan.
    destruct (llm_plan_try prompt) as [e | plan] eqn:E; cbn [try_except].
    + exists (normalize_dict fallback_plan).
      split; [reflexivity | apply normalize_dict_finalized].
    + unfold llm_plan_try in E.
      destruct (first_content _) as [e | raw]; cbn [bind] in E; [discriminate |].
      destruct (json_loads _) as [e | v]; cbn [bind] in E; [discriminate |].
      destruct v; try discriminate.
      injection E as <-. eexists. split; [reflexivity |].
      apply normalize_dict_finalized.
  - intros content choices v Hc Hj Hv.
    unfold llm_plan, llm_plan_try. rewrite Hc. cbn [first_content bind Ok].
    rewrite Hj. cbn [bind Ok].
    destruct v; try reflexivity.
    exfalso. now apply (Hv items).
Qed.

End OracleAlwaysFinalized.

(* ===================================================================== *)
(** * Cleaning the oracle's answer *)
(* ===================================================================== *)

Section Stripping.

Lemma lstrip_head (s : string) (c : ascii) (t : string) :
  lstrip s = String c t -> isspace c = false.
Proof.
  induction s as [| a s IH]; cbn; [discriminate |].
  destruct (isspace a) eqn:E; [exact IH |].
  now intros [= <- _].
Qed.

Lemma lstrip_nonspace (c : ascii) (t : string) :
  isspace c = false -> lstrip (String c t) = String c t.
Proof. intros H. cbn. now rewrite H. Qed.

Lemma rstrip_nonspace_head (c : ascii) (t : string) :
  isspace c = false -> rstrip (String c t) = String c (rstrip t).
Proof. intros H. cbn. rewrite H. now destruct (rstrip t). Qed.

Lemma rstrip_last (s : string) (c : ascii) :
  last_char (rstrip s) = Some c -> isspace c = false.
Proof.
  induction s as [| a s IH]; cbn; [discriminate |].
  destruct (rstrip s) as [| b r] eqn:E.
  - destruct (isspace a) eqn:Ha; cbn; [discriminate |]. now intros [= <-].
  - cbn [last_char]. exact IH.
Qed.

Lemma rstrip_fixed (s : string) :
  (forall c, last_char s = Some c -> isspace c = false) -> rstrip s = s.
Proof.
  induction s as [| a s IH]; [reflexivity |].
  intros H. cbn [rstrip]. destruct s as [| b s].
  - cbn. now rewrite (H a eq_refl).
  - rewrite IH by (intros c Hc; apply H; exact Hc). reflexivity.
Qed.

Lemma rstrip_idempotent (s : string) : rstrip (rstrip s) = rstrip s.
Proof. apply rstrip_fixed. intros c. apply rstrip_last. Qed.

(** A text that [rstrip] leaves alone has suffixes it leaves alone. *)
Lemma rstrip_fixed_tail (c : ascii) (s : string) :
  rstrip (String c s) = String c s -> rstrip s = s.
Proof.
  cbn [rstrip]. destruct (rstrip s) as [| b r] eqn:E.
  - destruct (isspace c); [discriminate |]. now intros [= <-].
  - now intros [= <-].
Qed.

Lemma strip_idempotent (s : string) : strip (strip s) = strip s.
Proof.
  unfold strip. destruct (lstrip s) as [| c t] eqn:E; [reflexivity |].
  pose proof (lstrip_head _ _ _ E) as Hc.
  rewrite (rstrip_nonspace_head _ _ Hc), (lstrip_nonspace _ _ Hc).
  rewrite <- (rstrip_nonspace_head _ _ Hc). apply rstrip_idempotent.
Qed.

Lemma strip_rstrip_fixed (s : string) : rstrip (strip s) = strip s.
Proof. unfold strip. apply rstrip_idempotent. Qed.

Lemma from_first_head (c : ascii) (s m : string) :
  from_first c s = Some m -> exists rest, m = String c rest.
Proof.
  induction s as [| a s IH]; cbn; [discriminate |].
  destruct (Ascii.eqb_spec c a) as [-> | _]; [| exact IH].
  intros [= <-]. now exists s.
Qed.

Lemma from_first_rstrip (c : ascii) (s m : string) :
  from_first c s = Some m -> rstrip s = s -> rstrip m = m.
Proof.
  induction s as [| a s IH]; cbn [from_first]; [discriminate |].
  destruct (Ascii.eqb c a).
  - now intros [= <-].
  - intros Hm Hs. apply IH; [exact Hm | now apply rstrip_fixed_tail in Hs].
Qed.

Lemma from_first_last (c : ascii) (s m : string) :
  from_first c s = Some m -> last_char m = last_char s.
Proof.
  induction s as [| a s IH]; cbn [from_first]; [discriminate |].
  destruct (Ascii.eqb c a); [now intros [= <-] |].
  intros Hm. rewrite (IH Hm). cbn [last_char].
  destruct s; [discriminate | reflexivity].
Qed.

Lemma from_first_None (c : ascii) (s : string) :
  from_first c s = None <-> has_char c s = false.
Proof.
  induction s as [| a s IH]; cbn; [tauto |].
  destruct (Ascii.eqb c a); cbn; [split; discriminate | exact IH].
Qed.

Lemma from_first_self (c : ascii) (rest : string) :
  from_first c (String c rest) = Some (String c rest).
Proof. cbn. now rewrite Ascii.eqb_refl. Qed.

(** The text [_clean_json] searches: the stripped answer, without its code
    fence when it opens with one. *)
Lemma _clean_json_shape (raw : string) :
  exists t, strip t = t
            /\ (String.prefix fence (strip raw) = false -> t = strip raw)
            /\ _clean_json raw = match search_object t with
                                 | Some m => m
                                 | None => t
                                 end.
Proof.
  unfold _clean_json. cbv zeta.
  destruct (String.prefix fence (strip raw)).
  - eexists. split; [apply strip_idempotent |]. split; [discriminate | reflexivity].
  - exists (strip raw). split; [apply strip_idempotent |]. now split.
Qed.

Lemma search_object_found (t m : string) :
  search_object t = Some m ->
  last_char (rstrip t) = Some "}"%char /\ from_first "{" t = Some m.
Proof.
  unfold search_object. destruct (last_char (rstrip t)) as [c |]; [| discriminate].
  destruct (Ascii.eqb_spec c "}"); [subst; auto | discriminate].
Qed.

Lemma _clean_json_strip_fixed (raw : string) :
  strip (_clean_json raw) = _clean_json raw.
Proof.
  destruct (_clean_json_shape raw) as (t & Ht & _ & ->).
  destruct (search_object t) as [m |] eqn:E; [| exact Ht].
  apply search_object_found in E. destruct E as [_ Hm].
  assert (Hr : rstrip t = t) by (rewrite <- Ht; apply strip_rstrip_fixed).
  destruct (from_first_head _ _ _ Hm) as [rest ->].
  unfold strip. rewrite lstrip_nonspace by reflexivity.
  exact (from_first_rstrip _ _ _ Hm Hr).
Qed.

(** The cleaned answer has no blank at either end, whatever the answer
    was. *)
Theorem _clean_json_stripped (raw : string) :
  strip (_clean_json raw) = _clean_json raw
  /\ (forall c rest, _clean_json raw = String c rest -> isspace c = false)
  /\ (forall c, last_char (_clean_json raw) = Some c -> isspace c = false).
Proof.
  pose proof (_clean_json_strip_fixed raw) as Hs.
  split; [exact Hs |]. split.
  - intros c rest E. rewrite E in Hs. unfold strip in Hs.
    destruct (isspace c) eqn:Hc; [| reflexivity].
    exfalso. cbn [lstrip] in Hs. rewrite Hc in Hs.
    assert (Hlen : String.length (rstrip (lstrip rest)) <= String.length rest).
    { clear. assert (Hr : forall s, String.length (rstrip s) <= String.length s).
      { induction s as [| a s IH]; cbn; [lia |].
        destruct (rstrip s); [destruct (isspace a); cbn; lia | cbn in *; lia]. }
      assert (Hl : forall s, String.length (lstrip s) <= String.length s).
      { induction s as [| a s IH]; cbn; [lia |].
        destruct (isspace a); cbn; lia. }
      specialize (Hr (lstrip rest)). specialize (Hl rest). lia. }
    rewrite Hs in Hlen. cbn in Hlen. lia.
  - intros c Hc. unfold strip in Hs. rewrite <- Hs in Hc.
    exact (rstrip_last _ c Hc).
Qed.

(** Prose in front of the object is dropped: a cleaned answer that ends
    with a closing brace and holds an opening brace begins with its first
    opening brace. *)
Theorem _clean_json_object (raw : string) :
  last_char (_clean_json raw) = Some "}"%char ->
  has_char "{" (_clean_json raw) = true ->
  exists rest, _clean_json raw = String "{" rest.
Proof.
  destruct (_clean_json_shape raw) as (t & Ht & _ & ->).
  destruct (search_object t) as [m |] eqn:E.
  - intros _ _. apply search_object_found in E. destruct E as [_ Hm].
    exact (from_first_head _ _ _ Hm).
  - intros Hl Hh. exfalso.
    assert (Hr : rstrip t = t) by (rewrite <- Ht; apply strip_rstrip_fixed).
    unfold search_object in E. rewrite Hr, Hl in E. cbn in E.
    apply from_first_None in E. congruence.
Qed.

Lemma _clean_json_object_witness :
  last_char (_clean_json "Here you go: {'x': '{}'}  ") = Some "}"%char
  /\ has_char "{" (_clean_json "Here you go: {'x': '{}'}  ") = true
  /\ exists rest, _clean_json "Here you go: {'x': '{}'}  " = String "{" rest.
Proof.
  split; [reflexivity |]. split; [reflexivity |].
  exact (_clean_json_object "Here you go: {'x': '{}'}  " eq_refl eq_refl).
Defined.

(** Cleaning twice is cleaning once, as long as the cleaned answer does not
    itself open with a code fence. *)
Theorem _clean_json_idempotent (raw : string) :
  String.prefix fence (_clean_json raw) = false ->
  _clean_json (_clean_json raw) = _clean_json raw.
Proof.
  intros Hfence.
  pose proof (_clean_json_strip_fixed raw) as Hs.
  destruct (_clean_json_shape (_clean_json raw)) as (t' & _ & Ht' & ->).
  rewrite Hs in Ht'. rewrite (Ht' Hfence). clear t' Ht'.
  destruct (_clean_json_shape raw) as (t & Ht & _ & Hout).
  rewrite Hout in *. clear Hout.
  assert (Hr : rstrip t = t) by (rewrite <- Ht; apply strip_rstrip_fixed).
  destruct (search_object t) as [m |] eqn:E.
  - destruct (search_object_found _ _ E) as [Hl Hm].
    destruct (from_first_head _ _ _ Hm) as [rest ->].
    unfold search_object.
    rewrite (from_first_rstrip _ _ _ Hm Hr), (from_first_last _ _ _ Hm).
    rewrite Hr in Hl. rewrite Hl. cbn [Ascii.eqb Bool.eqb].
    now rewrite from_first_self.
  - now rewrite E.
Qed.

Lemma _clean_json_idempotent_witness :
  String.prefix fence (_clean_json "Here you go: {'x': 1}") = false
  /\ _clean_json (_clean_json "Here you go: {'x': 1}") = _clean_json "Here you go: {'x': 1}".
Proof.
  split; [reflexivity |].
  exact (_clean_json_idempotent "Here you go: {'x': 1}" eq_refl).
Defined.

(** Without that proviso it fails: what follows a first fence may open with
    another. *)
Example _clean_json_twice :
  _clean_json "```a``` x" = "``` x" /\ _clean_json "``` x" = "x".
Proof. split; reflexivity. Qed.

End Stripping.

Section Fences.

Lemma last_char_append (s t : string) :
  t <> EmptyString -> last_char (s ++ t) = last_char t.
Proof.
  intros Ht. induction s as [| a s IH]; [reflexivity |].
  cbn [append last_char]. rewrite IH.
  destruct (s ++ t) eqn:E; [| reflexivity].
  destruct s; cbn in E; [congruence | discriminate].
Qed.

Lemma append_assoc (a b c : string) : (a ++ b) ++ c = a ++ (b ++ c).
Proof. induction a as [| x a IH]; cbn; [reflexivity | now rewrite IH]. Qed.

Lemma length_append (a b : string) :
  String.length (a ++ b) = String.length a + String.length b.
Proof. induction a as [| x a IH]; cbn; [reflexivity | now rewrite IH]. Qed.

Lemma substring_all (s : string) : String.substring 0 (String.length s) s = s.
Proof. induction s as [| a s IH]; cbn; [reflexivity | now rewrite IH]. Qed.

(** The closing fence is removed where the text ends with one, and only
    there. *)
Lemma sub_close_fence_append (s : string) : sub_close_fence (s ++ fence) = s.
Proof.
  induction s as [| a s IH]; [reflexivity |].
  cbn [append]. unfold sub_close_fence. fold sub_close_fence.
  assert (H1 : String.eqb (String a (s ++ fence)) fence = false).
  { apply String.eqb_neq. intros E.
    assert (L : String.length (String a (s ++ fence)) = String.length fence)
      by now rewrite E.
    cbn in L. rewrite length_append in L. cbn in L. lia. }
  assert (H2 : String.eqb (String a (s ++ fence)) (fence ++ newline) = false).
  { apply String.eqb_neq. intros E.
    assert (L : last_char (String a (s ++ fence)) = last_char (fence ++ newline))
      by now rewrite E.
    change (String a (s ++ fence)) with (String a s ++ fence) in L.
    rewrite last_char_append in L by discriminate. discriminate. }
  rewrite H1, H2. now rewrite IH.
Qed.

Lemma drop_letters_append (lang rest : string) :
  forallb is_ascii_letter (list_ascii_of_string lang) = true ->
  drop_letters (lang ++ newline ++ rest) = newline ++ rest.
Proof.
  induction lang as [| a lang IH]; cbn; [reflexivity |].
  intros H. apply andb_true_iff in H. destruct H as [Ha Hl].
  rewrite Ha. now apply IH.
Qed.

Lemma rstrip_append_newline (s : string) :
  s <> EmptyString -> rstrip s = s -> rstrip (s ++ newline) = s.
Proof.
  induction s as [| a s IH]; [congruence |].
  intros _ Hs. cbn [append rstrip].
  destruct s as [| b s].
  - cbn in Hs |- *. destruct (isspace a); [discriminate | reflexivity].
  - rewrite IH; [reflexivity | discriminate | now apply rstrip_fixed_tail in Hs].
Qed.

(** An object inside a code fence, with or without a language tag, comes
    out as it went in, whatever it holds between its braces. *)
Theorem _clean_json_fenced_object (lang body : string) :
  forallb is_ascii_letter (list_ascii_of_string lang) = true ->
  _clean_json (fence ++ lang ++ newline ++ String "{" (body ++ "}") ++ newline ++ fence)
  = String "{" (body ++ "}").
Proof.
  intros Hlang.
  set (obj := String "{" (body ++ "}")).
  assert (Hobj : rstrip obj = obj).
  { apply rstrip_fixed. intros c Hc.
    change obj with (String "{" body ++ "}") in Hc.
    rewrite last_char_append in Hc by discriminate.
    now injection Hc as <-. }
  assert (Htail : forall s, rstrip (s ++ fence) = s ++ fence).
  { intros s. apply rstrip_fixed. intros c Hc.
    rewrite last_char_append in Hc by discriminate. now injection Hc as <-. }
  unfold _clean_json. cbv zeta.
  (* the answer is stripped already *)
  assert (H0 : strip (fence ++ lang ++ newline ++ obj ++ newline ++ fence)
               = fence ++ lang ++ newline ++ obj ++ newline ++ fence).
  { unfold strip. change (lstrip (fence ++ ?r)) with (fence ++ r).
    rewrite <- !append_assoc. rewrite Htail. reflexivity. }
  rewrite H0.
  change (String.prefix fence (fence ++ ?r)) with (String.prefix EmptyString r).
  replace (String.prefix EmptyString (lang ++ newline ++ obj ++ newline ++ fence))
    with true by (now destruct (lang ++ newline ++ obj ++ newline ++ fence)).
  (* the opening fence and its tag go *)
  assert (H1 : sub_open_fence (fence ++ lang ++ newline ++ obj ++ newline ++ fence)
               = newline ++ obj ++ newline ++ fence).
  { unfold sub_open_fence.
    change (String.prefix fence (fence ++ ?r)) with (String.prefix EmptyString r).
    replace (String.prefix EmptyString (lang ++ newline ++ obj ++ newline ++ fence))
      with true by (now destruct (lang ++ newline ++ obj ++ newline ++ fence)).
    cbn [fence append String.length Nat.sub String.substring].
    rewrite Nat.sub_0_r, substring_all. now apply drop_letters_append. }
  rewrite H1.
  assert (H2 : strip (newline ++ obj ++ newline ++ fence) = obj ++ newline ++ fence).
  { unfold strip. change (lstrip (newline ++ obj ++ ?r)) with (obj ++ r).
    rewrite <- append_assoc. rewrite Htail. now rewrite append_assoc. }
  rewrite H2. rewrite <- append_assoc, sub_close_fence_append.
  assert (H3 : strip (obj ++ newline) = obj).
  { unfold strip. change (lstrip (obj ++ newline)) with (obj ++ newline).
    apply rstrip_append_newline; [discriminate | exact Hobj]. }
  rewrite H3.
  unfold search_object. rewrite Hobj.
  change obj with (String "{" body ++ "}") at 1.
  rewrite last_char_append by discriminate.
  cbn [last_char Ascii.eqb Bool.eqb].
  unfold obj. now rewrite from_first_self.
Qed.

Lemma _clean_json_fenced_object_witness :
  forallb is_ascii_letter (list_ascii_of_string "json") = true
  /\ _clean_json (fence ++ "json" ++ newline
                  ++ String "{" ("'dataset': 'products', 'note': '```'" ++ "}")
                  ++ newline ++ fence)
     = "{'dataset': 'products', 'note': '```'}".
Proof.
  split; [reflexivity |].
  exact (_clean_json_fenced_object "json" "'dataset': 'products', 'note': '```'" eq_refl).
Defined.

End Fences.

(* ===================================================================== *)
(** * Frames: columns, cells and their updates *)
(* ===================================================================== *)

Import Fetchers.

Section FrameFacts.

Lemma index_of_nth_error (c : string) (cols : list string) (i : nat) :
  index_of c cols = Some i -> nth_error cols i = Some c.
Proof.
  revert i. induction cols as [| a cols IH]; intros i; cbn; [discriminate |].
  destruct (String.eqb_spec c a) as [-> | _].
  - now intros [= <-].
  - destruct (index_of c cols) as [j |]; [| discriminate].
    intros [= <-]. cbn. now apply IH.
Qed.

Lemma index_of_In (c : string) (cols : list string) :
  In c cols <-> exists i, index_of c cols = Some i.
Proof.
  split.
  - induction cols as [| a cols IH]; cbn; [tauto |].
    destruct (String.eqb_spec c a) as [-> | Hne]; [eauto |].
    intros [-> | H]; [congruence |].
    destruct (IH H) as [i ->]. eauto.
  - intros [i H]. apply index_of_nth_error in H. eapply nth_error_In, H.
Qed.

Lemma index_of_None (c : string) (cols : list string) :
  ~ In c cols -> index_of c cols = None.
Proof.
  intros H. destruct (index_of c cols) as [i |] eqn:E; [| reflexivity].
  exfalso. apply H, index_of_In. eauto.
Qed.

Lemma index_of_lt (c : string) (cols : list string) (i : nat) :
  index_of c cols = Some i -> i < length cols.
Proof.
  intros H. apply index_of_nth_error in H.
  apply nth_error_Some. congruence.
Qed.

Lemma nth_map_at {A B : Type} (f : A -> B) (l : list A) (i : nat) (x : A) (d : B) :
  nth_error l i = Some x -> nth i (map f l) d = f x.
Proof.
  revert i. induction l as [| a l IH]; intros [| i]; cbn; try discriminate.
  - now intros [= ->].
  - apply IH.
Qed.

Lemma length_replace_nth (i : nat) (x : value) (row : list value) :
  length (replace_nth i x row) = length row.
Proof.
  revert i. induction row as [| a row IH]; intros [| i]; cbn; auto.
Qed.

Lemma nth_replace_nth_same (i : nat) (x d : value) (row : list value) :
  i < length row -> nth i (replace_nth i x row) d = x.
Proof.
  revert i. induction row as [| a row IH]; intros [| i]; cbn; try lia; auto.
  intros H. apply IH. lia.
Qed.

Lemma nth_replace_nth_other (i j : nat) (x d : value) (row : list value) :
  i <> j -> nth j (replace_nth i x row) d = nth j row d.
Proof.
  revert i j. induction row as [| a row IH]; intros [| i] [| j] H; cbn; auto;
    try congruence.
Qed.

Lemma map_snd_combine {A B : Type} (l : list A) (l' : list B) :
  length l' = length l -> map snd (combine l l') = l'.
Proof.
  revert l'. induction l as [| a l IH]; intros [| b l']; cbn; try discriminate; auto.
  intros [= H]. now rewrite IH.
Qed.

Lemma map_fst_combine {A B : Type} (l : list A) (l' : list B) :
  length l' = length l -> map fst (combine l l') = l.
Proof.
  revert l'. induction l as [| a l IH]; intros [| b l']; cbn; try discriminate; auto.
  intros [= H]. now rewrite IH.
Qed.

Lemma length_combine_same {A B : Type} (l : list A) (l' : list B) :
  length l' = length l -> length (combine l l') = length l.
Proof. intros H. rewrite length_combine, H. apply Nat.min_id. Qed.

Lemma columns_set_column (df : DataFrame) (c : string) (cells : list value) :
  columns (set_column df c cells) = columns df.
Proof. unfold set_column. now destruct (index_of c (columns df)). Qed.

Lemma rows_set_column (df : DataFrame) (c : string) (cells : list value) :
  length cells = length (rows df) ->
  length (rows (set_column df c cells)) = length (rows df).
Proof.
  intros H. unfold set_column. destruct (index_of c (columns df)); [| reflexivity].
  cbn [rows]. now rewrite length_map, length_combine_same.
Qed.

Lemma well_formed_set_column (df : DataFrame) (c : string) (cells : list value) :
  well_formed df -> well_formed (set_column df c cells).
Proof.
  unfold well_formed, set_column. intros H.
  destruct (index_of c (columns df)) as [i |]; [| exact H].
  cbn [rows columns]. apply Forall_forall. intros row Hrow.
  apply in_map_iff in Hrow. destruct Hrow as ([r x] & <- & Hin).
  cbn [fst snd]. rewrite length_replace_nth.
  apply in_combine_l in Hin. revert r Hin. now apply Forall_forall.
Qed.

(** Reading back the column just written gives the cells written. *)
Lemma column_set_column_same (df : DataFrame) (c : string) (cells : list value) :
  well_formed df -> In c (columns df) -> length cells = length (rows df) ->
  column (set_column df c cells) c = cells.
Proof.
  intros Hwf Hc Hlen. apply index_of_In in Hc. destruct Hc as [i Hi].
  unfold column, cell. rewrite columns_set_column, Hi.
  unfold set_column. rewrite Hi. cbn [rows]. rewrite map_map.
  rewrite <- (map_snd_combine (rows df) cells Hlen) at 2.
  apply map_ext_in. intros [r x] Hin. cbn [fst snd].
  apply nth_replace_nth_same.
  apply in_combine_l in Hin.
  unfold well_formed in Hwf. rewrite Forall_forall in Hwf.
  rewrite (Hwf r Hin). now apply index_of_lt in Hi.
Qed.

(** Writing one column leaves the others as they were. *)
Lemma column_set_column_other (df : DataFrame) (c c' : string) (cells : list value) :
  c' <> c -> length cells = length (rows df) ->
  column (set_column df c cells) c' = column df c'.
Proof.
  intros Hne Hlen. unfold column, cell. rewrite columns_set_column.
  unfold set_column. destruct (index_of c (columns df)) as [i |] eqn:Hi; [| reflexivity].
  cbn [rows]. rewrite map_map.
  rewrite <- (map_fst_combine (rows df) cells Hlen) at 2. rewrite map_map.
  apply map_ext. intros [r x]. cbn [fst snd].
  destruct (index_of c' (columns df)) as [j |] eqn:Hj; [| reflexivity].
  apply nth_replace_nth_other. intros ->.
  apply index_of_nth_error in Hi. apply index_of_nth_error in Hj. congruence.
Qed.

Lemma index_of_app_new (c : string) (cols : list string) :
  ~ In c cols -> index_of c (cols ++ [c]) = Some (length cols).
Proof.
  induction cols as [| a cols IH]; cbn.
  - now rewrite String.eqb_refl.
  - intros H. destruct (String.eqb_spec c a) as [-> | _]; [tauto |].
    rewrite IH by tauto. reflexivity.
Qed.

Lemma index_of_app_old (c : string) (cols extra : list string) (i : nat) :
  index_of c cols = Some i -> index_of c (cols ++ extra) = Some i.
Proof.
  revert i. induction cols as [| a cols IH]; intros i; cbn; [discriminate |].
  destruct (String.eqb c a); [auto |].
  destruct (index_of c cols) as [j |]; [| discriminate].
  intros [= <-]. now rewrite (IH j eq_refl).
Qed.

Lemma rows_add_column (df : DataFrame) (name : string) (cells : list value) :
  length cells = length (rows df) ->
  length (rows (add_column df name cells)) = length (rows df).
Proof.
  intros H. unfold add_column. destruct (in_strs name (columns df)).
  - now apply rows_set_column.
  - cbn [rows]. now rewrite length_map, length_combine_same.
Qed.

(** The derived column reads back as the cells it was given, whether it is
    new or replaces a column of that name. *)
Lemma column_add_column_same (df : DataFrame) (name : string) (cells : list value) :
  well_formed df -> length cells = length (rows df) ->
  column (add_column df name cells) name = cells.
Proof.
  intros Hwf Hlen. unfold add_column.
  destruct (in_strs name (columns df)) eqn:E.
  - apply in_strs_In in E. now apply column_set_column_same.
  - apply in_strs_not_In in E. unfold column, cell. cbn [columns rows].
    rewrite (index_of_app_new _ _ E), map_map.
    rewrite <- (map_snd_combine (rows df) cells Hlen) at 2.
    apply map_ext_in. intros [r x] Hin. cbn [fst snd].
    apply in_combine_l in Hin.
    unfold well_formed in Hwf. rewrite Forall_forall in Hwf.
    rewrite <- (Hwf r Hin), nth_middle. reflexivity.
Qed.

Lemma column_add_column_other (df : DataFrame) (name c : string) (cells : list value) :
  well_formed df -> c <> name -> In c (columns df) ->
  length cells = length (rows df) ->
  column (add_column df name cells) c = column df c.
Proof.
  intros Hwf Hne Hc Hlen. unfold add_column.
  destruct (in_strs name (columns df)) eqn:E.
  - now apply column_set_column_other.
  - apply index_of_In in Hc. destruct Hc as [i Hi].
    unfold column, cell. cbn [columns rows].
    rewrite (index_of_app_old _ _ [name] _ Hi), Hi, map_map.
    rewrite <- (map_fst_combine (rows df) cells Hlen) at 2. rewrite map_map.
    apply map_ext_in. intros [r x] Hin. cbn [fst snd].
    apply in_combine_l in Hin.
    unfold well_formed in Hwf. rewrite Forall_forall in Hwf.
    apply app_nth1. rewrite (Hwf r Hin). now apply index_of_lt in Hi.
Qed.

Lemma In_add_keys (c : string) (rec : dict) (cols : list string) :
  In c (add_keys cols rec) <-> In c cols \/ In c (keys rec).
Proof.
  unfold add_keys, keys. revert cols.
  induction rec as [| [k v] rec IH]; intros cols; cbn [fold_left map fst].
  - cbn. tauto.
  - rewrite IH. destruct (in_strs k cols) eqn:E.
    + apply in_strs_In in E. cbn. intuition (subst; auto).
    + rewrite in_app_iff. cbn. intuition.
Qed.

Lemma NoDup_add_keys (rec : dict) (cols : list string) :
  NoDup cols -> NoDup (add_keys cols rec).
Proof.
  unfold add_keys. revert cols.
  induction rec as [| [k v] rec IH]; intros cols H; cbn [fold_left]; [exact H |].
  apply IH. cbn [fst]. exact (NoDup_add_key cols k H).
Qed.

Lemma In_record_columns (c : string) (records : list dict) (cols : list string) :
  In c (fold_left add_keys records cols)
  <-> In c cols \/ exists rec, In rec records /\ In c (keys rec).
Proof.
  revert cols. induction records as [| r records IH]; intros cols; cbn [fold_left].
  - split; [auto | intros [H | (rec & [] & _)]; exact H].
  - rewrite IH, In_add_keys. split.
    + intros [[H | H] | (rec & Hr & Hc)]; eauto.
      * right. exists r. split; [now left | exact H].
      * right. exists rec. split; [now right | exact Hc].
    + intros [H | (rec & [<- | Hr] & Hc)]; eauto.
Qed.

Lemma NoDup_record_columns (records : list dict) (cols : list string) :
  NoDup cols -> NoDup (fold_left add_keys records cols).
Proof.
  revert cols. induction records as [| r records IH]; intros cols H; cbn [fold_left];
    [exact H | apply IH, NoDup_add_keys, H].
Qed.

(** A frame built from records is a rectangle; its columns are the keys of
    the records, each once; a cell holds the record's value under the
    column, NaN where the record lacks the key. *)
Lemma DataFrame_records_spec (records : list dict) :
  let df := DataFrame_records records in
  well_formed df
  /\ NoDup (columns df)
  /\ length (rows df) = length records
  /\ (forall c, In c (columns df) <-> exists rec, In rec records /\ In c (keys rec))
  /\ (forall c, In c (columns df) ->
                column df c = map (fun rec => dict_get_or rec c NaN) records).
Proof.
  cbv zeta. unfold DataFrame_records. cbn [columns rows].
  set (cols := fold_left add_keys records []).
  split.
  { unfold well_formed. cbn [rows columns]. apply Forall_forall. intros row Hrow.
    apply in_map_iff in Hrow. destruct Hrow as (rec & <- & _).
    apply length_map. }
  split; [apply NoDup_record_columns; constructor |].
  split; [apply length_map |].
  split.
  { intros c. unfold cols. rewrite In_record_columns. cbn. tauto. }
  intros c Hc. apply index_of_In in Hc. destruct Hc as [i Hi].
  unfold column, cell. cbn [rows columns]. rewrite Hi, map_map.
  apply map_ext. intros rec.
  apply (nth_map_at (fun c' => dict_get_or rec c' NaN)).
  now apply index_of_nth_error.
Qed.

End FrameFacts.

(* ===================================================================== *)
(** * Shaping documents into tables *)
(* ===================================================================== *)

Section Shaping.

Lemma index_of_remove_nth (c : string) (cols : list string) (i j : nat) :
  index_of c cols = Some j -> i <> j ->
  index_of c (remove_nth i cols) = Some (if Nat.ltb j i then j else pred j).
Proof.
  revert i j. induction cols as [| a cols IH]; intros i j; cbn [index_of];
    [discriminate |].
  destruct (String.eqb_spec c a) as [-> | Hne].
  - intros [= <-] Hi. destruct i as [| i]; [congruence |].
    cbn. now rewrite String.eqb_refl.
  - destruct (index_of c cols) as [j' |] eqn:Hj; [| discriminate].
    intros [= <-] Hi. destruct i as [| i]; cbn [remove_nth index_of].
    + exact Hj.
    + destruct (String.eqb_spec c a); [contradiction |].
      rewrite (IH i j' eq_refl) by congruence.
      change (Nat.ltb (S j') (S i)) with (Nat.ltb j' i).
      destruct (Nat.ltb_spec j' i); [reflexivity |].
      f_equal. cbn [pred]. lia.
Qed.

Lemma nth_remove_nth {A : Type} (l : list A) (i j : nat) (d : A) :
  i <> j -> nth (if Nat.ltb j i then j else pred j) (remove_nth i l) d = nth j l d.
Proof.
  revert i j. induction l as [| a l IH]; intros i j Hij.
  - destruct i; cbn [remove_nth]; destruct j; destruct (Nat.ltb _ _); cbn;
      try reflexivity; now destruct j.
  - destruct i as [| i]; destruct j as [| j]; cbn [remove_nth]; try congruence.
    + reflexivity.
    + reflexivity.
    + change (Nat.ltb (S j) (S i)) with (Nat.ltb j i).
      specialize (IH i j). destruct (Nat.ltb_spec j i).
      * cbn [nth]. apply IH. congruence.
      * cbn [pred nth]. destruct j as [| j]; [lia |].
        cbn [pred] in IH. apply IH. congruence.
Qed.

Lemma length_remove_nth {A : Type} (l : list A) (i : nat) :
  i < length l -> length (remove_nth i l) = pred (length l).
Proof.
  revert i. induction l as [| a l IH]; intros [| i]; cbn; try lia.
  intros H. rewrite IH by lia. destruct l; cbn in *; lia.
Qed.

Lemma In_remove_nth (c c' : string) (cols : list string) (i : nat) :
  NoDup cols -> index_of c cols = Some i ->
  (In c' (remove_nth i cols) <-> In c' cols /\ c' <> c).
Proof.
  intros Hnd. revert i. induction Hnd as [| a cols Ha Hnd IH]; intros i;
    cbn [index_of]; [discriminate |].
  destruct (String.eqb_spec c a) as [-> | Hne].
  - intros [= <-]. cbn. split.
    + intros H. split; [now right | intros ->; contradiction].
    + intros [[-> | H] Hc]; [congruence | exact H].
  - destruct (index_of c cols) as [j |] eqn:Hj; [| discriminate].
    intros [= <-]. cbn [remove_nth In]. rewrite (IH j eq_refl). split.
    + intros [<- | [H Hc]]; [split; [now left | congruence] | tauto].
    + intros [[<- | H] Hc]; [now left | right; tauto].
Qed.

Lemma column_drop_column (df : DataFrame) (c c' : string) :
  c' <> c -> In c' (columns df) ->
  column (drop_column df c) c' = column df c'.
Proof.
  intros Hne Hc'. apply index_of_In in Hc'. destruct Hc' as [j Hj].
  unfold drop_column. destruct (index_of c (columns df)) as [i |] eqn:Hi;
    [| reflexivity].
  assert (Hij : i <> j).
  { intros ->. apply index_of_nth_error in Hi. apply index_of_nth_error in Hj.
    congruence. }
  unfold column, cell. cbn [columns rows].
  rewrite (index_of_remove_nth _ _ _ _ Hj Hij), Hj, map_map.
  apply map_ext. intros row. now apply nth_remove_nth.
Qed.

Lemma well_formed_drop_column (df : DataFrame) (c : string) :
  well_formed df -> well_formed (drop_column df c).
Proof.
  unfold well_formed, drop_column. intros H.
  destruct (index_of c (columns df)) as [i |] eqn:Hi; [| exact H].
  cbn [rows columns]. apply Forall_forall. intros row Hrow.
  apply in_map_iff in Hrow. destruct Hrow as (r & <- & Hin).
  rewrite Forall_forall in H. apply index_of_lt in Hi.
  rewrite !length_remove_nth by (rewrite ?(H r Hin); exact Hi).
  now rewrite (H r Hin).
Qed.

Section WithLibrary.

Context `{Library}.

Lemma try_to_datetime_spec (df : DataFrame) (col : string) :
  columns (try_to_datetime df col) = columns df
  /\ length (rows (try_to_datetime df col)) = length (rows df)
  /\ (well_formed df -> well_formed (try_to_datetime df col))
  /\ (forall c, c <> col -> column (try_to_datetime df col) c = column df c).
Proof.
  unfold try_to_datetime.
  destruct (to_datetime (column df col)) as [e | cells]; [now repeat split |].
  destruct (Nat.eqb_spec (length cells) (length (rows df))) as [Hlen | _];
    [| now repeat split].
  split; [apply columns_set_column |].
  split; [now apply rows_set_column |].
  split; [apply well_formed_set_column |].
  intros c Hc. now apply column_set_column_other.
Qed.

Lemma convert_time_columns_spec (cols : list string) (df : DataFrame) :
  let out := fold_left
               (fun df col => if is_time_column col then try_to_datetime df col else df)
               cols df in
  columns out = columns df
  /\ length (rows out) = length (rows df)
  /\ (well_formed df -> well_formed out)
  /\ (forall c, is_time_column c = false -> column out c = column df c).
Proof.
  cbv zeta. revert df. induction cols as [| col cols IH]; intros df; cbn [fold_left].
  - now repeat split.
  - destruct (IH (if is_time_column col then try_to_datetime df col else df))
      as (Hc & Hr & Hw & Ho).
    destruct (is_time_column col) eqn:Ht.
    + destruct (try_to_datetime_spec df col) as (Hc' & Hr' & Hw' & Ho').
      split; [congruence |]. split; [congruence |].
      split; [auto |].
      intros c Hcn. rewrite (Ho c Hcn). apply Ho'. intros ->. congruence.
    + now repeat split.
Qed.

Lemma _df_from_docs_facts (docs : list dict) :
  let df := _df_from_docs docs in
  length (rows df) = length docs
  /\ ~ In "_id" (columns df)
  /\ (forall c, c <> "_id" ->
                (In c (columns df) <-> exists doc, In doc docs /\ In c (keys doc)))
  /\ NoDup (columns df)
  /\ well_formed df
  /\ (forall c, In c (columns df) -> is_time_column c = false ->
                column df c = map (fun doc => dict_get_or doc c NaN) docs).
Proof.
  cbv zeta. unfold _df_from_docs. cbv zeta.
  destruct (DataFrame_records_spec docs) as (Hwf & Hnd & Hlen & Hcols & Hcells).
  set (df0 := DataFrame_records docs) in *.
  set (df1 := if in_strs "_id" (columns df0) then drop_column df0 "_id" else df0).
  assert (H1 : length (rows df1) = length docs
               /\ ~ In "_id" (columns df1)
               /\ (forall c, c <> "_id" -> (In c (columns df1) <-> In c (columns df0)))
               /\ NoDup (columns df1)
               /\ well_formed df1
               /\ (forall c, In c (columns df1) -> column df1 c = column df0 c)).
  { unfold df1. destruct (in_strs "_id" (columns df0)) eqn:E.
    - apply in_strs_In in E. destruct (proj1 (index_of_In _ _) E) as [i Hi].
      assert (Hin : forall c, In c (columns (drop_column df0 "_id"))
                              <-> In c (columns df0) /\ c <> "_id").
      { intros c. unfold drop_column. rewrite Hi. cbn [columns].
        now apply In_remove_nth. }
      split.
      { unfold drop_column. rewrite Hi. cbn [rows]. now rewrite length_map. }
      split; [intros Hc; apply Hin in Hc; tauto |].
      split; [intros c Hc; rewrite Hin; tauto |].
      split.
      { unfold drop_column. rewrite Hi. cbn [columns].
        clear - Hnd. revert i. induction Hnd as [| a l Ha Hl IH]; intros [| i]; cbn;
          try constructor; auto.
        intros Hin. apply Ha. clear - Hin. revert i Hin.
        induction l as [| b l IH]; intros [| i]; cbn; auto.
        intros [-> | Hin]; [now left | right; eauto]. }
      split; [now apply well_formed_drop_column |].
      intros c Hc. apply Hin in Hc. destruct Hc as [Hc Hne].
      now apply column_drop_column.
    - apply in_strs_not_In in E. repeat split; auto. }
  destruct H1 as (Hlen1 & Hid1 & Hcols1 & Hnd1 & Hwf1 & Hcells1).
  destruct (convert_time_columns_spec (columns df1) df1) as (Hc & Hr & Hw & Ho).
  cbv zeta in Hc, Hr, Hw, Ho. rewrite Hc, Hr.
  split; [exact Hlen1 |].
  split; [exact Hid1 |].
  split; [intros c Hne; rewrite (Hcols1 c Hne); apply Hcols |].
  split; [exact Hnd1 |].
  split; [exact (Hw Hwf1) |].
  intros c Hin Ht. rewrite (Ho c Ht), (Hcells1 c Hin).
  apply Hcells.
  destruct (String.eqb_spec c "_id") as [-> | Hne]; [contradiction |].
  now apply Hcols1.
Qed.

(** The table of a collection: one row per document; the internal
    identifier [_id] is never a column; every other key of a document is a
    column, and nothing else is; no column comes twice; and every row has
    a cell under every column, so that a document lacking a key still gets
    its row. *)
Theorem _df_from_docs_spec (docs : list dict) :
  let df := _df_from_docs docs in
  length (rows df) = length docs
  /\ ~ In "_id" (columns df)
  /\ (forall c, c <> "_id" ->
                (In c (columns df) <-> exists doc, In doc docs /\ In c (keys doc)))
  /\ NoDup (columns df)
  /\ well_formed df.
Proof.
  destruct (_df_from_docs_facts docs) as (Hlen & Hid & Hcols & Hnd & Hwf & _).
  cbv zeta. auto.
Qed.

End WithLibrary.

End Shaping.

(* ===================================================================== *)
(** * The fetchers *)
(* ===================================================================== *)

Section FetcherFacts.

Context `{Library} `{Collections} `{SeriesArith}.

Lemma empty_false (df : DataFrame) :
  columns df <> [] -> rows df <> [] -> empty df = false.
Proof.
  unfold empty. destruct (columns df); [congruence |].
  destruct (rows df); [congruence | reflexivity].
Qed.

(** As soon as one transaction has a [productIds] field, the table gets a
    [productCount] column holding, row by row, the number of product ids of
    the document: the length of the list, and 0 where the field is missing or
    is not a list. *)
Theorem fetch_transactions_df_productCount (docs : list dict) :
  transactions_find = Ok docs ->
  (exists doc, In doc docs /\ In "productIds" (keys doc)) ->
  exists df,
    fetch_transactions_df = Ok df
    /\ length (rows df) = length docs
    /\ column df "productCount"
       = map (fun doc => product_count (dict_get_or doc "productIds" NaN)) docs.
Proof.
  intros Hfind (doc & Hdoc & Hkey).
  destruct (_df_from_docs_facts docs) as (Hlen & _ & Hcols & _ & Hwf & Hcells).
  cbv zeta in Hlen, Hcols, Hwf, Hcells.
  set (df0 := _df_from_docs docs) in *.
  assert (Hin : In "productIds" (columns df0)).
  { apply Hcols; [discriminate | eauto]. }
  assert (Hne : empty df0 = false).
  { apply empty_false.
    - intros E. rewrite E in Hin. destruct Hin.
    - intros E. rewrite E in Hlen. destruct docs; [destruct Hdoc | discriminate]. }
  assert (Hcount : length (map product_count (column df0 "productIds"))
                   = length (rows df0)).
  { unfold column. now rewrite !length_map. }
  unfold fetch_transactions_df. rewrite Hfind. cbn [bind Ok].
  fold df0. rewrite Hne, (proj2 (in_strs_In _ _) Hin). cbn [negb andb].
  eexists. split; [reflexivity |].
  split; [now rewrite rows_add_column |].
  rewrite (column_add_column_same _ _ _ Hwf Hcount).
  rewrite (Hcells "productIds" Hin eq_refl). now rewrite map_map.
Qed.

End FetcherFacts.

Lemma fetch_transactions_df_productCount_witness :
  @transactions_find shop_collections
  = Ok [[("_id", VStr "t1"); ("buyer", VStr "Ada"); ("amount", VInt 38);
         ("productIds", VList [VStr "p1"; VStr "p2"])];
        [("_id", VStr "t2"); ("buyer", VStr "Bob"); ("amount", VInt 8);
         ("productIds", VStr "p2")];
        [("_id", VStr "t3"); ("buyer", VStr "Cy"); ("amount", VInt 0)]]
  /\ exists df,
      @fetch_transactions_df column_only_pandas shop_collections = Ok df
      /\ column df "productCount" = [VInt 2; VInt 0; VInt 0].
Proof.
  split; [reflexivity |].
  destruct (@fetch_transactions_df_productCount column_only_pandas shop_collections
              _ eq_refl) as (df & Hdf & _ & Hcol).
  - eexists. split; [left; reflexivity |]. cbn. tauto.
  - exists df. split; [exact Hdf | exact Hcol].
Defined.

Section KpiFrames.

Context `{Library}.

Lemma dict_get_or_of_lookup (d : dict) (k : string) (v dflt : value) :
  dict_lookup d k = Some v -> dict_get_or d k dflt = v.
Proof. unfold dict_get_or. now intros ->. Qed.

(** One row per expense category: when the document holds a non-empty
    category mapping, the table [kpi_expensesByCategory] has the columns
    category and value, one row for each key of the mapping, and its
    category column lists the keys in the order of the mapping. *)
Theorem melt_expenses_by_category (doc : dict) (kv : string * value) (items : dict)
    (fs : frames) :
  dict_lookup doc "expensesByCategory" = Some (VDict (kv :: items)) ->
  melt_kpi_document doc = Ok fs ->
  exists df,
    frames_get fs "kpi_expensesByCategory" = Some df
    /\ columns df = ["category"; "value"]
    /\ length (rows df) = S (length items)
    /\ column df "category" = map (fun kv => VStr (fst kv)) (kv :: items).
Proof.
  intros Hcat Hmelt.
  assert (E : frames_get fs "kpi_expensesByCategory"
              = Some (DataFrame_records
                        (map (fun kv => [("category", VStr (fst kv)); ("value", snd kv)])
                             (kv :: items)))).
  { revert Hmelt. unfold melt_kpi_document. cbv zeta.
    rewrite (dict_get_or_of_lookup _ _ _ (VDict []) Hcat).
    cbn [py_or truthy dict_items bind Ok].
    assert (Hrec : forall l : dict,
               as_records (map (fun kv => VDict [("category", VStr (fst kv));
                                                 ("value", snd kv)]) l)
               = Some (map (fun kv => [("category", VStr (fst kv)); ("value", snd kv)]) l)).
    { induction l as [| x l IH]; cbn; [reflexivity | now rewrite IH]. }
    unfold pd_DataFrame at 1. rewrite Hrec. cbn [bind Ok].
    destruct (pd_DataFrame _) as [e | monthly_df]; cbn [bind]; [discriminate |].
    destruct (pd_DataFrame _) as [e | daily_df]; cbn [bind]; [discriminate |].
    intros [= <-]. reflexivity. }
  assert (Hcols : forall l : dict,
             fold_left add_keys
               (map (fun kv => [("category", VStr (fst kv)); ("value", snd kv)]) l)
               ["category"; "value"]
             = ["category"; "value"]).
  { induction l as [| x l IH]; cbn; [reflexivity | exact IH]. }
  eexists. split; [exact E |].
  unfold DataFrame_records.
  cbn [map fold_left]. change (add_keys [] _) with ["category"; "value"].
  rewrite Hcols.
  split; [reflexivity |].
  split; [cbn [rows length]; now rewrite !length_map |].
  unfold column, cell. cbn [columns rows index_of String.eqb Ascii.eqb Bool.eqb map nth].
  f_equal. rewrite !map_map. apply map_ext. intros x. reflexivity.
Qed.

(** A category mapping that is truthy and no mapping (a list, a string, a
    number) stops the melt with an AttributeError; one that is absent, null
    or empty is read as no category at all. *)
Theorem melt_expenses_not_a_mapping (doc : dict) (v : value) :
  dict_lookup doc "expensesByCategory" = Some v ->
  truthy v = true ->
  (forall items, v <> VDict items) ->
  melt_kpi_document doc = Raise AttributeError.
Proof.
  intros Hcat Ht Hv. unfold melt_kpi_document. cbv zeta.
  rewrite (dict_get_or_of_lookup _ _ _ (VDict []) Hcat), (py_or_truthy _ _ Ht).
  destruct v; try reflexivity. exfalso. now apply (Hv items).
Qed.

Context `{Store}.

Lemma melt_kpi_document_names (d : dict) (fs : frames) :
  melt_kpi_document d = Ok fs ->
  map fst fs = ["kpi_totals"; "kpi_expensesByCategory"; "kpi_monthly"; "kpi_daily"].
Proof.
  unfold melt_kpi_document. cbv zeta.
  destruct (dict_items _) as [e | items]; cbn [bind]; [discriminate |].
  destruct (pd_DataFrame _) as [e | exp_df]; cbn [bind]; [discriminate |].
  destruct (pd_DataFrame _) as [e | monthly_df]; cbn [bind]; [discriminate |].
  destruct (pd_DataFrame _) as [e | daily_df]; cbn [bind]; [discriminate |].
  now intros [= <-].
Qed.

Lemma fetch_kpi_frames_names (fs : frames) :
  fetch_kpi_frames = Ok fs ->
  map fst fs = ["kpi_totals"; "kpi_expensesByCategory"; "kpi_monthly"; "kpi_daily"].
Proof.
  unfold fetch_kpi_frames.
  destruct (try_except find_one_sorted _) as [e | doc]; cbn [bind]; [discriminate |].
  destruct doc as [[| kv d] |].
  - now intros [= <-].
  - apply melt_kpi_document_names.
  - now intros [= <-].
Qed.

(** Whenever [fetch_kpi_frames] returns, it returns the four frames
    kpi_totals, kpi_expensesByCategory, kpi_monthly, kpi_daily in that order,
    and kpi_totals has the columns metric and value whether or not a
    document was found.  A sorted query that raises is retried unsorted, and
    only a failure of both queries, or of the melt, makes it raise. *)
Theorem fetch_kpi_frames_shape :
  (forall fs, fetch_kpi_frames = Ok fs ->
              map fst fs = ["kpi_totals"; "kpi_expensesByCategory"; "kpi_monthly"; "kpi_daily"]
              /\ exists df, frames_get fs "kpi_totals" = Some df
                            /\ columns df = ["metric"; "value"])
  /\ (forall e doc, find_one_sorted = Raise e -> find_one = Ok doc ->
                    fetch_kpi_frames
                    = match doc with
                      | Some ((_ :: _) as d) => melt_kpi_document d
                      | _ => Ok empty_frames
                      end)
  /\ (forall e e', find_one_sorted = Raise e -> find_one = Raise e' ->
                   fetch_kpi_frames = Raise e').
Proof.
  assert (Hmelt : forall d fs, melt_kpi_document d = Ok fs ->
             map fst fs = ["kpi_totals"; "kpi_expensesByCategory"; "kpi_monthly"; "kpi_daily"]
             /\ exists df, frames_get fs "kpi_totals" = Some df
                           /\ columns df = ["metric"; "value"]).
  { intros d fs Hd. pose proof (melt_kpi_document_totals d fs Hd) as Ht.
    split; [| eexists; split; [exact Ht | reflexivity]].
    unfold melt_kpi_document in Hd. cbv zeta in Hd.
    destruct (dict_items _) as [e | items]; cbn [bind] in Hd; [discriminate |].
    destruct (pd_DataFrame _) as [e | exp_df]; cbn [bind] in Hd; [discriminate |].
    destruct (pd_DataFrame _) as [e | monthly_df]; cbn [bind] in Hd; [discriminate |].
    destruct (pd_DataFrame _) as [e | daily_df]; cbn [bind] in Hd; [discriminate |].
    now injection Hd as <-. }
  split; [| split].
  - intros fs. unfold fetch_kpi_frames.
    destruct (try_except find_one_sorted _) as [e | doc]; cbn [bind]; [discriminate |].
    destruct doc as [[| kv d] |].
    + intros [= <-]. split; [reflexivity |]. eexists. split; reflexivity.
    + apply Hmelt.
    + intros [= <-]. split; [reflexivity |]. eexists. split; reflexivity.
  - intros e doc Hs Hf. unfold fetch_kpi_frames. rewrite Hs. cbn [try_except].
    rewrite Hf. reflexivity.
  - intros e e' Hs Hf. unfold fetch_kpi_frames. rewrite Hs. cbn [try_except].
    rewrite Hf. reflexivity.
Qed.

Context `{Collections} `{SeriesArith}.

(** For each of the six valid dataset names the dispatcher goes to the
    fetcher of that dataset: the two collections for products and
    transactions, and for a kpi name the frame of that name among the four
    of [fetch_kpi_frames], which is always there.  The empty fallback frame
    is what an unknown name gets. *)
Theorem get_dataframe_for_dataset_dispatch :
  get_dataframe_for_dataset "products" = fetch_products_df
  /\ get_dataframe_for_dataset "transactions" = fetch_transactions_df
  /\ (forall ds fs,
        In ds ["kpi_totals"; "kpi_expensesByCategory"; "kpi_monthly"; "kpi_daily"] ->
        fetch_kpi_frames = Ok fs ->
        exists df, frames_get fs ds = Some df
                   /\ get_dataframe_for_dataset ds = Ok df)
  /\ (forall ds e, String.prefix "kpi_" ds = true -> fetch_kpi_frames = Raise e ->
                   get_dataframe_for_dataset ds = Raise e)
  /\ (forall ds, ~ In ds valid_ds -> String.prefix "kpi_" ds = false ->
                 get_dataframe_for_dataset ds = Ok no_frame).
Proof.
  split; [reflexivity |]. split; [reflexivity |].
  split; [| split].
  - intros ds fs Hds Hfs.
    pose proof (fetch_kpi_frames_names fs Hfs) as Hnames.
    assert (Hget : exists df, frames_get fs ds = Some df).
    { destruct fs as [| [n1 d1] [| [n2 d2] [| [n3 d3] [| [n4 d4] [| ? ?]]]]];
        try discriminate.
      injection Hnames as -> -> -> ->.
      destruct Hds as [<- | [<- | [<- | [<- | []]]]]; cbn; eauto. }
    destruct Hget as [df Hdf]. exists df. split; [exact Hdf |].
    unfold get_dataframe_for_dataset.
    replace (String.prefix "kpi_" ds) with true
      by (destruct Hds as [<- | [<- | [<- | [<- | []]]]]; reflexivity).
    rewrite Hfs. cbn [bind Ok]. now rewrite Hdf.
  - intros ds e Hp He. unfold get_dataframe_for_dataset. now rewrite Hp, He.
  - intros ds Hds Hp. unfold get_dataframe_for_dataset. rewrite Hp.
    destruct (String.eqb_spec ds "products") as [-> | _].
    { exfalso. apply Hds. cbn. tauto. }
    destruct (String.eqb_spec ds "transactions") as [-> | _]; [| reflexivity].
    exfalso. apply Hds. cbn. tauto.
Qed.

End KpiFrames.

(* ===================================================================== *)
(** * More on the execution stage *)
(* ===================================================================== *)

Section FilterAlgebra.

Context `{cmp : Comparison}.

Lemma row_passes_columns (df df' : DataFrame) (row : list value) (item : string * value) :
  columns df' = columns df -> row_passes df' row item = row_passes df row item.
Proof. intros E. unfold row_passes, cell. now rewrite E. Qed.

Lemma filter_idempotent {A : Type} (f : A -> bool) (l : list A) :
  filter f (filter f l) = filter f l.
Proof.
  rewrite filter_filter. apply filter_ext. intros x. now destruct (f x).
Qed.

Lemma forallb_pointwise {A : Type} (f g : A -> bool) (l : list A) :
  (forall x, f x = g x) -> forallb f l = forallb g l.
Proof.
  intros H. induction l as [| x l IH]; cbn; [reflexivity | now rewrite H, IH].
Qed.

Lemma forallb_Permutation {A : Type} (f : A -> bool) (l l' : list A) :
  Permutation l l' -> forallb f l = forallb f l'.
Proof.
  induction 1; cbn; try congruence.
  now rewrite !andb_assoc, (andb_comm (f y) (f x)).
Qed.

(** What [apply_filter] computes, in every case. *)
Lemma apply_filter_cases (df : DataFrame) (plan : dict) :
  apply_filter df plan
  = if negb (truthy (dict_get plan "filter")) || empty df then Ok df
    else match dict_get plan "filter" with
         | VDict items =>
             Ok (mkDataFrame (columns df)
                   (filter (fun row => forallb (row_passes df row) items) (rows df)))
         | _ => Raise AttributeError
         end.
Proof.
  unfold apply_filter. cbv zeta.
  destruct (negb (truthy (dict_get plan "filter")) || empty df); [reflexivity |].
  destruct (dict_get plan "filter"); try reflexivity.
  cbn [dict_items bind Ok]. now rewrite fold_filter_step.
Qed.

(** Filtering only removes rows: the columns stay, the rows kept are rows of
    the table in their order, and filtering the result again with the same
    plan changes nothing. *)
Theorem apply_filter_idempotent (df out : DataFrame) (plan : dict) :
  apply_filter df plan = Ok out ->
  columns out = columns df
  /\ incl (rows out) (rows df)
  /\ length (rows out) <= length (rows df)
  /\ apply_filter out plan = Ok out.
Proof.
  rewrite apply_filter_cases.
  destruct (negb (truthy (dict_get plan "filter")) || empty df) eqn:E.
  - intros [= <-]. repeat split; auto using incl_refl.
    now rewrite apply_filter_cases, E.
  - destruct (dict_get plan "filter") as [| | | | | | items] eqn:Hf; try discriminate.
    intros [= <-]. cbn [columns rows].
    split; [reflexivity |].
    split; [apply incl_filter |].
    split; [apply filter_length_le |].
    rewrite apply_filter_cases, Hf. cbn [columns rows].
    match goal with
    | |- (if ?b then _ else _) = _ => destruct b; [reflexivity |]
    end.
    f_equal. f_equal.
    etransitivity; [| apply filter_idempotent].
    apply filter_ext. intros row.
    apply forallb_pointwise. intros item. now apply row_passes_columns.
Qed.

(** The order in which the filter lists its fields does not matter. *)
Theorem apply_filter_entry_order (df : DataFrame) (plan plan' : dict) (items items' : dict) :
  dict_get plan "filter" = VDict items ->
  dict_get plan' "filter" = VDict items' ->
  Permutation items items' ->
  apply_filter df plan = apply_filter df plan'.
Proof.
  intros Hf Hf' Hp. rewrite !apply_filter_cases, Hf, Hf'.
  replace (truthy (VDict items')) with (truthy (VDict items)).
  2: { destruct items, items'; try reflexivity.
       - now apply Permutation_nil in Hp.
       - symmetry in Hp. now apply Permutation_nil in Hp. }
  match goal with
  | |- (if ?b then _ else _) = _ => destruct b; [reflexivity |]
  end.
  do 2 f_equal.
  apply filter_ext. intros row. now apply forallb_Permutation.
Qed.

(** A filter that is truthy and no mapping (a string, a number, a list)
    makes [apply_filter] raise an AttributeError on every table that is not
    empty, and normalization does not stand in the way: it hands such a
    filter on as it is, so the normalized plan raises the same way. *)
Theorem apply_filter_raises_on_non_mapping (df : DataFrame) (plan : dict) :
  truthy (dict_get plan "filter") = true ->
  (forall items, dict_get plan "filter" <> VDict items) ->
  empty df = false ->
  apply_filter df plan = Raise AttributeError
  /\ exists q, _normalize_plan (VDict plan) = Ok (VDict q)
               /\ dict_get q "filter" = dict_get plan "filter"
               /\ apply_filter df q = Raise AttributeError.
Proof.
  intros Ht Hn He.
  assert (Hraise : forall p, dict_get p "filter" = dict_get plan "filter" ->
                             apply_filter df p = Raise AttributeError).
  { intros p Hp. rewrite apply_filter_cases, Hp, Ht, He. cbn [negb orb].
    destruct (dict_get plan "filter") as [| | | | | | items] eqn:Hf; try reflexivity.
    now destruct (Hn items). }
  split; [now apply Hraise |].
  assert (Hq : dict_get (normalize_dict plan) "filter" = dict_get plan "filter").
  { rewrite normalize_dict_filter. unfold final_filter. cbv zeta.
    rewrite (py_or_truthy _ _ Ht), (truthy_not_None _ Ht).
    now rewrite andb_false_r. }
  exists (normalize_dict plan). split; [reflexivity |].
  split; [exact Hq | now apply Hraise].
Qed.

End FilterAlgebra.

Lemma apply_filter_idempotent_witness :
  @apply_filter written_the_same totals_table (normalize_dict scenario_plan)
  = Ok (mkDataFrame ["metric"; "value"]
          [[VStr "totalRevenue"; VInt 100]; [VStr "totalExpenses"; VInt 40]])
  /\ @apply_filter written_the_same (mkDataFrame ["metric"; "value"]
                     [[VStr "totalRevenue"; VInt 100]; [VStr "totalExpenses"; VInt 40]])
                  (normalize_dict scenario_plan)
     = Ok (mkDataFrame ["metric"; "value"]
             [[VStr "totalRevenue"; VInt 100]; [VStr "totalExpenses"; VInt 40]]).
Proof.
  assert (H : @apply_filter written_the_same totals_table (normalize_dict scenario_plan)
              = Ok (mkDataFrame ["metric"; "value"]
                      [[VStr "totalRevenue"; VInt 100]; [VStr "totalExpenses"; VInt 40]]))
    by reflexivity.
  split; [exact H |].
  exact (proj2 (proj2 (proj2 (@apply_filter_idempotent written_the_same _ _ _ H)))).
Defined.

Lemma apply_filter_entry_order_witness :
  @apply_filter written_the_same totals_table
    [("filter", VDict [("metric", VList [VStr "totalProfit"; VStr "totalRevenue"]);
                       ("value", VList [VInt 60; VInt 40])])]
  = @apply_filter written_the_same totals_table
      [("filter", VDict [("value", VList [VInt 60; VInt 40]);
                         ("metric", VList [VStr "totalProfit"; VStr "totalRevenue"])])].
Proof.
  apply (@apply_filter_entry_order written_the_same totals_table _ _
           [("metric", VList [VStr "totalProfit"; VStr "totalRevenue"]);
            ("value", VList [VInt 60; VInt 40])]
           [("value", VList [VInt 60; VInt 40]);
            ("metric", VList [VStr "totalProfit"; VStr "totalRevenue"])]);
    [reflexivity | reflexivity | apply perm_swap].
Defined.

Lemma apply_filter_raises_on_non_mapping_witness :
  @apply_filter written_the_same totals_table
    [("dataset", VStr "kpi_totals"); ("filter", VStr "metric == totalRevenue")]
  = Raise AttributeError
  /\ exists q,
      _normalize_plan (VDict [("dataset", VStr "kpi_totals");
                              ("filter", VStr "metric == totalRevenue")])
      = Ok (VDict q)
      /\ dict_get q "filter" = VStr "metric == totalRevenue"
      /\ @apply_filter written_the_same totals_table q = Raise AttributeError.
Proof.
  apply (@apply_filter_raises_on_non_mapping written_the_same totals_table
           [("dataset", VStr "kpi_totals"); ("filter", VStr "metric == totalRevenue")]);
    [reflexivity | intros items; discriminate | reflexivity].
Defined.

Section CalculationErrors.

Lemma prefix_empty (s : string) : String.prefix EmptyString s = true.
Proof. now destruct s. Qed.

(** Splitting a calculation at its first ['='] loses nothing: the two parts
    joined by ['='] give the calculation back, and the left part holds no
    ['=']. *)
Theorem split_equals_round_trip (s : string) :
  contains "=" s = true ->
  s = fst (split_equals s) ++ "=" ++ snd (split_equals s)
  /\ contains "=" (fst (split_equals s)) = false.
Proof.
  induction s as [| c s IH]; [discriminate |].
  cbn [contains String.prefix split_equals].
  destruct (Ascii.ascii_dec "=" c) as [<- | Hne].
  - intros _. cbn. split; reflexivity.
  - destruct (Ascii.eqb_spec c "=") as [-> | _]; [congruence |].
    cbn [orb]. intros Hs. destruct (IH Hs) as [Heq Hno].
    destruct (split_equals s) as [l r]. cbn [fst snd] in *.
    split; [cbn in Heq |- *; f_equal; exact Heq |].
    cbn [contains String.prefix].
    destruct (Ascii.ascii_dec "=" c); [congruence | exact Hno].
Qed.

Lemma split_equals_round_trip_witness :
  contains "=" "margin = price - expense == 0" = true
  /\ "margin = price - expense == 0"
     = fst (split_equals "margin = price - expense == 0") ++ "="
       ++ snd (split_equals "margin = price - expense == 0")
  /\ contains "=" (fst (split_equals "margin = price - expense == 0")) = false.
Proof.
  split; [reflexivity |].
  exact (split_equals_round_trip "margin = price - expense == 0" eq_refl).
Defined.

Lemma lookup_In_keys (d : dict) (k : string) :
  (exists v, dict_lookup d k = Some v) <-> In k (map fst d).
Proof.
  induction d as [| [k' v'] d IH]; cbn.
  - split; [intros [v H]; discriminate | tauto].
  - destruct (String.eqb_spec k k') as [-> | Hne].
    + split; [now left | eauto].
    + rewrite IH. split; [now right | intros [E | H]; [congruence | exact H]].
Qed.

Context `{Library}.

(** [apply_calculation] raises exactly in two cases, both with a truthy
    calculation that is no string: a number or a boolean (TypeError at the
    test for ['=']), and, on a table that is not empty, a list holding the
    element ["="] or a mapping with the key ["="] (AttributeError at
    [split]).  A string, [None] or any falsy value never raise. *)
Theorem apply_calculation_raises (df : DataFrame) (plan : dict) (e : exn) :
  apply_calculation df plan = Raise e
  <-> match dict_get plan "calculation" with
      | VNone | VStr _ => False
      | VBool b => b = true /\ e = TypeError
      | VInt z => z <> 0%Z /\ e = TypeError
      | VFloat r => ~ In r ["0.0"; "-0.0"] /\ e = TypeError
      | VList l => In (VStr "=") l /\ empty df = false /\ e = AttributeError
      | VDict kvs => In "=" (map fst kvs) /\ empty df = false /\ e = AttributeError
      end.
Proof.
  unfold apply_calculation. cbv zeta.
  destruct (dict_get plan "calculation") as [| b | z | r | s | l | kvs];
    cbn [truthy negb].
  - split; [discriminate | tauto].
  - destruct b; cbn [negb has_equals bind Raise].
    + split; [intros [= <-]; auto | intros [_ ->]; reflexivity].
    + split; [discriminate | intros [? _]; discriminate].
  - destruct (Z.eqb_spec z 0) as [-> | Hz]; cbn [negb has_equals bind Raise].
    + split; [discriminate | intros [? _]; congruence].
    + split; [intros [= <-]; auto | intros [_ ->]; reflexivity].
  - destruct (in_strs r ["0.0"; "-0.0"]) eqn:Hr; cbn [negb has_equals bind Raise].
    + apply in_strs_In in Hr. split; [discriminate | intros [? _]; contradiction].
    + apply in_strs_not_In in Hr.
      split; [intros [= <-]; auto | intros [_ ->]; reflexivity].
  - destruct (negb (String.eqb s EmptyString)); cbn [negb]; [| split; [discriminate | tauto]].
    cbn [has_equals bind Ok].
    destruct (negb (contains "=" s) || empty df); [split; [discriminate | tauto] |].
    destruct (split_equals s) as [lhs rhs].
    destruct (pd_eval _ df); cbn; split; (discriminate || tauto).
  - assert (Hl : existsb (value_eqb (VStr "=")) l = true <-> In (VStr "=") l)
      by apply existsb_value_eqb_In.
    destruct l as [| x l]; cbn [negb].
    { split; [discriminate | intros [[] _]]. }
    cbn [has_equals bind Ok].
    destruct (existsb (value_eqb (VStr "=")) (x :: l)); cbn [negb orb].
    + destruct (empty df).
      * split; [discriminate | intros (_ & ? & _); discriminate].
      * split; [intros [= <-]; repeat split; now apply Hl
               | intros (_ & _ & ->); reflexivity].
    + split; [discriminate | intros (Hin & _)]. apply Hl in Hin. discriminate.
  - destruct kvs as [| kv kvs]; cbn [negb].
    { split; [discriminate | intros [[] _]]. }
    cbn [has_equals bind Ok].
    pose proof (lookup_In_keys (kv :: kvs) "=") as Hk.
    destruct (dict_lookup (kv :: kvs) "=") as [v |]; cbn [negb orb].
    + destruct (empty df).
      * split; [discriminate | intros (_ & ? & _); discriminate].
      * split; [intros [= <-]; repeat split; apply Hk; eauto
               | intros (_ & _ & ->); reflexivity].
    + split; [discriminate | intros (Hin & _)].
      apply Hk in Hin. destruct Hin as [v Hv]. discriminate.
Qed.

End CalculationErrors.

(* ===================================================================== *)
(** * Charts and the route *)
(* ===================================================================== *)

Import Charts Route.

Section ChartFacts.

Context `{Plotly}.

Lemma eq_str_VStr (s c : string) : eq_str (VStr s) c = String.eqb s c.
Proof. reflexivity. Qed.

(** For a finalized plan and a table that is not empty, [build_chart] asks
    Plotly for a chart of the plan's chart type, with the plan's x; the
    only placeholder it can ask for itself is the one of a pie chart
    without a numeric column.  Neither the "No data / invalid plan" nor the
    "Fallback chart" placeholder is reachable. *)
Theorem build_chart_of_finalized (df : DataFrame) (q : dict) :
  finalized q ->
  empty df = false ->
  exists ch call,
    dict_get q "chart_type" = VStr ch
    /\ build_chart df q
       = try_except (fig <- px df call ;; _to_base64_fig fig)
                    (fun _ => fig <- px df chart_error ;; _to_base64_fig fig)
    /\ ((exists request, call = PxChart request /\ request_kind request = ch)
        \/ (ch = "pie" /\ dict_get q "y" = VNone
            /\ call = PxImshow [[0%Z]] "Pie needs numeric 'y' values")).
Proof.
  intros (ds & ch & x & y & f & c & _ & _ & Hch & Vch & Hx & Tx & Hy & _) Hdf.
  exists ch. unfold build_chart. cbv zeta.
  rewrite (dict_get_or_of_lookup _ _ _ (VStr "bar") Hch).
  rewrite (dict_get_of_lookup _ _ _ Hch).
  rewrite (dict_get_of_lookup _ _ _ Hx), (dict_get_of_lookup _ _ _ Hy).
  rewrite Hdf, Tx. cbn [negb orb].
  eexists. split; [reflexivity |]. split; [reflexivity |].
  unfold chart_call. rewrite !eq_str_VStr.
  destruct Vch as [E|[E|[E|[E|[E|[E|[]]]]]]]; rewrite <- E;
    cbn [String.eqb Ascii.eqb Bool.eqb]; try (left; eexists; split; reflexivity).
  destruct (is_None (if is_None y then first_numeric df x else y)) eqn:Hn.
  - right. split; [reflexivity |]. split; [| reflexivity].
    destruct y; try discriminate. reflexivity.
  - left. eexists; split; reflexivity.
Qed.

(** [build_chart] returns an image whatever the table, the plan and the
    failures of the chart calls, provided the placeholder can always be
    drawn and rendered. *)
Theorem build_chart_never_fails (df : DataFrame) (plan : dict) :
  (forall matrix title,
      exists fig img, px_imshow matrix title = Ok fig /\ to_image fig = Ok img) ->
  exists img64, build_chart df plan = Ok img64.
Proof.
  intros Hph.
  assert (Hplace : forall matrix title,
             exists img64, (fig <- px df (PxImshow matrix title) ;; _to_base64_fig fig)
                           = Ok img64).
  { intros matrix title. destruct (Hph matrix title) as (fig & img & Hfig & Himg).
    cbn [px]. rewrite Hfig. cbn [bind Ok]. unfold _to_base64_fig. rewrite Himg.
    cbn. eauto. }
  unfold build_chart. cbv zeta.
  destruct (empty df || negb (truthy (dict_get plan "x"))); [apply Hplace |].
  destruct (fig <- px df (chart_call df _ _ _) ;; _to_base64_fig fig) as [e | img64];
    cbn [try_except]; [apply Hplace | eauto].
Qed.

(** On an empty table the three stages after the fetch do nothing but draw
    the "No data / invalid plan" placeholder, for every plan whose
    calculation is a string or is falsy: the filter is not even looked at. *)
Theorem empty_table_placeholder `{Library} `{Comparison} (df : DataFrame) (plan : dict) :
  empty df = true ->
  (forall v, dict_get plan "calculation" = v ->
             truthy v = false \/ exists s, v = VStr s) ->
  apply_filter df plan = Ok df
  /\ apply_calculation df plan = Ok df
  /\ build_chart df plan = (fig <- px df no_data ;; _to_base64_fig fig).
Proof.
  intros Hdf Hcalc.
  split; [| split].
  - rewrite apply_filter_cases, Hdf. now rewrite orb_true_r.
  - unfold apply_calculation. cbv zeta.
    destruct (Hcalc _ eq_refl) as [Hf | [s Hs]].
    + now rewrite Hf.
    + rewrite Hs. destruct (negb (truthy (VStr s))); [reflexivity |].
      cbn [has_equals bind Ok]. now rewrite Hdf, orb_true_r.
  - unfold build_chart. cbv zeta. now rewrite Hdf.
Qed.

End ChartFacts.

Lemma build_chart_of_finalized_witness :
  finalized (normalize_dict scenario_plan)
  /\ empty totals_table = false
  /\ @build_chart (sketch_plotly 10) totals_table (normalize_dict scenario_plan)
     = Ok "bar: value by metric".
Proof.
  assert (Hq : finalized (normalize_dict scenario_plan))
    by apply normalize_dict_finalized.
  split; [exact Hq |]. split; [reflexivity |].
  destruct (@build_chart_of_finalized (sketch_plotly 10) totals_table
              (normalize_dict scenario_plan) Hq eq_refl)
    as (ch & call & _ & Hb & _).
  reflexivity.
Defined.

Lemma build_chart_never_fails_witness :
  (forall matrix title,
      exists fig img, @px_imshow (sketch_plotly 2) matrix title = Ok fig
                      /\ @to_image (sketch_plotly 2) fig = Ok img)
  /\ @build_chart (sketch_plotly 2) totals_table fallback_plan
     = Ok "imshow: Chart error".
Proof.
  assert (Hph : forall matrix title,
             exists fig img, @px_imshow (sketch_plotly 2) matrix title = Ok fig
                             /\ @to_image (sketch_plotly 2) fig = Ok img).
  { intros matrix title. do 2 eexists. split; reflexivity. }
  split; [exact Hph |].
  destruct (@build_chart_never_fails (sketch_plotly 2) totals_table fallback_plan Hph)
    as [img64 Himg].
  reflexivity.
Defined.

Lemma empty_table_placeholder_witness :
  empty no_frame = true
  /\ @apply_filter written_the_same no_frame
       [("filter", VStr "metric == totalRevenue");
        ("calculation", VStr "a = b")]
     = Ok no_frame
  /\ @build_chart (sketch_plotly 10) no_frame
       [("filter", VStr "metric == totalRevenue"); ("calculation", VStr "a = b")]
     = Ok "imshow: No data / invalid plan".
Proof.
  split; [reflexivity |].
  destruct (@empty_table_placeholder (sketch_plotly 10) column_only_pandas written_the_same
              no_frame
              [("filter", VStr "metric == totalRevenue"); ("calculation", VStr "a = b")]
              eq_refl) as (Hf & _ & Hb).
  - intros v <-. right. now exists "a = b".
  - split; [exact Hf |]. rewrite Hb. reflexivity.
Defined.

Section EndToEnd.

Context `{Library} `{cmp : Comparison}.

(** Normalizer, melt and filter together: for a plan on kpi_totals that
    came without filter, the totals table has the three rows of revenue,
    expenses and profit, and the filtered table keeps of them, in that
    order, exactly the rows of the metrics the reason names, and all three
    when it names none.  All this asks of [isin] is that it matches two
    strings exactly when they are the same string. *)
Theorem inferred_filter_on_totals (doc : dict) (fs : frames) (plan : dict) :
  let text := lower (py_str (dict_get_or plan "reason" (VStr EmptyString))) in
  (forall s s', same_value (VStr s) (VStr s') = String.eqb s s') ->
  melt_kpi_document doc = Ok fs ->
  dict_get (normalize_dict plan) "dataset" = VStr "kpi_totals" ->
  truthy (dict_get plan "filter") = false ->
  exists table revenue expenses profit,
    frames_get fs "kpi_totals" = Some table
    /\ columns table = ["metric"; "value"]
    /\ rows table = [[VStr "totalRevenue"; revenue];
                     [VStr "totalExpenses"; expenses];
                     [VStr "totalProfit"; profit]]
    /\ apply_filter table (normalize_dict plan)
       = Ok (mkDataFrame ["metric"; "value"]
               (if contains "revenue" text || contains "expense" text
                   || contains "profit" text
                then ((if contains "revenue" text
                       then [[VStr "totalRevenue"; revenue]] else [])
                      ++ (if contains "expense" text
                          then [[VStr "totalExpenses"; expenses]] else [])
                      ++ (if contains "profit" text
                          then [[VStr "totalProfit"; profit]] else []))%list
                else [[VStr "totalRevenue"; revenue];
                      [VStr "totalExpenses"; expenses];
                      [VStr "totalProfit"; profit]])).
Proof.
  intros text Hstr Hmelt Hds Hf.
  pose proof (melt_kpi_document_totals doc fs Hmelt) as Ht.
  set (revenue := dict_get_or doc "totalRevenue" (VInt 0)) in Ht.
  set (expenses := dict_get_or doc "totalExpenses" (VInt 0)) in Ht.
  set (profit := dict_get_or doc "totalProfit" (VInt 0)) in Ht.
  eexists. exists revenue, expenses, profit.
  split; [exact Ht |].
  split; [reflexivity |].
  split; [reflexivity |].
  rewrite normalize_dict_dataset in Hds. injection Hds as Hds.
  rewrite apply_filter_cases, normalize_dict_filter.
  unfold final_filter. cbv zeta.
  rewrite Hds, (py_or_falsy _ _ Hf).
  unfold inferred_metrics, reason_text. fold text. cbv zeta.
  clearbody revenue expenses profit.
  destruct (contains "revenue" text), (contains "expense" text),
    (contains "profit" text);
    cbn; unfold row_passes, isin, cell; cbn; rewrite ?Hstr; reflexivity.
Qed.

Context `{Services} `{Store} `{Collections} `{SeriesArith} `{Plotly}.

Lemma llm_plan_when_create_raises (prompt : string) :
  chat_completions_create prompt = CreateRaised ->
  llm_plan prompt = Ok (VDict (normalize_dict fallback_plan)).
Proof.
  intros Hc. unfold llm_plan, llm_plan_try. now rewrite Hc.
Qed.

(** With the oracle down and the store up, the route still answers: it
    draws the bar chart of value by metric over the whole kpi_totals table
    of the latest document and reports the fallback plan and three rows. *)
Theorem generate_when_oracle_down (prompt : string) (kv : string * value) (doc : dict)
    (fs : frames) (fig : figure) (img : string) :
  chat_completions_create prompt = CreateRaised ->
  find_one_sorted = Ok (Some (kv :: doc)) ->
  melt_kpi_document (kv :: doc) = Ok fs ->
  px_chart
    (mkDataFrame ["metric"; "value"]
       [[VStr "totalRevenue"; dict_get_or (kv :: doc) "totalRevenue" (VInt 0)];
        [VStr "totalExpenses"; dict_get_or (kv :: doc) "totalExpenses" (VInt 0)];
        [VStr "totalProfit"; dict_get_or (kv :: doc) "totalProfit" (VInt 0)]])
    (Bar (VStr "metric") (VStr "value") "value by metric") = Ok fig ->
  to_image fig = Ok img ->
  generate prompt
  = JSONResponse (b64encode img)
      ("Plan: {'dataset': 'kpi_totals', 'chart_type': 'bar', 'x': 'metric', "
       ++ "'y': 'value', 'filter': None, 'calculation': None, "
       ++ "'reason': 'Fallback plan'}. Rows: 3").
Proof.
  intros Hc Hs Hmelt Hfig Himg.
  unfold generate, generate_try.
  rewrite (llm_plan_when_create_raises prompt Hc).
  change (normalize_dict fallback_plan) with fallback_plan.
  cbn [bind Ok plan_dataset dict_lookup fallback_plan String.eqb Ascii.eqb Bool.eqb
       fst snd].
  unfold get_dataframe_for_dataset.
  change (String.prefix "kpi_" "kpi_totals") with true. cbv iota.
  unfold fetch_kpi_frames. rewrite Hs. cbn [try_except bind Ok].
  rewrite Hmelt. cbn [bind Ok].
  rewrite (melt_kpi_document_totals _ _ Hmelt).
  rewrite apply_filter_cases.
  change (dict_get fallback_plan "filter") with VNone.
  cbn [truthy negb orb bind Ok].
  unfold apply_calculation.
  change (dict_get fallback_plan "calculation") with VNone.
  cbn [truthy negb bind Ok].
  unfold build_chart.
  change (dict_get_or fallback_plan "chart_type" (VStr "bar")) with (VStr "bar").
  change (dict_get fallback_plan "x") with (VStr "metric").
  change (dict_get fallback_plan "y") with (VStr "value").
  cbn [empty columns rows truthy negb orb String.eqb Ascii.eqb Bool.eqb].
  unfold chart_call.
  cbn [eq_str String.eqb Ascii.eqb Bool.eqb truthy negb py_str append px].
  rewrite Hfig. cbn [bind Ok try_except]. unfold _to_base64_fig. rewrite Himg.
  reflexivity.
Qed.

(** With the oracle down and the store down too (both queries raise), the
    route answers 500: the store is the one failure it passes on. *)
Theorem generate_when_store_down (prompt : string) (e e' : exn) :
  chat_completions_create prompt = CreateRaised ->
  find_one_sorted = Raise e ->
  find_one = Raise e' ->
  generate prompt = HTTPException 500.
Proof.
  intros Hc Hs Hf.
  unfold generate, generate_try.
  rewrite (llm_plan_when_create_raises prompt Hc).
  change (normalize_dict fallback_plan) with fallback_plan.
  cbn [bind Ok plan_dataset dict_lookup fallback_plan String.eqb Ascii.eqb Bool.eqb
       fst snd].
  unfold get_dataframe_for_dataset.
  change (String.prefix "kpi_" "kpi_totals") with true. cbv iota.
  unfold fetch_kpi_frames. rewrite Hs. cbn [try_except]. rewrite Hf.
  reflexivity.
Qed.

End EndToEnd.

Lemma inferred_filter_on_totals_witness :
  exists table,
    frames_get [("kpi_totals", totals_table)] "kpi_totals" = Some table
    /\ @apply_filter written_the_same table (normalize_dict scenario_plan)
       = Ok (mkDataFrame ["metric"; "value"]
               [[VStr "totalRevenue"; VInt 100]; [VStr "totalExpenses"; VInt 40]]).
Proof.
  destruct (@inferred_filter_on_totals column_only_pandas written_the_same
              totals_only_doc _ scenario_plan
              (fun s s' => eq_refl) eq_refl eq_refl eq_refl)
    as (table & revenue & expenses & profit & Ht & _ & Hr & Hf).
  exists totals_table. split; [reflexivity |].
  cbn in Ht. injection Ht as <-.
  cbn in Hr. injection Hr as <- <- <-.
  exact Hf.
Defined.

Lemma generate_when_oracle_down_witness :
  @generate unreachable_services column_only_pandas written_the_same
     {| find_one_sorted := Ok (Some totals_only_doc); find_one := Raise APIError |}
     shop_collections
     int_series (sketch_plotly 10) "show revenue vs expenses"
  = JSONResponse "bar: value by metric"
      ("Plan: {'dataset': 'kpi_totals', 'chart_type': 'bar', 'x': 'metric', "
       ++ "'y': 'value', 'filter': None, 'calculation': None, "
       ++ "'reason': 'Fallback plan'}. Rows: 3").
Proof.
  exact (@generate_when_oracle_down column_only_pandas written_the_same
           unreachable_services
           {| find_one_sorted := Ok (Some totals_only_doc); find_one := Raise APIError |}
           shop_collections int_series (sketch_plotly 10)
           "show revenue vs expenses" _ _ _ _ _ eq_refl eq_refl eq_refl eq_refl eq_refl).
Defined.

(* ===================================================================== *)
(** * Products, and runs on a small shop *)
(* ===================================================================== *)

Section ProductsMargin.

Context `{Library} `{Collections} `{SeriesArith}.

(** When the conversions keep the length of a series, and at least one
    product has a price and one an expense, the products table gets a
    [margin] column: the numeric prices minus the numeric expenses of the
    documents, row by row; the table keeps one row per document and every
    other column as it was. *)
Theorem fetch_products_df_margin (docs : list dict) :
  (forall cells, length (to_numeric_fillna0 cells) = length cells) ->
  (forall a b, length a = length b -> length (series_sub a b) = length a) ->
  products_find = Ok docs ->
  (exists doc, In doc docs /\ In "price" (keys doc)) ->
  (exists doc, In doc docs /\ In "expense" (keys doc)) ->
  exists df,
    fetch_products_df = Ok df
    /\ length (rows df) = length docs
    /\ column df "margin"
       = series_sub
           (to_numeric_fillna0 (map (fun doc => dict_get_or doc "price" NaN) docs))
           (to_numeric_fillna0 (map (fun doc => dict_get_or doc "expense" NaN) docs))
    /\ (forall c, In c (columns (_df_from_docs docs)) -> c <> "margin" ->
                  column df c = column (_df_from_docs docs) c).
Proof.
  intros Hnum Hsub Hfind (d1 & Hd1 & Hk1) (d2 & Hd2 & Hk2).
  destruct (_df_from_docs_facts docs) as (Hlen & _ & Hcols & _ & Hwf & Hcells).
  cbv zeta in Hlen, Hcols, Hwf, Hcells.
  set (df0 := _df_from_docs docs) in *.
  assert (Hp : In "price" (columns df0)) by (apply Hcols; [discriminate | eauto]).
  assert (He : In "expense" (columns df0)) by (apply Hcols; [discriminate | eauto]).
  assert (Hne : empty df0 = false).
  { apply empty_false.
    - intros E. rewrite E in Hp. destruct Hp.
    - intros E. rewrite E in Hlen. destruct docs; [destruct Hd1 | discriminate]. }
  set (cells := series_sub (to_numeric_fillna0 (column df0 "price"))
                           (to_numeric_fillna0 (column df0 "expense"))).
  assert (Hcount : length cells = length (rows df0)).
  { unfold cells. rewrite Hsub; rewrite !Hnum; unfold column; now rewrite !length_map. }
  unfold fetch_products_df. rewrite Hfind. cbn [bind Ok].
  fold df0. rewrite Hne, (proj2 (in_strs_In _ _) Hp), (proj2 (in_strs_In _ _) He).
  cbn [negb andb]. fold cells.
  eexists. split; [reflexivity |].
  split; [now rewrite rows_add_column |].
  split.
  - rewrite (column_add_column_same _ _ _ Hwf Hcount). unfold cells.
    now rewrite (Hcells "price" Hp eq_refl), (Hcells "expense" He eq_refl).
  - intros c Hc Hm. now apply column_add_column_other.
Qed.

End ProductsMargin.

Lemma fetch_products_df_margin_witness :
  exists df,
    @fetch_products_df column_only_pandas shop_collections int_series = Ok df
    /\ column df "margin" = [VInt 18; VInt 3]
    /\ columns df = ["price"; "expense"; "createdAt"; "margin"].
Proof.
  destruct (@fetch_products_df_margin column_only_pandas shop_collections int_series
              [[("_id", VStr "p1"); ("price", VInt 30); ("expense", VInt 12);
                ("createdAt", VStr "2024-01-05")];
               [("_id", VStr "p2"); ("price", VInt 8); ("expense", VInt 5)]])
    as (df & Hdf & _ & Hm & _).
  - reflexivity.
  - intros a b E. cbn. now rewrite length_map, length_combine, E, Nat.min_id.
  - reflexivity.
  - eexists. split; [left; reflexivity |]. cbn. tauto.
  - eexists. split; [left; reflexivity |]. cbn. tauto.
  - exists df. split; [exact Hdf |]. split; [exact Hm |].
    cbn in Hdf. injection Hdf as <-. reflexivity.
Defined.

Lemma llm_plan_finalized_witness :
  @chat_completions_create list_services "chart my sales" = Completion [Some "[1, 2]"]
  /\ @llm_plan list_services "chart my sales"
     = Ok (VDict [("dataset", VStr "kpi_totals"); ("chart_type", VStr "bar");
                  ("x", VStr "metric"); ("y", VStr "value");
                  ("filter", VNone); ("calculation", VNone);
                  ("reason", VStr "Fallback plan")]).
Proof.
  split; [reflexivity |].
  refine (proj2 (@llm_plan_finalized list_services "chart my sales")
            "[1, 2]" [] (VList [VInt 1; VInt 2]) eq_refl eq_refl _).
  intros d. discriminate.
Defined.

Lemma melt_expenses_by_category_witness :
  exists fs df,
    @melt_kpi_document column_only_pandas categories_doc = Ok fs
    /\ frames_get fs "kpi_expensesByCategory" = Some df
    /\ length (rows df) = 2
    /\ column df "category" = [VStr "salaries"; VStr "supplies"].
Proof.
  destruct (@melt_expenses_by_category column_only_pandas categories_doc
              ("salaries", VInt 30) [("supplies", VInt 10)] _ eq_refl eq_refl)
    as (df & Hdf & _ & Hlen & Hcat).
  eexists. exists df.
  split; [reflexivity |]. split; [exact Hdf |]. split; [exact Hlen | exact Hcat].
Defined.

Lemma melt_expenses_not_a_mapping_witness :
  @melt_kpi_document column_only_pandas
     [("totalRevenue", VInt 100); ("expensesByCategory", VList [VStr "salaries"])]
  = Raise AttributeError.
Proof.
  apply (@melt_expenses_not_a_mapping column_only_pandas _ (VList [VStr "salaries"]));
    [reflexivity | reflexivity | intros items; discriminate].
Defined.

Lemma fetch_kpi_frames_shape_witness :
  @find_one_sorted shop_store = Raise APIError
  /\ @find_one shop_store = Ok (Some totals_only_doc)
  /\ @fetch_kpi_frames column_only_pandas shop_store
     = @melt_kpi_document column_only_pandas totals_only_doc
  /\ @fetch_kpi_frames column_only_pandas down_store = Raise APIError.
Proof.
  split; [reflexivity |]. split; [reflexivity |].
  split.
  - exact (proj1 (proj2 (@fetch_kpi_frames_shape column_only_pandas shop_store))
             APIError (Some totals_only_doc) eq_refl eq_refl).
  - exact (proj2 (proj2 (@fetch_kpi_frames_shape column_only_pandas down_store))
             APIError APIError eq_refl eq_refl).
Defined.

Lemma get_dataframe_for_dataset_dispatch_witness :
  exists df,
    @get_dataframe_for_dataset column_only_pandas shop_store shop_collections int_series
       "kpi_totals" = Ok df
    /\ df = totals_table
    /\ @get_dataframe_for_dataset column_only_pandas shop_store shop_collections int_series
         "orders" = Ok no_frame.
Proof.
  destruct (proj1 (proj2 (proj2 (@get_dataframe_for_dataset_dispatch
                                   column_only_pandas shop_store shop_collections
                                   int_series)))
              "kpi_totals" _ (or_introl eq_refl) eq_refl) as (df & Hget & Hdf).
  exists df. split; [exact Hdf |]. split.
  - cbn in Hget. now injection Hget as <-.
  - apply (proj2 (proj2 (proj2 (proj2 (@get_dataframe_for_dataset_dispatch
                                         column_only_pandas shop_store shop_collections
                                         int_series))))); [| reflexivity].
    cbn. intuition discriminate.
Defined.

Lemma generate_when_store_down_witness :
  @generate unreachable_services column_only_pandas written_the_same down_store
     shop_collections int_series (sketch_plotly 10) "show revenue vs expenses"
  = HTTPException 500.
Proof.
  exact (@generate_when_store_down column_only_pandas written_the_same
           unreachable_services down_store shop_collections int_series (sketch_plotly 10)
           "show revenue vs expenses" APIError APIError eq_refl eq_refl eq_refl).
Defined.

(** The shop charted: the transactions table, and a run of the route with
    the oracle down. *)
Example shop_transactions :
  @fetch_transactions_df column_only_pandas shop_collections
  = Ok (mkDataFrame ["buyer"; "amount"; "productIds"; "productCount"]
          [[VStr "Ada"; VInt 38; VList [VStr "p1"; VStr "p2"]; VInt 2];
           [VStr "Bob"; VInt 8; VStr "p2"; VInt 0];
           [VStr "Cy"; VInt 0; NaN; VInt 0]]).
Proof. reflexivity. Qed.
